(** * Partner vehicle endpoint and plate-driven car form

    A shallow embedding of
    - [src/app/api/partners/[partnerId]/vehicles/route.ts] (handlers [GET]
      and [POST]), and
    - the plate predicate and the debounced lookup effect of
      [src/app/cars/components/simple-car-form.tsx],
    followed by the properties of the specification that concern them.

    The handlers are written in a small state-and-exception monad over the
    store behind [db]; every [db] call is logged, so that "performs no
    write" and "the value passed to persistence" are statements about the
    log.  Console output is dropped; [auth()] and the store itself are
    taken not to fail (no outage, no concurrent request). *)

From Stdlib Require Import ZArith NArith String Ascii List Lia.
From stdpp Require Import gmap strings list fin_maps sorting.

Set Warnings "-register-all".
Local Open Scope string_scope.
Local Open Scope Z_scope.

(* ===================================================================== *)
(** ** JavaScript values                                                 *)
(* ===================================================================== *)

Module JS.

(** Values reachable from a parsed JSON body, plus [undefined] for the
    result of reading a property that is not there.  [JNum z] is the Number
    whose value is the integer [z]; this covers the safe integers and the
    integers of at most 15 significant digits (the integers that a Number
    holds and prints exactly); the numeric fields of the endpoint (year,
    capacity) are integers, and fractional Numbers are not represented.
    Strings are sequences of code units below 256. *)
Inductive JSValue : Type :=
  | JUndefined
  | JNull
  | JBool (b : bool)
  | JNum (z : Z)
  | JStr (s : string)
  | JArr (xs : list JSValue)
  | JObj (fields : gmap string JSValue).

(** The result of [parseInt]: an integral Number or [NaN].  [Int z] carries
    the mathematical integer read from the digits; it is the Number value
    itself whenever [z] is a safe integer ([|z| < 2^53]). *)
Inductive JSNumber : Type :=
  | NaN
  | Int (z : Z).

(** [new Date(v)], kept symbolically by the value it was constructed from. *)
Inductive JSDate : Type :=
  | NewDate (v : JSValue).

(** ToBoolean. *)
Definition truthy (v : JSValue) : bool :=
  match v with
  | JUndefined | JNull => false
  | JBool b => b
  | JNum z => negb (z =? 0)
  | JStr s => negb (String.eqb s "")
  | JArr _ | JObj _ => true
  end.

(** [v.k] once [v] is known not to be [null]: own properties of an object,
    [undefined] for anything else (none of the names the handlers read is an
    inherited property of a string, number, boolean or array). *)
Definition get (v : JSValue) (k : string) : JSValue :=
  match v with
  | JObj m => default JUndefined (m !! k)
  | _ => JUndefined
  end.

(** [a || b] *)
Definition or_else (a b : JSValue) : JSValue := if truthy a then a else b.

(** [Array.prototype.join] on an array of strings. *)
Fixpoint join (sep : string) (l : list string) : string :=
  match l with
  | [] => ""
  | [x] => x
  | x :: rest => x +:+ sep +:+ join sep rest
  end.

(** *** Number::toString on integral Numbers *)

Definition digit_char (d : N) : ascii := ascii_of_N (48 + d).

Fixpoint decimal_go (fuel : nat) (n : N) (acc : string) : string :=
  match fuel with
  | O => acc
  | S fuel' =>
      let acc' := String (digit_char (n mod 10)) acc in
      if (n / 10 =? 0)%N then acc' else decimal_go fuel' (n / 10)%N acc'
  end.

(** The decimal digits of [n]. *)
Definition decimal_N (n : N) : string := decimal_go (S (N.to_nat (N.log2 n))) n "".

(** The decimal numeral of [z], with a minus sign when negative. *)
Definition decimal_Z (z : Z) : string :=
  if z <? 0 then String "-" (decimal_N (Z.to_N (- z))) else decimal_N (Z.to_N z).

Fixpoint strip_trailing_zeros (s : string) : string :=
  match s with
  | EmptyString => EmptyString
  | String c rest =>
      match strip_trailing_zeros rest with
      | EmptyString => if Ascii.eqb c "0" then EmptyString else String c EmptyString
      | kept => String c kept
      end
  end.

(** Exponent notation: the significant digits, a point after the first
    when there are several, then [e+] and the decimal exponent. *)
Definition exponent_form (n : N) : string :=
  let exponent := decimal_N (N.of_nat (String.length (decimal_N n)) - 1) in
  match strip_trailing_zeros (decimal_N n) with
  | EmptyString => EmptyString
  | String d EmptyString => String d ("e+" +:+ exponent)
  | String d more => String d ("." +:+ more +:+ "e+" +:+ exponent)
  end.

(** Plain decimal digits below [10^21] in magnitude, exponent notation from
    there on.  The digits are those of [z]: they are what Number::toString
    prints when [z] is a safe integer ([|z| < 2^53]); beyond, a Number is a
    double and prints the shortest digits that read back as that double. *)
Definition NumberToString (z : Z) : string :=
  let n := Z.to_N (Z.abs z) in
  let digits := if (n <? 10 ^ 21)%N then decimal_N n else exponent_form n in
  if z <? 0 then String "-" digits else digits.

(** ToString, as [parseInt] applies it to its argument, where it returns.
    On an object that has a property [toString] of its own, and on an array
    that holds such an object, the conversion throws a TypeError instead (a
    value parsed from JSON is never callable); the string given here for
    such a value is that of an object without the property. *)
Fixpoint ToString (v : JSValue) : string :=
  match v with
  | JUndefined => "undefined"
  | JNull => "null"
  | JBool true => "true"
  | JBool false => "false"
  | JNum z => NumberToString z
  | JStr s => s
  | JArr xs =>
      join ","
        (List.map (fun x => match x with
                            | JUndefined | JNull => ""
                            | _ => ToString x
                            end) xs)
  | JObj _ => "[object Object]"
  end.

(** *** parseInt(string) with no radix argument *)

(** StrWhiteSpaceChar, restricted to code units below 256. *)
Definition isStrWhiteSpaceChar (c : ascii) : bool :=
  let n := N_of_ascii c in
  ((n =? 9) || (n =? 10) || (n =? 11) || (n =? 12) || (n =? 13)
   || (n =? 32) || (n =? 160))%N.

Fixpoint trimStart (s : string) : string :=
  match s with
  | String c rest => if isStrWhiteSpaceChar c then trimStart rest else s
  | EmptyString => s
  end.

(** Value of a code unit as a digit in some radix up to 36. *)
Definition digit_value (c : ascii) : option Z :=
  let n := Z.of_N (N_of_ascii c) in
  if (48 <=? n) && (n <=? 57) then Some (n - 48)
  else if (97 <=? n) && (n <=? 122) then Some (n - 87)
  else if (65 <=? n) && (n <=? 90) then Some (n - 55)
  else None.

(** The longest prefix of [s] made of radix-[R] digits. *)
Fixpoint radix_digits (R : Z) (s : string) : list Z :=
  match s with
  | String c rest =>
      match digit_value c with
      | Some d => if d <? R then d :: radix_digits R rest else []
      | None => []
      end
  | EmptyString => []
  end.

Definition mathInt (R : Z) (ds : list Z) : Z :=
  fold_left (fun acc d => acc * R + d) ds 0.

Definition strip_sign (s : string) : Z * string :=
  match s with
  | String "-" rest => (-1, rest)
  | String "+" rest => (1, rest)
  | _ => (1, s)
  end.

Definition strip_hex_prefix (s : string) : Z * string :=
  match s with
  | String "0" (String "x" rest) => (16, rest)
  | String "0" (String "X" rest) => (16, rest)
  | _ => (10, s)
  end.

(** [parseInt] on a string.  The result carries the integer the digits
    denote; the Number returned is that integer when it is a safe integer,
    and the double nearest to it beyond. *)
Definition parseInt_string (inputString : string) : JSNumber :=
  let '(sign, s) := strip_sign (trimStart inputString) in
  let '(R, s) := strip_hex_prefix s in
  match radix_digits R s with
  | [] => NaN
  | ds => Int (sign * mathInt R ds)
  end.

(** [parseInt(v)], where [ToString] returns. *)
Definition parseInt (v : JSValue) : JSNumber := parseInt_string (ToString v).

End JS.
Export JS.

(* ===================================================================== *)
(** ** Persistence layer                                                 *)
(* ===================================================================== *)

Module Db.

Inductive VehicleType : Type := SEDAN | SUV | VAN | LUXURY | LIMOUSINE.

Inductive VehicleStatus : Type := AVAILABLE | IN_USE | MAINTENANCE | OUT_OF_SERVICE.

Record Partner : Type := { partner_id : string }.

(** A stored vehicle: the fields of [interface Vehicle], with the types of
    the data model (integer year and capacity, enumerated type and status). *)
Record Vehicle : Type := {
  id : N;
  make : string;
  model : string;
  year : Z;
  licensePlate : string;
  isForeignPlate : bool;
  color : option string;
  capacity : Z;
  vehicleType : VehicleType;
  status : VehicleStatus;
  lastMaintenance : option JSDate;
  fuelType : option string;
  registrationDate : option string;
  createdAt : Z;
  updatedAt : Z;
  partnerId : string
}.

(** The partners are known by their ids only: the handlers test a partner
    for existence and read nothing else of it. *)
Record Store : Type := {
  partners : gset string;
  vehicles : list Vehicle
}.

(** The object literal handed to [db.vehicle.create({ data })]. *)
Record VehicleCreateInput : Type := {
  data_make : JSValue;
  data_model : JSValue;
  data_year : JSNumber;
  data_licensePlate : JSValue;
  data_isForeignPlate : JSValue;
  data_color : JSValue;
  data_capacity : JSNumber;
  data_vehicleType : JSValue;
  data_status : JSValue;
  data_lastMaintenance : option JSDate;
  data_partnerId : string;
  data_fuelType : JSValue;
  data_registrationDate : JSValue
}.

(** Calls made on the [db] client, in the order they are issued. *)
Inductive DbCall : Type :=
  | PartnerFindUnique (where_id : string)
  | VehicleFindMany (where_partnerId : string)
  | VehicleFindUnique (where_licensePlate : JSValue)
  | VehicleCreate (data : VehicleCreateInput).

Definition as_string (v : JSValue) : option string :=
  match v with JStr s => Some s | _ => None end.

Definition as_optional_string (v : JSValue) : option (option string) :=
  match v with
  | JUndefined | JNull => Some None
  | JStr s => Some (Some s)
  | _ => None
  end.

Definition as_bool (v : JSValue) : option bool :=
  match v with JBool b => Some b | _ => None end.

Definition as_integer (n : JSNumber) : option Z :=
  match n with Int z => Some z | NaN => None end.

Definition as_VehicleType (v : JSValue) : option VehicleType :=
  match v with
  | JStr "SEDAN" => Some SEDAN
  | JStr "SUV" => Some SUV
  | JStr "VAN" => Some VAN
  | JStr "LUXURY" => Some LUXURY
  | JStr "LIMOUSINE" => Some LIMOUSINE
  | _ => None
  end.

Definition as_VehicleStatus (v : JSValue) : option VehicleStatus :=
  match v with
  | JStr "AVAILABLE" => Some AVAILABLE
  | JStr "IN_USE" => Some IN_USE
  | JStr "MAINTENANCE" => Some MAINTENANCE
  | JStr "OUT_OF_SERVICE" => Some OUT_OF_SERVICE
  | _ => None
  end.

Definition fresh_id (vs : list Vehicle) : N :=
  N.succ (fold_right N.max 0%N (List.map id vs)).

(** Modelled from the spec: the row a create call stores (the ORM client
    and its schema are not among the sources).  Every attribute must fit
    the type the data model gives it; the row gets a new id and the current
    time as creation and update timestamps. *)
Definition row_of_input (new_id : N) (time : Z) (d : VehicleCreateInput)
  : option Vehicle :=
  mk ← as_string (data_make d);
  md ← as_string (data_model d);
  y ← as_integer (data_year d);
  lp ← as_string (data_licensePlate d);
  fp ← as_bool (data_isForeignPlate d);
  col ← as_optional_string (data_color d);
  cap ← as_integer (data_capacity d);
  vt ← as_VehicleType (data_vehicleType d);
  vs ← as_VehicleStatus (data_status d);
  ft ← as_optional_string (data_fuelType d);
  rd ← as_optional_string (data_registrationDate d);
  Some {| id := new_id; make := mk; model := md; year := y;
          licensePlate := lp; isForeignPlate := fp; color := col;
          capacity := cap; vehicleType := vt; status := vs;
          lastMaintenance := data_lastMaintenance d;
          fuelType := ft; registrationDate := rd;
          createdAt := time; updatedAt := time;
          partnerId := data_partnerId d |}.

Definition has_plate (p : string) (v : Vehicle) : bool :=
  String.eqb (licensePlate v) p.

(** Modelled from the spec: [partner.findUnique({ where: { id } })]. *)
Definition find_partner (pid : string) (st : Store) : option Partner :=
  if decide (pid ∈ partners st) then Some {| partner_id := pid |} else None.

(** Modelled from the spec: [vehicle.findUnique({ where: { licensePlate } })],
    the stored vehicle with that plate if there is one. *)
Definition find_by_plate (p : string) (st : Store) : option Vehicle :=
  List.find (has_plate p) (vehicles st).

(** Creation time descending. *)
Definition created_after (v1 v2 : Vehicle) : Prop := createdAt v2 <= createdAt v1.

#[global] Instance created_after_dec v1 v2 : Decision (created_after v1 v2).
Proof. unfold created_after. apply _. Defined.

(** Modelled from the spec: [vehicle.findMany({ where: { partnerId },
    orderBy: { createdAt: "desc" } })]. *)
Definition find_many (pid : string) (st : Store) : list Vehicle :=
  merge_sort created_after
    (List.filter (fun v => String.eqb (partnerId v) pid) (vehicles st)).

(** Modelled from the spec: [vehicle.create({ data })].  The call fails when
    an attribute does not fit its column or when the plate is already taken
    (unique constraint); otherwise the new row is appended and returned. *)
Definition create (time : Z) (d : VehicleCreateInput) (st : Store)
  : option (Vehicle * Store) :=
  match row_of_input (fresh_id (vehicles st)) time d with
  | Some v =>
      if List.existsb (has_plate (licensePlate v)) (vehicles st) then None
      else Some (v, {| partners := partners st; vehicles := vehicles st ++ [v] |})
  | None => None
  end.

End Db.
Export Db.

(* ===================================================================== *)
(** ** Effects of a handler: the store, the clock, thrown exceptions     *)
(* ===================================================================== *)

Inductive Exception : Type :=
  | SyntaxError      (* req.json() on a body that is not JSON *)
  | TypeError        (* property read on null *)
  | ClientError.     (* raised by the db client *)

Inductive Completion (A : Type) : Type :=
  | Normal (a : A)
  | Throw (e : Exception).
Arguments Normal {A} a.
Arguments Throw {A} e.

(** What a handler runs against: the store behind [db], the time of the
    request, and the log of [db] calls issued so far. *)
Record World : Type := {
  db : Store;
  now : Z;
  calls : list DbCall
}.

Definition Eff (A : Type) : Type := World -> Completion A * World.

Definition ret {A} (a : A) : Eff A := fun w => (Normal a, w).

Definition throw {A} (e : Exception) : Eff A := fun w => (Throw e, w).

Definition bind {A B} (m : Eff A) (k : A -> Eff B) : Eff B :=
  fun w =>
    match m w with
    | (Normal a, w') => k a w'
    | (Throw e, w') => (Throw e, w')
    end.

Notation "x <- m ;; k" := (bind m (fun x => k))
  (at level 100, m at next level, right associativity).

(** [try { body } catch (error) { return handler }] *)
Definition try_catch {A} (body : Eff A) (handler : Exception -> A)
  : World -> A * World :=
  fun w =>
    match body w with
    | (Normal a, w') => (a, w')
    | (Throw e, w') => (handler e, w')
    end.

Definition record_call (c : DbCall) (w : World) : World :=
  {| db := db w; now := now w; calls := calls w ++ [c] |}.

Definition db_partner_findUnique (where_id : string) : Eff (option Partner) :=
  fun w => (Normal (find_partner where_id (db w)),
            record_call (PartnerFindUnique where_id) w).

Definition db_vehicle_findMany (where_partnerId : string) : Eff (list Vehicle) :=
  fun w => (Normal (find_many where_partnerId (db w)),
            record_call (VehicleFindMany where_partnerId) w).

(** The client refuses a [where] argument that is not a string. *)
Definition db_vehicle_findUnique (where_licensePlate : JSValue)
  : Eff (option Vehicle) :=
  fun w =>
    let w' := record_call (VehicleFindUnique where_licensePlate) w in
    match where_licensePlate with
    | JStr p => (Normal (find_by_plate p (db w)), w')
    | _ => (Throw ClientError, w')
    end.

Definition db_vehicle_create (data : VehicleCreateInput) : Eff Vehicle :=
  fun w =>
    let w' := record_call (VehicleCreate data) w in
    match create (now w) data (db w) with
    | Some (v, st') => (Normal v, {| db := st'; now := now w'; calls := calls w' |})
    | None => (Throw ClientError, w')
    end.

(** [v.k]: a TypeError on [null] and [undefined]. *)
Definition prop (v : JSValue) (k : string) : Eff JSValue :=
  match v with
  | JNull | JUndefined => throw TypeError
  | _ => ret (get v k)
  end.

(* ===================================================================== *)
(** ** The route handlers                                                *)
(* ===================================================================== *)

Module Route.

(** What a handler sees of a request: the identity [auth()] resolves to
    ([None] for [null]), the route parameter, and the outcome of
    [req.json()] ([None] when the body is not JSON and the call rejects). *)
Record Request : Type := {
  userId : option string;
  params_partnerId : string;
  body : option JSValue
}.

Inductive Body : Type :=
  | ErrorBody (error : string)
  | VehicleBody (vehicle : Vehicle)
  | VehiclesBody (vehicles : list Vehicle).

Record Response : Type := {
  res_body : Body;
  res_status : Z
}.

(** [NextResponse.json(body, { status })]; the status is 200 when the
    source leaves it out. *)
Definition NextResponse_json (b : Body) (status : Z) : Response :=
  {| res_body := b; res_status := status |}.

(** [!userId] *)
Definition no_user (u : option string) : bool :=
  match u with
  | None => true
  | Some s => String.eqb s ""
  end.

Definition req_json (req : Request) : Eff JSValue :=
  match body req with
  | Some data => ret data
  | None => throw SyntaxError
  end.

(** [!data.k] *)
Definition lacks (data : JSValue) (k : string) : Eff bool :=
  v <- prop data k ;; ret (negb (truthy v)).

(** [a || b] on conditions *)
Definition orE (a b : Eff bool) : Eff bool :=
  x <- a ;; if x then ret true else b.

(** [if (c) arr.push(name)] *)
Definition push_if (c : Eff bool) (name : string) (arr : list string)
  : Eff (list string) :=
  x <- c ;; ret (if x then (arr ++ [name])%list else arr).

Definition GET (req : Request) : World -> Response * World :=
  try_catch
    (if no_user (userId req) then
       ret (NextResponse_json (ErrorBody "Unauthorized") 401)
     else
       let partnerId := params_partnerId req in
       partner <- db_partner_findUnique partnerId ;;
       match partner with
       | None => ret (NextResponse_json (ErrorBody "Partner not found") 404)
       | Some _ =>
           vehicles <- db_vehicle_findMany partnerId ;;
           ret (NextResponse_json (VehiclesBody vehicles) 200)
       end)
    (fun _ => NextResponse_json (ErrorBody "Failed to fetch vehicles") 500).

(** [parseInt] and [new Date] are embedded where they return.  On a year,
    a capacity or a truthy lastMaintenance on which [ToString] throws, the
    source leaves for its catch clause after the duplicate check, without
    a create call; the statements that assert a create call or a success
    take such bodies aside. *)
Definition POST (req : Request) : World -> Response * World :=
  try_catch
    (if no_user (userId req) then
       ret (NextResponse_json (ErrorBody "Unauthorized") 401)
     else
       let partnerId := params_partnerId req in
       data <- req_json req ;;
       partner <- db_partner_findUnique partnerId ;;
       match partner with
       | None => ret (NextResponse_json (ErrorBody "Partner not found") 404)
       | Some _ =>
           invalid <- orE (orE (orE (lacks data "brand") (lacks data "model"))
                               (lacks data "year"))
                          (lacks data "licensePlate") ;;
           if invalid then
             missingFields <- push_if (lacks data "brand") "brand" [] ;;
             missingFields <- push_if (lacks data "model") "model" missingFields ;;
             missingFields <- push_if (lacks data "year") "year" missingFields ;;
             missingFields <- push_if (lacks data "licensePlate") "licensePlate"
                                      missingFields ;;
             ret (NextResponse_json
                    (ErrorBody ("Missing required fields: "
                                +:+ join ", " missingFields))
                    400)
           else
             plate <- prop data "licensePlate" ;;
             existingVehicle <- db_vehicle_findUnique plate ;;
             match existingVehicle with
             | Some _ =>
                 ret (NextResponse_json
                        (ErrorBody "A vehicle with this license plate already exists")
                        400)
             | None =>
                 y <- prop data "year" ;;
                 let year := parseInt y in
                 c <- prop data "capacity" ;;
                 let capacity := parseInt c in
                 brand <- prop data "brand" ;;
                 model <- prop data "model" ;;
                 licensePlate <- prop data "licensePlate" ;;
                 isForeignPlate <- prop data "isForeignPlate" ;;
                 color <- prop data "color" ;;
                 vehicleType <- prop data "vehicleType" ;;
                 status <- prop data "status" ;;
                 lm <- prop data "lastMaintenance" ;;
                 lastMaintenance <-
                   (if truthy lm then
                      lm' <- prop data "lastMaintenance" ;; ret (Some (NewDate lm'))
                    else ret None) ;;
                 fuelType <- prop data "fuelType" ;;
                 registrationDate <- prop data "registrationDate" ;;
                 vehicle <- db_vehicle_create
                   {| data_make := brand;
                      data_model := model;
                      data_year := year;
                      data_licensePlate := licensePlate;
                      data_isForeignPlate := or_else isForeignPlate (JBool false);
                      data_color := color;
                      data_capacity := capacity;
                      data_vehicleType := or_else vehicleType (JStr "SEDAN");
                      data_status := or_else status (JStr "AVAILABLE");
                      data_lastMaintenance := lastMaintenance;
                      data_partnerId := partnerId;
                      data_fuelType := fuelType;
                      data_registrationDate := registrationDate |} ;;
                 ret (NextResponse_json (VehicleBody vehicle) 200)
             end
       end)
    (fun _ => NextResponse_json (ErrorBody "Failed to add vehicle") 500).

(** The object literal of the create call as a function of the route
    parameter and the parsed body. *)
Definition create_data (partnerId : string) (data : JSValue) : VehicleCreateInput :=
  {| data_make := get data "brand";
     data_model := get data "model";
     data_year := parseInt (get data "year");
     data_licensePlate := get data "licensePlate";
     data_isForeignPlate := or_else (get data "isForeignPlate") (JBool false);
     data_color := get data "color";
     data_capacity := parseInt (get data "capacity");
     data_vehicleType := or_else (get data "vehicleType") (JStr "SEDAN");
     data_status := or_else (get data "status") (JStr "AVAILABLE");
     data_lastMaintenance :=
       (if truthy (get data "lastMaintenance")
        then Some (NewDate (get data "lastMaintenance")) else None);
     data_partnerId := partnerId;
     data_fuelType := get data "fuelType";
     data_registrationDate := get data "registrationDate" |}.

(** The required fields, in the order the handler tests them. *)
Definition required_fields : list string :=
  ["brand"; "model"; "year"; "licensePlate"].

End Route.
Export Route.

(* ===================================================================== *)
(** ** The plate-driven form                                             *)
(* ===================================================================== *)

Module CarForm.

(** The fragment of regular expressions the plate pattern is written in. *)
Inductive Regex : Type :=
  | Range (lo hi : ascii)         (* [lo-hi] *)
  | Digit                         (* \d *)
  | Char (c : ascii)
  | Times (n : nat) (r : Regex)   (* r{n} *)
  | Seq (r1 r2 : Regex).

Definition code (c : ascii) : N := N_of_ascii c.

(** Matches [r] at the start of [s] and returns what is left of [s]. *)
Fixpoint consume (r : Regex) (s : string) : option string :=
  match r with
  | Range lo hi =>
      match s with
      | String c rest =>
          if ((code lo <=? code c) && (code c <=? code hi))%N then Some rest else None
      | EmptyString => None
      end
  | Digit =>
      match s with
      | String c rest =>
          if ((48 <=? code c) && (code c <=? 57))%N then Some rest else None
      | EmptyString => None
      end
  | Char c0 =>
      match s with
      | String c rest => if Ascii.eqb c c0 then Some rest else None
      | EmptyString => None
      end
  | Times n r1 =>
      (fix times (n : nat) (s : string) : option string :=
         match n with
         | O => Some s
         | S n' =>
             match consume r1 s with
             | Some rest => times n' rest
             | None => None
             end
         end) n s
  | Seq r1 r2 =>
      match consume r1 s with
      | Some rest => consume r2 rest
      | None => None
      end
  end.

(** [/^r$/.test(s)]: the whole of [s] matches [r]. *)
Definition test_anchored (r : Regex) (s : string) : bool :=
  match consume r s with
  | Some EmptyString => true
  | _ => false
  end.

(** [/^[A-Z]{2}-\d{3}-[A-Z]{2}$/] *)
Definition regex : Regex :=
  Seq (Times 2 (Range "A" "Z"))
    (Seq (Char "-")
       (Seq (Times 3 Digit)
          (Seq (Char "-") (Times 2 (Range "A" "Z"))))).

Definition isFrenchPlateFormat (plate : string) : bool :=
  test_anchored regex plate.

(** The format in the words of the specification: two uppercase letters, a
    hyphen, three digits, a hyphen, two uppercase letters. *)
Definition uppercase_letter (c : ascii) : Prop := (65 <= code c <= 90)%N.

Definition decimal_digit (c : ascii) : Prop := (48 <= code c <= 57)%N.

Definition plate_shape (s : string) : Prop :=
  exists a b d1 d2 d3 c d,
    s = String a (String b (String "-" (String d1 (String d2 (String d3
          (String "-" (String c (String d EmptyString))))))))
    /\ uppercase_letter a /\ uppercase_letter b
    /\ decimal_digit d1 /\ decimal_digit d2 /\ decimal_digit d3
    /\ uppercase_letter c /\ uppercase_letter d.

(** *** The debounce effect

    [useEffect(() => { if (isFrenchPlate && licensePlate &&
    isFrenchPlateFormat(licensePlate)) { const timer = setTimeout(() =>
    fetchVehicleData(licensePlate), 1000); return () => clearTimeout(timer) } },
    [licensePlate, isFrenchPlate])], run against a clock in milliseconds. *)

Definition quiet_period : N := 1000.

(** A pending [setTimeout]: when it is due and the plate its callback
    closes over. *)
Record Timer : Type := {
  due : N;
  plate_arg : string
}.

Record FormState : Type := {
  isFrenchPlate : bool;          (* form.watch("isFrenchPlate") *)
  licensePlate : string;         (* form.watch("licensePlate") *)
  timer : option Timer;
  clock : N;
  last_edit : N                  (* when licensePlate last changed *)
}.

Inductive Event : Type :=
  | Elapse (ms : N)                 (* time passes *)
  | TypePlate (value : string)      (* the plate field is edited *)
  | SetFrenchPlate (checked : bool) (* the switch is flipped *)
  | TimerExpires.                   (* the runtime runs a due timeout callback *)

(** The body of the effect: the timer it sets, if any. *)
Definition effect (french : bool) (plate : string) (time : N) : option Timer :=
  if french && negb (String.eqb plate "") && isFrenchPlateFormat plate
  then Some {| due := (time + quiet_period)%N; plate_arg := plate |}
  else None.

(** First render, with the default values, then the effect. *)
Definition mount (french : bool) (plate : string) (time : N) : FormState :=
  {| isFrenchPlate := french; licensePlate := plate;
     timer := effect french plate time; clock := time; last_edit := time |}.

(** One event.  A change of a dependency runs the previous cleanup (the
    pending timer is cleared) and then the effect again; an event that
    leaves both dependencies as they were does not.  The second component
    is the plate [fetchVehicleData] is called with, if it is called. *)
Definition step (st : FormState) (ev : Event) : FormState * option string :=
  match ev with
  | Elapse ms =>
      ({| isFrenchPlate := isFrenchPlate st; licensePlate := licensePlate st;
          timer := timer st; clock := (clock st + ms)%N;
          last_edit := last_edit st |}, None)
  | TypePlate value =>
      if String.eqb value (licensePlate st) then (st, None)
      else
        ({| isFrenchPlate := isFrenchPlate st; licensePlate := value;
            timer := effect (isFrenchPlate st) value (clock st);
            clock := clock st; last_edit := clock st |}, None)
  | SetFrenchPlate checked =>
      if Bool.eqb checked (isFrenchPlate st) then (st, None)
      else
        ({| isFrenchPlate := checked; licensePlate := licensePlate st;
            timer := effect checked (licensePlate st) (clock st);
            clock := clock st; last_edit := last_edit st |}, None)
  | TimerExpires =>
      match timer st with
      | Some t =>
          if (due t <=? clock st)%N then
            ({| isFrenchPlate := isFrenchPlate st; licensePlate := licensePlate st;
                timer := None; clock := clock st; last_edit := last_edit st |},
             Some (plate_arg t))
          else (st, None)
      | None => (st, None)
      end
  end.

Fixpoint run (st : FormState) (evs : list Event) : FormState :=
  match evs with
  | [] => st
  | ev :: rest => run (fst (step st ev)) rest
  end.

End CarForm.

(* ===================================================================== *)
(** ** Vocabulary of the statements                                      *)
(* ===================================================================== *)

(** [null] or [undefined]: the values a property read throws on. *)
Definition nullish (v : JSValue) : bool :=
  match v with
  | JNull | JUndefined => true
  | _ => false
  end.

(** The body does not supply [k]. *)
Definition absent (data : JSValue) (k : string) : Prop := get data k = JUndefined.

(** The required fields whose value is falsy, in the handler's order. *)
Definition missing (data : JSValue) : list string :=
  List.filter (fun k => negb (truthy (get data k))) required_fields.

Definition authenticated (req : Request) : Prop := no_user (userId req) = false.

Definition partner_exists (req : Request) (w : World) : bool :=
  bool_decide (params_partnerId req ∈ partners (db w)).

(** Some stored vehicle, of whatever partner, carries the plate [p]. *)
Definition plate_taken (p : string) (st : Store) : bool :=
  List.existsb (has_plate p) (vehicles st).

(** The request was answered with status 200 and the created record [v]. *)
Definition succeeds_with (req : Request) (w : World) (v : Vehicle) : Prop :=
  fst (POST req w) = NextResponse_json (VehicleBody v) 200.

Definition is_create (c : DbCall) : bool :=
  match c with
  | VehicleCreate _ => true
  | _ => false
  end.

(** The [db] calls a handler issued, given the worlds before and after. *)
Definition issued (before after : World) : list DbCall :=
  drop (length (calls before)) (calls after).

(** The handler went as far as [db.vehicle.create]. *)
Definition reaches_create (before after : World) : bool :=
  List.existsb is_create (issued before after).

Definition with_body (req : Request) (data : JSValue) : Request :=
  {| userId := userId req; params_partnerId := params_partnerId req;
     body := Some data |}.

Definition error_response (msg : string) (status : Z) : Response :=
  NextResponse_json (ErrorBody msg) status.

(** [POST] as a decision table over the request and the store. *)
Definition POST_table (req : Request) (w : World) : Response * World :=
  if no_user (userId req) then (error_response "Unauthorized" 401, w)
  else
    match body req with
    | None => (error_response "Failed to add vehicle" 500, w)
    | Some data =>
        let pid := params_partnerId req in
        let w1 := record_call (PartnerFindUnique pid) w in
        if decide (pid ∈ partners (db w)) then
          if nullish data then (error_response "Failed to add vehicle" 500, w1)
          else
            match missing data with
            | _ :: _ =>
                (error_response
                   ("Missing required fields: " +:+ join ", " (missing data)) 400,
                 w1)
            | [] =>
                let w2 := record_call (VehicleFindUnique (get data "licensePlate")) w1 in
                match get data "licensePlate" with
                | JStr p =>
                    match find_by_plate p (db w) with
                    | Some _ =>
                        (error_response
                           "A vehicle with this license plate already exists" 400,
                         w2)
                    | None =>
                        let d := create_data pid data in
                        let w3 := record_call (VehicleCreate d) w2 in
                        match create (now w) d (db w) with
                        | Some (v, st') =>
                            (NextResponse_json (VehicleBody v) 200,
                             {| db := st'; now := now w; calls := calls w3 |})
                        | None => (error_response "Failed to add vehicle" 500, w3)
                        end
                    end
                | _ => (error_response "Failed to add vehicle" 500, w2)
                end
            end
        else (error_response "Partner not found" 404, w1)
    end.



(** [Number.isSafeInteger]: the integers a Number holds exactly. *)
Definition safe_integer (z : Z) : Prop := - 2 ^ 53 < z < 2 ^ 53.

(** The ways of submitting the integer [z]: as a Number, or as the string
    of its decimal digits. *)
Definition submitted_as (z : Z) (v : JSValue) : Prop :=
  safe_integer z /\ (v = JNum z \/ v = JStr (decimal_Z z)).

Definition is_digit_char (c : ascii) : bool :=
  ((48 <=? N_of_ascii c) && (N_of_ascii c <=? 57))%N.

Fixpoint all_digits (s : string) : bool :=
  match s with
  | String c rest => is_digit_char c && all_digits rest
  | EmptyString => true
  end.

(** [GET] as a decision table. *)
Definition GET_table (req : Request) (w : World) : Response * World :=
  if no_user (userId req) then (error_response "Unauthorized" 401, w)
  else
    let pid := params_partnerId req in
    let w1 := record_call (PartnerFindUnique pid) w in
    if decide (pid ∈ partners (db w)) then
      (NextResponse_json (VehiclesBody (find_many pid (db w))) 200,
       record_call (VehicleFindMany pid) w1)
    else (error_response "Partner not found" 404, w1).

(** The vehicles of partner [pid], in stored order. *)
Definition vehicles_of (pid : string) (st : Store) : list Vehicle :=
  List.filter (fun v => String.eqb (partnerId v) pid) (vehicles st).

(** What holds of a pending timer of the form: it was set for the plate
    now in the field, with the switch on and the plate in format, and it
    is not due before a quiet period has followed the last edit. *)
Definition timer_sound (st : CarForm.FormState) : Prop :=
  (CarForm.last_edit st <= CarForm.clock st)%N /\
  forall t, CarForm.timer st = Some t ->
    CarForm.plate_arg t = CarForm.licensePlate st
    /\ CarForm.isFrenchPlate st = true
    /\ CarForm.isFrenchPlateFormat (CarForm.plate_arg t) = true
    /\ (CarForm.last_edit st + CarForm.quiet_period <= CarForm.due t)%N.

(** *** Sample data *)

Definition mercedes : Vehicle :=
  {| id := 1; make := "Mercedes"; model := "S-Class"; year := 2022;
     licensePlate := "AB-123-CD"; isForeignPlate := false; color := None;
     capacity := 4; vehicleType := SEDAN; status := AVAILABLE;
     lastMaintenance := None; fuelType := None; registrationDate := None;
     createdAt := 1000; updatedAt := 1000; partnerId := "p1" |}.

Definition object (fields : list (string * JSValue)) : JSValue :=
  JObj (list_to_map fields).

(** A world with partner [p1] and no vehicle, and one where [p1] owns the
    Mercedes. *)
Definition fresh_world : World :=
  {| db := {| partners := {["p1"]}; vehicles := [] |}; now := 1000; calls := [] |}.

Definition stocked_world : World :=
  {| db := {| partners := {["p1"]}; vehicles := [mercedes] |};
     now := 2000; calls := [] |}.

Definition request (user : option string) (pid : string) (b : option JSValue)
  : Request :=
  {| userId := user; params_partnerId := pid; body := b |}.

(** The body of the specification's example. *)
Definition mercedes_body : JSValue :=
  object [("brand", JStr "Mercedes"); ("model", JStr "S-Class");
          ("year", JStr "2022"); ("licensePlate", JStr "AB-123-CD");
          ("capacity", JStr "4")].

(** *** The statements that do not hold as they are worded *)

(** C1 as worded: a POST whose plate is already stored is answered 400 with
    the duplicate-plate message and leaves the vehicles as they were. *)
Definition C1_as_stated : Prop :=
  forall req w data p,
    body req = Some data ->
    get data "licensePlate" = JStr p ->
    plate_taken p (db w) = true ->
    fst (POST req w)
    = error_response "A vehicle with this license plate already exists" 400
    /\ vehicles (db (snd (POST req w))) = vehicles (db w).

(** C2 as worded: an authenticated POST for an unknown partner is answered
    404 and writes nothing. *)
Definition C2_as_stated : Prop :=
  forall req w,
    authenticated req ->
    partner_exists req w = false ->
    res_status (fst (POST req w)) = 404
    /\ vehicles (db (snd (POST req w))) = vehicles (db w).

(** C3 as worded: when a required field is omitted, the answer is 400 and
    the message lists the omitted fields and no field that was supplied. *)
Definition C3_as_stated : Prop :=
  forall req w data,
    authenticated req ->
    partner_exists req w = true ->
    body req = Some data ->
    (exists k, In k required_fields /\ absent data k) ->
    exists listed,
      fst (POST req w)
      = error_response ("Missing required fields: " +:+ join ", " listed) 400
      /\ (forall k, In k listed <-> In k required_fields /\ absent data k)
      /\ vehicles (db (snd (POST req w))) = vehicles (db w).

(** C4 as worded: on success the record's year and capacity are the
    integers that were submitted, as Numbers or as strings of digits. *)
Definition C4_as_stated : Prop :=
  forall req w v data,
    succeeds_with req w v ->
    body req = Some data ->
    (forall z, get data "year" = JNum z \/ get data "year" = JStr (decimal_Z z) ->
       year v = z)
    /\ (forall z, get data "capacity" = JNum z
                  \/ get data "capacity" = JStr (decimal_Z z) ->
        capacity v = z).

(** C5 as worded, for lastMaintenance: the timestamp made from the body's
    string when one is supplied, null otherwise. *)
Definition C5_as_stated : Prop :=
  forall req w v data,
    succeeds_with req w v ->
    body req = Some data ->
    (absent data "vehicleType" -> vehicleType v = SEDAN)
    /\ (absent data "status" -> status v = AVAILABLE)
    /\ (absent data "isForeignPlate" -> isForeignPlate v = false)
    /\ (forall s, get data "lastMaintenance" = JStr s ->
        lastMaintenance v = Some (NewDate (JStr s)))
    /\ ((forall s, get data "lastMaintenance" <> JStr s) ->
        lastMaintenance v = None).

(** C8 as worded: an authenticated POST naming an unknown partner is
    answered 404, whatever else is wrong with it. *)
Definition C8_as_stated : Prop :=
  forall req w,
    authenticated req ->
    partner_exists req w = false ->
    res_status (fst (POST req w)) = 404.

(* ===================================================================== *)
(** ** Further vocabulary for the handlers                               *)
(* ===================================================================== *)

(** The create call would be accepted as far as column types go. *)
Definition fits_columns (d : VehicleCreateInput) : bool :=
  match row_of_input 0%N 0 d with
  | Some _ => true
  | None => false
  end.

(** No two stored vehicles carry the same plate. *)
Definition plates_unique (st : Store) : Prop :=
  NoDup (List.map licensePlate (vehicles st)).

(** The properties of the body that [POST] reads. *)
Definition read_keys : list string :=
  ["brand"; "model"; "year"; "licensePlate"; "isForeignPlate"; "color";
   "capacity"; "vehicleType"; "status"; "lastMaintenance"; "fuelType";
   "registrationDate"].

(** The statuses [POST] answers with. *)
Definition POST_statuses : list Z := [200; 400; 401; 404; 500].

(** The lookups ([fetchVehicleData] calls) fired along a run of the form,
    oldest first. *)
Fixpoint lookups (st : CarForm.FormState) (evs : list CarForm.Event) : list string :=
  match evs with
  | [] => []
  | ev :: rest =>
      match snd (CarForm.step st ev) with
      | Some plate => plate :: lookups (fst (CarForm.step st ev)) rest
      | None => lookups (fst (CarForm.step st ev)) rest
      end
  end.

(** An event that changes neither the plate nor the switch. *)
Definition passive (ev : CarForm.Event) : bool :=
  match ev with
  | CarForm.Elapse _ | CarForm.TimerExpires => true
  | _ => false
  end.

(** An event that may change a dependency of the effect. *)
Definition is_change (ev : CarForm.Event) : bool := negb (passive ev).

(** An event that does not turn the French-plate switch on. *)
Definition keeps_switch_off (ev : CarForm.Event) : bool :=
  match ev with
  | CarForm.SetFrenchPlate true => false
  | _ => true
  end.

(* ===================================================================== *)
(** ** What the client components run against                            *)
(* ===================================================================== *)

Module Browser.

(** Errors raised by the runtime itself; the text of their message is the
    engine's. *)
Inductive NativeError : Type :=
  | NativeSyntaxError    (* a body that is not JSON *)
  | NativeTypeError.     (* property read on null, call of a non-function *)

(** The text of an error or of a notification: written in the source, or
    the message of a native error. *)
Inductive Message : Type :=
  | Text (s : string)
  | MessageOf (e : NativeError).

(** A thrown value: an [Error] with its message, or anything else. *)
Inductive Thrown : Type :=
  | ErrorObject (message : Message)
  | OtherValue.

(** [toast.success(...)] and [toast.error(...)]. *)
Inductive Toast : Type :=
  | toast_success (m : Message)
  | toast_error (m : Message).

(** The value of an expression, or what it throws; for a promise, what it
    resolves to or is rejected with. *)
Inductive Outcome (A : Type) : Type :=
  | Done (a : A)
  | Raised (e : Thrown).
Arguments Done {A} a.
Arguments Raised {A} e.

(** The body of a response as [JSON.parse] sees it. *)
Inductive Parsed : Type :=
  | NotJson
  | Json (v : JSValue).

Record HttpResponse : Type := {
  status : Z;
  statusText : string;
  payload : Parsed
}.

(** [response.ok] *)
Definition ok (r : HttpResponse) : bool := (200 <=? status r) && (status r <=? 299).

Record HttpRequest : Type := {
  url : string;
  method : string;
  sent : option JSValue     (* the value given to JSON.stringify for the body *)
}.

(** [fetch(url, { method, body })]: resolves to a response, or is rejected
    (no network, or aborted by the 5000 ms timer). *)
Inductive Net : Type -> Type :=
  | fetch (r : HttpRequest) : Net HttpResponse.

(** [await response.json()] *)
Definition response_json (r : HttpResponse) : Outcome JSValue :=
  match payload r with
  | Json v => Done v
  | NotJson => Raised (ErrorObject (MessageOf NativeSyntaxError))
  end.

(** [error instanceof Error ? error.message : fallback] *)
Definition message_or (e : Thrown) (fallback : string) : Message :=
  match e with
  | ErrorObject m => m
  | OtherValue => Text fallback
  end.

(** ToString succeeds on a value unless an object in it has a property
    [toString] of its own (a JSON value is never callable). *)
Fixpoint stringifiable (v : JSValue) : bool :=
  match v with
  | JObj m => negb (bool_decide (is_Some (m !! "toString")))
  | JArr xs => forallb stringifiable xs
  | _ => true
  end.

(** The string a template literal puts for [${v}]; also the message of
    [new Error(v)]. *)
Definition template (v : JSValue) : Outcome string :=
  if stringifiable v then Done (ToString v)
  else Raised (ErrorObject (MessageOf NativeTypeError)).

(** [v.toString()] *)
Definition method_toString (v : JSValue) : Outcome string :=
  match v with
  | JUndefined | JNull => Raised (ErrorObject (MessageOf NativeTypeError))
  | _ => template v
  end.

(** [v.k], with the TypeError on [null] and [undefined]. *)
Definition member (v : JSValue) (k : string) : Outcome JSValue :=
  match v with
  | JUndefined | JNull => Raised (ErrorObject (MessageOf NativeTypeError))
  | _ => Done (get v k)
  end.

(** [String.prototype.split] on a separator of one code unit. *)
Fixpoint split_on (sep : ascii) (s : string) : list string :=
  match s with
  | EmptyString => [EmptyString]
  | String c rest =>
      if Ascii.eqb c sep then EmptyString :: split_on sep rest
      else
        match split_on sep rest with
        | piece :: pieces => String c piece :: pieces
        | [] => [String c EmptyString]
        end
  end.

(** [JSON.parse(JSON.stringify(v))] for a value inside an object or an
    array: a property holding [undefined] is left out, an array element
    holding [undefined] becomes [null]. *)
Fixpoint through_json (v : JSValue) : JSValue :=
  match v with
  | JArr xs =>
      JArr (List.map (fun x => match x with
                               | JUndefined => JNull
                               | _ => through_json x
                               end) xs)
  | JObj m =>
      JObj (omap (fun x => match x with
                           | JUndefined => None
                           | _ => Some (through_json x)
                           end) m)
  | _ => v
  end.

(** What [req.json()] gives the handler for a request whose body was
    [JSON.stringify(v)]; there is no body to parse when that is
    [undefined]. *)
Definition received (sent : option JSValue) : option JSValue :=
  match sent with
  | None | Some JUndefined => None
  | Some v => Some (through_json v)
  end.

Section Async.

(** [E]: what a function of the component calls outside of it; [S]: the
    state of the component, with the notifications it has shown. *)
Context {E : Type -> Type} {S : Type}.

(** The body of a function of a component, [async] or not, as the tree of
    what it does next. *)
Inductive Async : Type :=
  | Finish                                       (* the function returns *)
  | Throw (e : Thrown)
  | Read (k : S -> Async)                        (* the state its closure holds *)
  | Write (f : S -> S) (k : Async)               (* a state setter, a toast *)
  | Await {B : Type} (e : E B) (k : Outcome B -> Async)
  | Start (callee : Async) (k : Async).          (* a call that is not awaited *)

(** [p; q] *)
Fixpoint seq (p q : Async) : Async :=
  match p with
  | Finish => q
  | Throw e => Throw e
  | Read k => Read (fun s => seq (k s) q)
  | Write f k => Write f (seq k q)
  | Await e k => Await e (fun o => seq (k o) q)
  | Start callee k => Start callee (seq k q)
  end.

(** [try { body } catch (error) { handler }]; what a callee that is not
    awaited throws later does not reach the handler. *)
Fixpoint attempt (body : Async) (handler : Thrown -> Async) : Async :=
  match body with
  | Finish => Finish
  | Throw e => handler e
  | Read k => Read (fun s => attempt (k s) handler)
  | Write f k => Write f (attempt k handler)
  | Await e k => Await e (fun o => attempt (k o) handler)
  | Start callee k => Start callee (attempt k handler)
  end.

(** [try { body } finally { finalizer }] *)
Fixpoint finally (body finalizer : Async) : Async :=
  match body with
  | Finish => finalizer
  | Throw e => seq finalizer (Throw e)
  | Read k => Read (fun s => finally (k s) finalizer)
  | Write f k => Write f (finally k finalizer)
  | Await e k => Await e (fun o => finally (k o) finalizer)
  | Start callee k => Start callee (finally k finalizer)
  end.

(** [try { body } catch (error) { handler } finally { finalizer }] *)
Definition attempt_finally (body : Async) (handler : Thrown -> Async)
    (finalizer : Async) : Async :=
  finally (attempt body handler) finalizer.

(** Statements, each taking the rest of the function. *)

Definition update (f : S -> S) (k : unit -> Async) : Async := Write f (k tt).

Definition read {A} (f : S -> A) (k : A -> Async) : Async :=
  Read (fun s => k (f s)).

(** An expression that may throw. *)
Definition eval {A} (o : Outcome A) (k : A -> Async) : Async :=
  match o with
  | Done a => k a
  | Raised e => Throw e
  end.

(** [await e]: a rejection is thrown where the function resumes. *)
Definition await {B} (e : E B) (k : B -> Async) : Async :=
  Await e (fun o => eval o k).

(** [await e.catch(err => { throw new Error(text) })] *)
Definition await_or_throw {B} (e : E B) (text : string) (k : B -> Async) : Async :=
  Await e (fun o => match o with
                    | Done b => k b
                    | Raised _ => Throw (ErrorObject (Text text))
                    end).

(** [callee()] without [await]. *)
Definition start (callee : Async) (k : unit -> Async) : Async := Start callee (k tt).

(** [if (c) throw new Error(message)] with the message still to be
    computed. *)
Definition throw_if (c : bool) (message : Outcome string) (k : unit -> Async)
  : Async :=
  if c then eval message (fun m => Throw (ErrorObject (Text m))) else k tt.

(** *** Running the functions of a component *)

Inductive Performed : Type :=
  | performed {B : Type} (e : E B).

(** A function waiting at an [await]. *)
Inductive Suspended : Type :=
  | suspended {B : Type} (e : E B) (k : Outcome B -> Async).

(** A component on the page: its state, what it has called so far, and
    its functions that wait for an answer. *)
Record Tab : Type := {
  view : S;
  trace : list Performed;
  in_flight : list Suspended
}.

Definition opened (s : S) : Tab := {| view := s; trace := []; in_flight := [] |}.

Definition write (f : S -> S) (t : Tab) : Tab :=
  {| view := f (view t); trace := trace t; in_flight := in_flight t |}.

Definition perform {B} (e : E B) (t : Tab) : Tab :=
  {| view := view t; trace := (trace t ++ [performed e])%list;
     in_flight := in_flight t |}.

Definition suspend (k : Suspended) (t : Tab) : Tab :=
  {| view := view t; trace := trace t; in_flight := (in_flight t ++ [k])%list |}.

(** A function runs until it ends or reaches an [await], where it is left
    waiting; the result is what it threw on the way, if anything. *)
Fixpoint advance (p : Async) (t : Tab) : option Thrown * Tab :=
  match p with
  | Finish => (None, t)
  | Throw e => (Some e, t)
  | Read k => advance (k (view t)) t
  | Write f k => advance k (write f t)
  | Await e k => (None, suspend (suspended e k) (perform e t))
  | Start callee k => advance k (snd (advance callee t))
  end.

(** How the outside answers. *)
Definition Env : Type := forall B, E B -> Outcome B.

(** A waiting function takes up its answer. *)
Definition resume (env : Env) (w : Suspended) : Async :=
  match w with
  | suspended e k => k (env _ e)
  end.

(** The waiting function number [i] gets its answer and runs on. *)
Definition settle (i : nat) (env : Env) (t : Tab) : option Thrown * Tab :=
  match in_flight t !! i with
  | Some w =>
      advance (resume env w)
        {| view := view t; trace := trace t; in_flight := delete i (in_flight t) |}
  | None => (None, t)
  end.

(** A call whose own awaits are answered at once: the state when its
    promise settles, and what it is rejected with, if it is.  A callee it
    did not await is left waiting. *)
Fixpoint run (env : Env) (p : Async) (t : Tab) : option Thrown * Tab :=
  match p with
  | Finish => (None, t)
  | Throw e => (Some e, t)
  | Read k => run env (k (view t)) t
  | Write f k => run env k (write f t)
  | Await e k => run env (k (env _ e)) (perform e t)
  | Start callee k => run env k (snd (advance callee t))
  end.

End Async.

Arguments Async : clear implicits.
Arguments Performed : clear implicits.
Arguments Suspended : clear implicits.
Arguments Tab : clear implicits.
Arguments Env : clear implicits.

(** Every request gets the same answer. *)
Definition answering (o : Outcome HttpResponse) : Env Net :=
  fun B e => match e in Net B return Outcome B with fetch _ => o end.

(** The requests among the calls made. *)
Definition requests {S} (t : Tab Net S) : list HttpRequest :=
  List.map (fun p => match p with
                     | performed e => match e with fetch r => r end
                     end) (trace t).

End Browser.

Notation "x <~ m ;; k" := (m (fun x => k))
  (at level 100, m at next level, right associativity, only parsing).
Notation "m >>> k" := (m (fun _ => k))
  (at level 100, right associativity, only parsing).

(* ===================================================================== *)
(** ** The rest of the plate-driven form                                 *)
(* ===================================================================== *)

Module CarFields.
Import Browser.

(** [n || fallback] on the result of [parseInt]: NaN and 0 are falsy. *)
Definition number_or (n : JSNumber) (fallback : Z) : Z :=
  match n with
  | Int z => if z =? 0 then fallback else z
  | NaN => fallback
  end.

(** The year input: [field.onChange(parseInt(e.target.value) ||
    new Date().getFullYear())]. *)
Definition year_onChange (currentYear : Z) (value : string) : Z :=
  number_or (parseInt_string value) currentYear.

(** The capacity input: [field.onChange(parseInt(e.target.value) || 4)]. *)
Definition capacity_onChange (value : string) : Z :=
  number_or (parseInt_string value) 4.

(** The values of the form, as [CarFormValues] types them; year and
    capacity are Numbers ([form.setValue("year", parseInt(...))] can store
    NaN). *)
Record CarFormValues : Type := {
  make : string;
  model : string;
  year : JSNumber;
  licensePlate : string;
  color : option string;
  capacity : JSNumber;
  vehicleType : VehicleType;
  status : VehicleStatus;
  isFrenchPlate : bool
}.

(** An issue the schema reports: where, and with which message (the
    schema's own, or the validation library's for a Number that is NaN). *)
Inductive Issue : Type :=
  | Custom (path : string) (message : string)
  | InvalidNumber (path : string).

Definition min_length_1 (path message : string) (s : string) : list Issue :=
  if String.eqb s "" then [Custom path message] else [].

(** [z.coerce.number().min(...).max(...)] on a Number: NaN is refused as
    such, otherwise every bound is checked. *)
Definition number_between (path : string) (lower : Z * string)
    (upper : option (Z * string)) (n : JSNumber) : list Issue :=
  match n with
  | NaN => [InvalidNumber path]
  | Int z =>
      ((if z <? fst lower then [Custom path (snd lower)] else [])
       ++ match upper with
          | Some (bound, message) =>
              if bound <? z then [Custom path message] else []
          | None => []
          end)%list
  end.

(** [carSchema], key by key; [schemaYear] is [new Date().getFullYear()] at
    the time the module is loaded. *)
Definition carSchema (schemaYear : Z) (values : CarFormValues) : list Issue :=
  (min_length_1 "make" "Brand is required" (make values)
   ++ min_length_1 "model" "Model is required" (model values)
   ++ number_between "year" (1900, "Year must be at least 1900")
        (Some (schemaYear + 1,
               "Year must be at most " +:+ NumberToString (schemaYear + 1)))
        (year values)
   ++ min_length_1 "licensePlate" "License plate is required" (licensePlate values)
   ++ number_between "capacity" (1, "Capacity must be at least 1") None
        (capacity values))%list.

Definition issue_path (i : Issue) : string :=
  match i with
  | Custom path _ => path
  | InvalidNumber path => path
  end.

(** What the functions of the component write: three fields of the form,
    the two flags and the notifications. *)
Record State : Type := {
  field_make : JSValue;
  field_model : JSValue;
  field_year : JSNumber;
  isLoading : bool;
  isCheckingPlate : bool;
  toasts : list Toast
}.

(** What the component calls outside of it. *)
Inductive Outside : Type -> Type :=
  | fetching (r : HttpRequest) : Outside HttpResponse
  | onSubmit (data : CarFormValues) : Outside unit.

Definition setIsLoading (b : bool) :=
  update (E := Outside)
    (fun s => {| field_make := field_make s; field_model := field_model s;
                 field_year := field_year s; isLoading := b;
                 isCheckingPlate := isCheckingPlate s; toasts := toasts s |}).

Definition setIsCheckingPlate (b : bool) :=
  update (E := Outside)
    (fun s => {| field_make := field_make s; field_model := field_model s;
                 field_year := field_year s; isLoading := isLoading s;
                 isCheckingPlate := b; toasts := toasts s |}).

Definition setValue_make (v : JSValue) :=
  update (E := Outside)
    (fun s => {| field_make := v; field_model := field_model s;
                 field_year := field_year s; isLoading := isLoading s;
                 isCheckingPlate := isCheckingPlate s; toasts := toasts s |}).

Definition setValue_model (v : JSValue) :=
  update (E := Outside)
    (fun s => {| field_make := field_make s; field_model := v;
                 field_year := field_year s; isLoading := isLoading s;
                 isCheckingPlate := isCheckingPlate s; toasts := toasts s |}).

Definition setValue_year (n : JSNumber) :=
  update (E := Outside)
    (fun s => {| field_make := field_make s; field_model := field_model s;
                 field_year := n; isLoading := isLoading s;
                 isCheckingPlate := isCheckingPlate s; toasts := toasts s |}).

Definition toast (t : Toast) :=
  update (E := Outside)
    (fun s => {| field_make := field_make s; field_model := field_model s;
                 field_year := field_year s; isLoading := isLoading s;
                 isCheckingPlate := isCheckingPlate s;
                 toasts := (toasts s ++ [t])%list |}).

(** [date?.split("/")[2]]: only a string has a [split] to call. *)
Definition third_part (date : JSValue) : Outcome JSValue :=
  match date with
  | JUndefined | JNull => Done JUndefined
  | JStr s =>
      Done (match nth_error (split_on "/" s) 2 with
            | Some piece => JStr piece
            | None => JUndefined
            end)
  | _ => Raised (ErrorObject (MessageOf NativeTypeError))
  end.

Definition lookup_url (plate : string) : string :=
  "https://api-immat.vercel.app/getDataImmatriculation?plate=" +:+ plate.

Definition fetchVehicleData (currentYear : Z) (plate : string)
  : Async Outside State :=
  attempt_finally
    (setIsCheckingPlate true >>>
     response <~ await (fetching {| url := lookup_url plate; method := "GET";
                                    sent := None |}) ;;
     throw_if (negb (ok response)) (Done "Failed to fetch vehicle data") >>>
     data <~ eval (response_json response) ;;
     if truthy data && truthy (get data "success") then
       setValue_make (or_else (get data "marque") (JStr "")) >>>
       setValue_model (or_else (get data "modele") (JStr "")) >>>
       third <~ eval (third_part (get data "date_mise_circulation")) ;;
       setValue_year
         (parseInt (or_else third (JStr (NumberToString currentYear)))) >>>
       toast (toast_success (Text "Vehicle information retrieved successfully")) >>>
       Finish
     else
       toast (toast_error (Text "Could not find vehicle information")) >>>
       Finish)
    (fun _ => toast (toast_error (Text "Failed to fetch vehicle data")) >>> Finish)
    (setIsCheckingPlate false >>> Finish).

Definition handleSubmit (data : CarFormValues) : Async Outside State :=
  attempt_finally
    (setIsLoading true >>>
     await (onSubmit data) >>>
     Finish)
    (fun _ => toast (toast_error (Text "Failed to save vehicle")) >>> Finish)
    (setIsLoading false >>> Finish).

(** The lookup service answers [r]; the caller's [onSubmit] ends as
    [submitted]. *)
Definition outside (r : Outcome HttpResponse) (submitted : Outcome unit)
  : Env Outside :=
  fun B e => match e in Outside B return Outcome B with
             | fetching _ => r
             | onSubmit _ => submitted
             end.

End CarFields.

(* ===================================================================== *)
(** ** The dialog around the plate form                                  *)
(* ===================================================================== *)

Module PlateCarDialog.
Import Browser.

(** The state of the dialog, the notifications, and the calls of
    [onOpenChange] it has made. *)
Record State : Type := {
  isSubmitting : bool;
  toasts : list Toast;
  open_changes : list bool
}.

Inductive Props : Type -> Type :=
  | onSubmit (data : JSValue) : Props unit.

Definition setIsSubmitting (b : bool) :=
  update (E := Props)
    (fun s => {| isSubmitting := b; toasts := toasts s;
                 open_changes := open_changes s |}).

Definition toast (t : Toast) :=
  update (E := Props)
    (fun s => {| isSubmitting := isSubmitting s;
                 toasts := (toasts s ++ [t])%list;
                 open_changes := open_changes s |}).

(** [onOpenChange(open)], a call that returns or throws at once. *)
Definition onOpenChange (returns : Outcome unit) (open : bool)
    (k : unit -> Async Props State) : Async Props State :=
  update (fun s => {| isSubmitting := isSubmitting s; toasts := toasts s;
                      open_changes := (open_changes s ++ [open])%list |})
         (fun _ => eval returns k).

(** [defaultValues] is the prop of that name; [closing] is how the
    caller's [onOpenChange] ends. *)
Definition handleSubmit (defaultValues : JSValue) (closing : Outcome unit)
    (data : JSValue) : Async Props State :=
  attempt_finally
    (setIsSubmitting true >>>
     await (onSubmit data) >>>
     onOpenChange closing false >>>
     toast (toast_success
              (Text (if truthy defaultValues then "Vehicle updated successfully"
                     else "Vehicle created successfully"))) >>>
     Finish)
    (fun _ => toast (toast_error (Text "Failed to save vehicle")) >>> Finish)
    (setIsSubmitting false >>> Finish).

Definition props (submitted : Outcome unit) : Env Props :=
  fun B e => match e in Props B return Outcome B with
             | onSubmit _ => submitted
             end.

End PlateCarDialog.

(* ===================================================================== *)
(** ** The list of a partner's vehicles                                  *)
(* ===================================================================== *)

Module VehicleList.
Import Browser.

(** The state of the component (its [useState] cells) and the
    notifications it has shown.  What comes out of a response is kept as
    the JSON value it is. *)
Record State : Type := {
  vehicles : JSValue;
  isLoading : bool;
  showVehicleDialog : bool;
  isSubmitting : bool;
  currentVehicleId : option string;
  isEditingVehicle : bool;
  showDeleteVehicleDialog : bool;
  vehicleToDelete : JSValue;
  defaultValues : JSValue;
  toasts : list Toast
}.

Definition initial : State :=
  {| vehicles := JArr []; isLoading := true; showVehicleDialog := false;
     isSubmitting := false; currentVehicleId := None; isEditingVehicle := false;
     showDeleteVehicleDialog := false; vehicleToDelete := JNull;
     defaultValues := JObj ∅; toasts := [] |}.

(** The state with one cell replaced. *)

Definition set_vehicles (x : JSValue) (s : State) : State :=
  {| vehicles := x; isLoading := isLoading s;
     showVehicleDialog := showVehicleDialog s;
     isSubmitting := isSubmitting s; currentVehicleId := currentVehicleId s;
     isEditingVehicle := isEditingVehicle s;
     showDeleteVehicleDialog := showDeleteVehicleDialog s;
     vehicleToDelete := vehicleToDelete s; defaultValues := defaultValues s;
     toasts := toasts s |}.

Definition set_isLoading (x : bool) (s : State) : State :=
  {| vehicles := vehicles s; isLoading := x;
     showVehicleDialog := showVehicleDialog s;
     isSubmitting := isSubmitting s; currentVehicleId := currentVehicleId s;
     isEditingVehicle := isEditingVehicle s;
     showDeleteVehicleDialog := showDeleteVehicleDialog s;
     vehicleToDelete := vehicleToDelete s; defaultValues := defaultValues s;
     toasts := toasts s |}.

Definition set_showVehicleDialog (x : bool) (s : State) : State :=
  {| vehicles := vehicles s; isLoading := isLoading s;
     showVehicleDialog := x; isSubmitting := isSubmitting s;
     currentVehicleId := currentVehicleId s;
     isEditingVehicle := isEditingVehicle s;
     showDeleteVehicleDialog := showDeleteVehicleDialog s;
     vehicleToDelete := vehicleToDelete s; defaultValues := defaultValues s;
     toasts := toasts s |}.

Definition set_isSubmitting (x : bool) (s : State) : State :=
  {| vehicles := vehicles s; isLoading := isLoading s;
     showVehicleDialog := showVehicleDialog s; isSubmitting := x;
     currentVehicleId := currentVehicleId s;
     isEditingVehicle := isEditingVehicle s;
     showDeleteVehicleDialog := showDeleteVehicleDialog s;
     vehicleToDelete := vehicleToDelete s; defaultValues := defaultValues s;
     toasts := toasts s |}.

Definition set_currentVehicleId (x : option string) (s : State) : State :=
  {| vehicles := vehicles s; isLoading := isLoading s;
     showVehicleDialog := showVehicleDialog s;
     isSubmitting := isSubmitting s; currentVehicleId := x;
     isEditingVehicle := isEditingVehicle s;
     showDeleteVehicleDialog := showDeleteVehicleDialog s;
     vehicleToDelete := vehicleToDelete s; defaultValues := defaultValues s;
     toasts := toasts s |}.

Definition set_isEditingVehicle (x : bool) (s : State) : State :=
  {| vehicles := vehicles s; isLoading := isLoading s;
     showVehicleDialog := showVehicleDialog s;
     isSubmitting := isSubmitting s; currentVehicleId := currentVehicleId s;
     isEditingVehicle := x;
     showDeleteVehicleDialog := showDeleteVehicleDialog s;
     vehicleToDelete := vehicleToDelete s; defaultValues := defaultValues s;
     toasts := toasts s |}.

Definition set_showDeleteVehicleDialog (x : bool) (s : State) : State :=
  {| vehicles := vehicles s; isLoading := isLoading s;
     showVehicleDialog := showVehicleDialog s;
     isSubmitting := isSubmitting s; currentVehicleId := currentVehicleId s;
     isEditingVehicle := isEditingVehicle s; showDeleteVehicleDialog := x;
     vehicleToDelete := vehicleToDelete s; defaultValues := defaultValues s;
     toasts := toasts s |}.

Definition set_vehicleToDelete (x : JSValue) (s : State) : State :=
  {| vehicles := vehicles s; isLoading := isLoading s;
     showVehicleDialog := showVehicleDialog s;
     isSubmitting := isSubmitting s; currentVehicleId := currentVehicleId s;
     isEditingVehicle := isEditingVehicle s;
     showDeleteVehicleDialog := showDeleteVehicleDialog s;
     vehicleToDelete := x; defaultValues := defaultValues s;
     toasts := toasts s |}.

Definition set_defaultValues (x : JSValue) (s : State) : State :=
  {| vehicles := vehicles s; isLoading := isLoading s;
     showVehicleDialog := showVehicleDialog s;
     isSubmitting := isSubmitting s; currentVehicleId := currentVehicleId s;
     isEditingVehicle := isEditingVehicle s;
     showDeleteVehicleDialog := showDeleteVehicleDialog s;
     vehicleToDelete := vehicleToDelete s; defaultValues := x;
     toasts := toasts s |}.

Definition add_toast (t : Toast) (s : State) : State :=
  {| vehicles := vehicles s; isLoading := isLoading s;
     showVehicleDialog := showVehicleDialog s;
     isSubmitting := isSubmitting s; currentVehicleId := currentVehicleId s;
     isEditingVehicle := isEditingVehicle s;
     showDeleteVehicleDialog := showDeleteVehicleDialog s;
     vehicleToDelete := vehicleToDelete s; defaultValues := defaultValues s;
     toasts := (toasts s ++ [t])%list |}.

(** The setters of the cells, and [toast]. *)

Definition setVehicles (x : JSValue) := update (E := Net) (set_vehicles x).

Definition setIsLoading (x : bool) := update (E := Net) (set_isLoading x).

Definition setShowVehicleDialog (x : bool) := update (E := Net) (set_showVehicleDialog x).

Definition setIsSubmitting (x : bool) := update (E := Net) (set_isSubmitting x).

Definition setCurrentVehicleId (x : option string) := update (E := Net) (set_currentVehicleId x).

Definition setIsEditingVehicle (x : bool) := update (E := Net) (set_isEditingVehicle x).

Definition setShowDeleteVehicleDialog (x : bool) := update (E := Net) (set_showDeleteVehicleDialog x).

Definition setVehicleToDelete (x : JSValue) := update (E := Net) (set_vehicleToDelete x).

Definition setDefaultValues (x : JSValue) := update (E := Net) (set_defaultValues x).

Definition toast (t : Toast) := update (E := Net) (add_toast t).

(** The own properties [{ ...v }] copies: those of an object, the indexed
    elements of an array, the indexed code units of a string. *)
Definition spread (v : JSValue) : gmap string JSValue :=
  match v with
  | JObj m => m
  | JArr xs =>
      list_to_map (imap (fun i x => (NumberToString (Z.of_nat i), x)) xs)
  | JStr s =>
      list_to_map (imap (fun i c => (NumberToString (Z.of_nat i),
                                     JStr (String c EmptyString)))
                        (list_ascii_of_string s))
  | _ => ∅
  end.

(** The message for [new Error(...)] after an answer that is not ok:
    [errorData.error || fallback] when the body parses and the read does
    not throw, the fallback otherwise. *)
Definition errorMessage_of (response : HttpResponse) (fallback : string) : JSValue :=
  match payload response with
  | Json errorData =>
      match member errorData "error" with
      | Done e => or_else e (JStr fallback)
      | Raised _ => JStr fallback
      end
  | NotJson => JStr fallback
  end.

Definition requiredFields : list string :=
  ["brand"; "model"; "year"; "licensePlate"; "capacity"].

(** [requiredFields.filter(field => !data[field])] *)
Definition missingFields_of (data : JSValue) : Outcome (list string) :=
  match data with
  | JUndefined | JNull => Raised (ErrorObject (MessageOf NativeTypeError))
  | _ => Done (List.filter (fun field => negb (truthy (get data field)))
                           requiredFields)
  end.

Section Component.

(** The prop of the component. *)
Variable partnerId : string.

Definition collection : string := "/api/partners/" +:+ partnerId +:+ "/vehicles".

Definition item (vehicleId : string) : string :=
  "/api/partners/" +:+ partnerId +:+ "/vehicles/" +:+ vehicleId.

Definition fetchPartnerVehicles : Async Net State :=
  setIsLoading true >>>
  attempt_finally
    (response <~ await_or_throw
                   (fetch {| url := collection; method := "GET"; sent := None |})
                   "Network error when fetching vehicles" ;;
     throw_if (negb (ok response))
       (Done ("Failed to fetch partner vehicles: "
              +:+ NumberToString (status response) +:+ " "
              +:+ statusText response)) >>>
     data <~ eval (response_json response) ;;
     setVehicles data >>>
     Finish)
    (fun error =>
       setVehicles (JArr []) >>>
       toast (toast_error (message_or error "Failed to load partner vehicles")) >>>
       Finish)
    (setIsLoading false >>> Finish).

(** The effect run after mount. *)
Definition useEffect : Async Net State :=
  if negb (String.eqb partnerId "") then
    start fetchPartnerVehicles >>> Finish
  else Finish.

(** [currentYear] is [new Date().getFullYear()] at the time of the call. *)
Definition handleAddVehicle (currentYear : Z) : Async Net State :=
  setCurrentVehicleId None >>>
  setIsEditingVehicle false >>>
  setDefaultValues
    (object [("make", JStr ""); ("model", JStr "");
             ("year", JStr (NumberToString currentYear));
             ("licensePlate", JStr ""); ("isForeignPlate", JBool false);
             ("color", JStr ""); ("capacity", JStr "4");
             ("vehicleType", JStr "SEDAN"); ("status", JStr "AVAILABLE");
             ("lastMaintenance", JStr "")]) >>>
  setShowVehicleDialog true >>>
  Finish.

Definition handleEditVehicle (vehicleId : string) : Async Net State :=
  setCurrentVehicleId (Some vehicleId) >>>
  setIsEditingVehicle true >>>
  setIsSubmitting true >>>
  attempt_finally
    (response <~ await_or_throw
                   (fetch {| url := item vehicleId; method := "GET"; sent := None |})
                   "Network error when fetching vehicle details" ;;
     throw_if (negb (ok response))
       (Done ("Failed to fetch vehicle details: "
              +:+ NumberToString (status response) +:+ " "
              +:+ statusText response)) >>>
     vehicleData <~ eval (response_json response) ;;
     let copied := spread vehicleData in
     y <~ eval (member vehicleData "year") ;;
     year <~ eval (method_toString y) ;;
     c <~ eval (member vehicleData "capacity") ;;
     capacity <~ eval (method_toString c) ;;
     lm <~ eval (member vehicleData "lastMaintenance") ;;
     let formData :=
       JObj (<["lastMaintenance" := or_else lm (JStr "")]>
               (<["capacity" := JStr capacity]>
                  (<["year" := JStr year]> copied))) in
     setDefaultValues formData >>>
     setShowVehicleDialog true >>>
     Finish)
    (fun error =>
       toast (toast_error (message_or error "Failed to load vehicle details")) >>>
       Finish)
    (setIsSubmitting false >>> Finish).

Definition handleDeleteVehicle : Async Net State :=
  vehicleToDelete <~ read vehicleToDelete ;;
  if negb (truthy vehicleToDelete) then Finish
  else
    attempt
      (id <~ eval (template (get vehicleToDelete "id")) ;;
       response <~ await_or_throw
                     (fetch {| url := item id; method := "DELETE"; sent := None |})
                     "Network error when deleting vehicle" ;;
       throw_if (negb (ok response))
         (template (errorMessage_of response "Failed to delete vehicle")) >>>
       make <~ eval (template (get vehicleToDelete "make")) ;;
       model <~ eval (template (get vehicleToDelete "model")) ;;
       toast (toast_success
                (Text ("Vehicle " +:+ make +:+ " " +:+ model
                       +:+ " deleted successfully"))) >>>
       setShowDeleteVehicleDialog false >>>
       setVehicleToDelete JNull >>>
       start fetchPartnerVehicles >>>
       Finish)
      (fun error =>
         toast (toast_error (message_or error "Failed to delete vehicle")) >>>
         Finish).

Definition confirmDeleteVehicle (vehicle : JSValue) : Async Net State :=
  setVehicleToDelete vehicle >>>
  setShowDeleteVehicleDialog true >>>
  Finish.

Definition handleSubmitVehicle (data : JSValue) : Async Net State :=
  missingFields <~ eval (missingFields_of data) ;;
  if (0 <? length missingFields)%nat then
    toast (toast_error
             (Text ("Missing required fields: " +:+ join ", " missingFields))) >>>
    setIsSubmitting false >>>
    Finish
  else
    setIsSubmitting true >>>
    attempt_finally
      (isEditingVehicle <~ read isEditingVehicle ;;
       currentVehicleId <~ read currentVehicleId ;;
       let url :=
         match currentVehicleId with
         | Some id =>
             if isEditingVehicle && negb (String.eqb id "") then item id
             else collection
         | None => collection
         end in
       let method := if isEditingVehicle then "PUT" else "POST" in
       response <~ await_or_throw
                     (fetch {| url := url; method := method; sent := Some data |})
                     "Network error when saving vehicle" ;;
       throw_if (negb (ok response))
         (template (errorMessage_of response "Failed to save vehicle")) >>>
       savedVehicle <~ eval (response_json response) ;;
       mk <~ eval (member savedVehicle "make") ;;
       make <~ eval (template mk) ;;
       md <~ eval (member savedVehicle "model") ;;
       model <~ eval (template md) ;;
       toast (toast_success
                (Text (if isEditingVehicle
                       then "Vehicle " +:+ make +:+ " " +:+ model
                            +:+ " updated successfully"
                       else "Vehicle " +:+ make +:+ " " +:+ model
                            +:+ " added successfully"))) >>>
       setShowVehicleDialog false >>>
       start fetchPartnerVehicles >>>
       Finish)
      (fun error =>
         toast (toast_error (message_or error "Failed to save vehicle")) >>>
         Finish)
      (setIsSubmitting false >>> Finish).

(** What happens to the component once it is mounted: the clicks, the
    dialogs opening and closing ([onOpenChange] is the setter itself), the
    form handing in its data, and the answer to a waiting request. *)
Inductive Event : Type :=
  | ClickAddVehicle (currentYear : Z)
  | ClickEdit (vehicleId : string)
  | ClickDelete (vehicle : JSValue)
  | ClickConfirmDelete
  | SubmitForm (data : JSValue)
  | VehicleDialogOpenChange (open : bool)
  | DeleteDialogOpenChange (open : bool)
  | Answer (i : nat) (o : Outcome HttpResponse).

Definition step (t : Tab Net State) (ev : Event) : Tab Net State :=
  match ev with
  | ClickAddVehicle currentYear => snd (advance (handleAddVehicle currentYear) t)
  | ClickEdit vehicleId => snd (advance (handleEditVehicle vehicleId) t)
  | ClickDelete vehicle => snd (advance (confirmDeleteVehicle vehicle) t)
  | ClickConfirmDelete => snd (advance handleDeleteVehicle t)
  | SubmitForm data => snd (advance (handleSubmitVehicle data) t)
  | VehicleDialogOpenChange open =>
      snd (advance (setShowVehicleDialog open >>> Finish) t)
  | DeleteDialogOpenChange open =>
      snd (advance (setShowDeleteVehicleDialog open >>> Finish) t)
  | Answer i o => snd (settle i (answering o) t)
  end.

Definition mounted : Tab Net State := snd (advance useEffect (opened initial)).

Definition after (evs : list Event) : Tab Net State := fold_left step evs mounted.

End Component.

End VehicleList.

(* ===================================================================== *)
(** ** Vocabulary for the client components                              *)
(* ===================================================================== *)

(** The values [POST] converts to a string ([parseInt], [new Date]) can be
    converted: none is, or holds, an object with a [toString] of its own,
    on which the conversion throws. *)
Definition converts (data : JSValue) : Prop :=
  forall k, In k ["year"; "capacity"; "lastMaintenance"] ->
            Browser.stringifiable (get data k) = true.

(** The issues a schema reports at one path. *)
Definition issues_at (path : string) (issues : list CarFields.Issue)
  : list CarFields.Issue :=
  List.filter (fun i => String.eqb (CarFields.issue_path i) path) issues.

Definition with_capacity (values : CarFields.CarFormValues) (n : JSNumber)
  : CarFields.CarFormValues :=
  {| CarFields.make := CarFields.make values;
     CarFields.model := CarFields.model values;
     CarFields.year := CarFields.year values;
     CarFields.licensePlate := CarFields.licensePlate values;
     CarFields.color := CarFields.color values;
     CarFields.capacity := n;
     CarFields.vehicleType := CarFields.vehicleType values;
     CarFields.status := CarFields.status values;
     CarFields.isFrenchPlate := CarFields.isFrenchPlate values |}.

Definition with_year (values : CarFields.CarFormValues) (n : JSNumber)
  : CarFields.CarFormValues :=
  {| CarFields.make := CarFields.make values;
     CarFields.model := CarFields.model values;
     CarFields.year := n;
     CarFields.licensePlate := CarFields.licensePlate values;
     CarFields.color := CarFields.color values;
     CarFields.capacity := CarFields.capacity values;
     CarFields.vehicleType := CarFields.vehicleType values;
     CarFields.status := CarFields.status values;
     CarFields.isFrenchPlate := CarFields.isFrenchPlate values |}.

(** What the plate service told: nothing usable (no answer, an answer that
    is not ok, a body that is not JSON), no vehicle (the body is falsy or
    its [success] is), or the data of a vehicle. *)
Inductive Lookup : Type :=
  | NoAnswer
  | NotFound
  | Found (data : JSValue).

Definition lookup_of (r : Browser.Outcome Browser.HttpResponse) : Lookup :=
  match r with
  | Browser.Done response =>
      if Browser.ok response then
        match Browser.payload response with
        | Browser.Json data =>
            if truthy data && truthy (get data "success") then Found data
            else NotFound
        | Browser.NotJson => NoAnswer
        end
      else NoAnswer
  | Browser.Raised _ => NoAnswer
  end.

(** No ["/"] in the string. *)
Fixpoint no_slash (s : string) : bool :=
  match s with
  | EmptyString => true
  | String c rest => negb (Ascii.eqb c "/") && no_slash rest
  end.

(** *** Sample data for the form *)

Definition clio_answer : Browser.Outcome Browser.HttpResponse :=
  Browser.Done
    {| Browser.status := 200; Browser.statusText := "OK";
       Browser.payload :=
         Browser.Json (object [("success", JBool true); ("marque", JStr "RENAULT");
                               ("modele", JStr "CLIO");
                               ("date_mise_circulation", JStr "15/03/2019")]) |}.

Definition empty_form : CarFields.State :=
  {| CarFields.field_make := JStr ""; CarFields.field_model := JStr "";
     CarFields.field_year := Int 2026; CarFields.isLoading := false;
     CarFields.isCheckingPlate := false; CarFields.toasts := [] |}.

(* ===================================================================== *)
(** ** The list against the handlers of the route                        *)
(* ===================================================================== *)

Section Wire.

(** How a stored row is written into a response (ids and dates as text),
    and the reason phrase that comes with a status, are the framework's. *)
Variable vehicle_json : Vehicle -> JSValue.
Variable reason : Z -> string.

(** The body [NextResponse.json] writes. *)
Definition body_json (b : Body) : JSValue :=
  match b with
  | ErrorBody error => object [("error", JStr error)]
  | VehicleBody vehicle => vehicle_json vehicle
  | VehiclesBody vehicles => JArr (List.map vehicle_json vehicles)
  end.

Definition http_response (res : Response) : Browser.HttpResponse :=
  {| Browser.status := res_status res;
     Browser.statusText := reason (res_status res);
     Browser.payload := Browser.Json (body_json (res_body res)) |}.

End Wire.

(** *** Vocabulary for the list *)

Definition load_request (partnerId : string) : Browser.HttpRequest :=
  {| Browser.url := VehicleList.collection partnerId; Browser.method := "GET";
     Browser.sent := None |}.

(** What loading the list makes of an answer: the value to show, or the
    message of the error. *)
Definition load_outcome (o : Browser.Outcome Browser.HttpResponse)
  : JSValue + Browser.Message :=
  match o with
  | Browser.Done response =>
      if Browser.ok response then
        match Browser.payload response with
        | Browser.Json data => inl data
        | Browser.NotJson => inr (Browser.MessageOf Browser.NativeSyntaxError)
        end
      else inr (Browser.Text ("Failed to fetch partner vehicles: "
                              +:+ NumberToString (Browser.status response) +:+ " "
                              +:+ Browser.statusText response))
  | Browser.Raised _ => inr (Browser.Text "Network error when fetching vehicles")
  end.

(** The state once the answer to a load has been dealt with. *)
Definition loaded (o : Browser.Outcome Browser.HttpResponse) (s : VehicleList.State)
  : VehicleList.State :=
  match load_outcome o with
  | inl data => VehicleList.set_isLoading false (VehicleList.set_vehicles data s)
  | inr message =>
      VehicleList.set_isLoading false
        (VehicleList.add_toast (Browser.toast_error message)
           (VehicleList.set_vehicles (JArr []) s))
  end.

Definition is_array (v : JSValue) : bool :=
  match v with JArr _ => true | _ => false end.

(** The request a submitted form is sent with, as the state of the list
    has it. *)
Definition submit_request (partnerId : string) (s : VehicleList.State)
    (data : JSValue) : Browser.HttpRequest :=
  {| Browser.url :=
       match VehicleList.currentVehicleId s with
       | Some id =>
           if VehicleList.isEditingVehicle s && negb (String.eqb id "")
           then VehicleList.item partnerId id
           else VehicleList.collection partnerId
       | None => VehicleList.collection partnerId
       end;
     Browser.method := if VehicleList.isEditingVehicle s then "PUT" else "POST";
     Browser.sent := Some data |}.

(** Every field the list requires of a form is truthy. *)
Definition complete (data : JSValue) : Prop :=
  VehicleList.missingFields_of data = Browser.Done [].

(** A waiting function that is the rest of a load of the list. *)
Definition rest_of_load (k : Browser.Suspended Browser.Net VehicleList.State) : Prop :=
  forall o t,
    Browser.advance (Browser.resume (Browser.answering o) k) t
    = (None, {| Browser.view := loaded o (Browser.view t);
                Browser.trace := Browser.trace t;
                Browser.in_flight := Browser.in_flight t |}).

(** The tab after a load has been started in it by a call that was not
    awaited: the flag is set, the request is out, its rest is waiting. *)
Definition reloading (partnerId : string)
    (t t' : Browser.Tab Browser.Net VehicleList.State) : Prop :=
  exists k,
    rest_of_load k
    /\ Browser.trace t'
       = (Browser.trace t
          ++ [Browser.performed (Browser.fetch (load_request partnerId))])%list
    /\ Browser.in_flight t' = (Browser.in_flight t ++ [k])%list
    /\ VehicleList.isLoading (Browser.view t') = true.

(** What the rest of a submission does once the answer is there: it
    notifies once and clears the submitting flag; after a success
    notification it has closed the dialog and started a reload. *)
Definition rest_of_submit (partnerId : string)
    (k : Browser.Suspended Browser.Net VehicleList.State) : Prop :=
  forall o t,
    exists m t1,
      Browser.advance (Browser.resume (Browser.answering o) k) t = (None, t1)
      /\ ((Browser.view t1
           = VehicleList.set_isSubmitting false
               (VehicleList.add_toast (Browser.toast_error m) (Browser.view t))
           /\ Browser.trace t1 = Browser.trace t
           /\ Browser.in_flight t1 = Browser.in_flight t)
          \/ (Browser.view t1
              = VehicleList.set_isSubmitting false
                  (VehicleList.set_isLoading true
                     (VehicleList.set_showVehicleDialog false
                        (VehicleList.add_toast (Browser.toast_success m)
                           (Browser.view t))))
              /\ reloading partnerId t t1)).


(** The text of the success notification of a save, when the answer can
    be read that far. *)
Definition save_text (editing : bool) (response : Browser.HttpResponse)
  : Browser.Outcome string :=
  match Browser.response_json response with
  | Browser.Raised e => Browser.Raised e
  | Browser.Done savedVehicle =>
      match Browser.member savedVehicle "make" with
      | Browser.Raised e => Browser.Raised e
      | Browser.Done mk =>
          match Browser.template mk with
          | Browser.Raised e => Browser.Raised e
          | Browser.Done make =>
              match Browser.member savedVehicle "model" with
              | Browser.Raised e => Browser.Raised e
              | Browser.Done md =>
                  match Browser.template md with
                  | Browser.Raised e => Browser.Raised e
                  | Browser.Done model =>
                      Browser.Done
                        ("Vehicle " +:+ make +:+ " " +:+ model
                         +:+ (if editing then " updated successfully"
                              else " added successfully"))
                  end
              end
          end
      end
  end.

(** What is notified when an answer was not ok. *)
Definition refusal_notice (response : Browser.HttpResponse) (fallback : string)
  : Browser.Toast :=
  match Browser.template (VehicleList.errorMessage_of response fallback) with
  | Browser.Done m => Browser.toast_error (Browser.Text m)
  | Browser.Raised e => Browser.toast_error (Browser.message_or e fallback)
  end.

(** What a save notifies, as a table of the answer. *)
Definition save_notice (editing : bool) (o : Browser.Outcome Browser.HttpResponse)
  : Browser.Toast :=
  match o with
  | Browser.Raised _ =>
      Browser.toast_error (Browser.Text "Network error when saving vehicle")
  | Browser.Done response =>
      if Browser.ok response then
        match save_text editing response with
        | Browser.Done text => Browser.toast_success (Browser.Text text)
        | Browser.Raised e =>
            Browser.toast_error (Browser.message_or e "Failed to save vehicle")
        end
      else refusal_notice response "Failed to save vehicle"
  end.

(** The answers of POST other than the created record and the list of
    missing fields. *)
Definition POST_refusals : list (string * Z) :=
  [("Unauthorized", 401); ("Partner not found", 404);
   ("A vehicle with this license plate already exists", 400);
   ("Failed to add vehicle", 500)].

(** A serialisation of the stored rows to try things on. *)
Definition sample_json (v : Vehicle) : JSValue :=
  object [("make", JStr (make v)); ("model", JStr (model v));
          ("year", JNum (year v)); ("licensePlate", JStr (licensePlate v));
          ("capacity", JNum (capacity v)); ("partnerId", JStr (partnerId v))].

Definition sample_reason (status : Z) : string :=
  if status =? 200 then "OK" else "".

Definition idle_list : Browser.Tab Browser.Net VehicleList.State :=
  Browser.opened (VehicleList.set_isLoading false VehicleList.initial).

(** *** Editing and deleting from the list *)

Definition edit_request (partnerId vehicleId : string) : Browser.HttpRequest :=
  {| Browser.url := VehicleList.item partnerId vehicleId; Browser.method := "GET";
     Browser.sent := None |}.

(** The defaults of the form built from the data of a vehicle, when the
    reads succeed. *)
Definition form_data_of (vehicleData : JSValue) : Browser.Outcome JSValue :=
  match Browser.member vehicleData "year" with
  | Browser.Raised e => Browser.Raised e
  | Browser.Done y =>
      match Browser.method_toString y with
      | Browser.Raised e => Browser.Raised e
      | Browser.Done year =>
          match Browser.member vehicleData "capacity" with
          | Browser.Raised e => Browser.Raised e
          | Browser.Done c =>
              match Browser.method_toString c with
              | Browser.Raised e => Browser.Raised e
              | Browser.Done capacity =>
                  Browser.Done
                    (JObj (<["lastMaintenance" :=
                               or_else (get vehicleData "lastMaintenance") (JStr "")]>
                             (<["capacity" := JStr capacity]>
                                (<["year" := JStr year]>
                                   (VehicleList.spread vehicleData)))))
              end
          end
      end
  end.

(** What opening a vehicle for editing makes of the answer: the defaults
    of the form, or the error. *)
Definition edit_outcome (o : Browser.Outcome Browser.HttpResponse)
  : Browser.Outcome JSValue :=
  match o with
  | Browser.Raised _ =>
      Browser.Raised
        (Browser.ErrorObject (Browser.Text "Network error when fetching vehicle details"))
  | Browser.Done response =>
      if Browser.ok response then
        match Browser.response_json response with
        | Browser.Done vehicleData => form_data_of vehicleData
        | Browser.Raised e => Browser.Raised e
        end
      else
        Browser.Raised
          (Browser.ErrorObject
             (Browser.Text ("Failed to fetch vehicle details: "
                            +:+ NumberToString (Browser.status response) +:+ " "
                            +:+ Browser.statusText response)))
  end.

(** The state once the answer to an edit request has been dealt with. *)
Definition edited (o : Browser.Outcome Browser.HttpResponse) (s : VehicleList.State)
  : VehicleList.State :=
  match edit_outcome o with
  | Browser.Done formData =>
      VehicleList.set_isSubmitting false
        (VehicleList.set_showVehicleDialog true
           (VehicleList.set_defaultValues formData s))
  | Browser.Raised e =>
      VehicleList.set_isSubmitting false
        (VehicleList.add_toast
           (Browser.toast_error (Browser.message_or e "Failed to load vehicle details"))
           s)
  end.

(** A waiting function that is the rest of opening a vehicle for editing. *)
Definition rest_of_edit (k : Browser.Suspended Browser.Net VehicleList.State) : Prop :=
  forall o t,
    Browser.advance (Browser.resume (Browser.answering o) k) t
    = (None, {| Browser.view := edited o (Browser.view t);
                Browser.trace := Browser.trace t;
                Browser.in_flight := Browser.in_flight t |}).

(** What a deletion of [vehicle] notifies, as a table of the answer. *)
Definition delete_notice (vehicle : JSValue)
    (o : Browser.Outcome Browser.HttpResponse) : Browser.Toast :=
  match o with
  | Browser.Raised _ =>
      Browser.toast_error (Browser.Text "Network error when deleting vehicle")
  | Browser.Done response =>
      if Browser.ok response then
        match Browser.template (get vehicle "make") with
        | Browser.Raised e =>
            Browser.toast_error (Browser.message_or e "Failed to delete vehicle")
        | Browser.Done make =>
            match Browser.template (get vehicle "model") with
            | Browser.Raised e =>
                Browser.toast_error (Browser.message_or e "Failed to delete vehicle")
            | Browser.Done model =>
                Browser.toast_success
                  (Browser.Text ("Vehicle " +:+ make +:+ " " +:+ model
                                 +:+ " deleted successfully"))
            end
        end
      else refusal_notice response "Failed to delete vehicle"
  end.

Definition delete_request (partnerId id : string) : Browser.HttpRequest :=
  {| Browser.url := VehicleList.item partnerId id; Browser.method := "DELETE";
     Browser.sent := None |}.

(** A waiting function that is the rest of a deletion: it notifies once;
    after a success notification it has closed the confirmation, dropped
    the selection and started a reload. *)
Definition rest_of_delete (partnerId : string)
    (k : Browser.Suspended Browser.Net VehicleList.State) : Prop :=
  forall o t,
    exists m t1,
      Browser.advance (Browser.resume (Browser.answering o) k) t = (None, t1)
      /\ ((Browser.view t1
           = VehicleList.add_toast (Browser.toast_error m) (Browser.view t)
           /\ Browser.trace t1 = Browser.trace t
           /\ Browser.in_flight t1 = Browser.in_flight t)
          \/ (Browser.view t1
              = VehicleList.set_isLoading true
                  (VehicleList.set_vehicleToDelete JNull
                     (VehicleList.set_showDeleteVehicleDialog false
                        (VehicleList.add_toast (Browser.toast_success m)
                           (Browser.view t))))
              /\ reloading partnerId t t1)).

(* ===================================================================== *)
(** ** What holds of the list along every run                            *)
(* ===================================================================== *)

(** A waiting function that switches the loading flag off when it gets
    its answer. *)
Definition clears_loading (k : Browser.Suspended Browser.Net VehicleList.State) : Prop :=
  forall o t,
    VehicleList.isLoading
      (Browser.view (snd (Browser.advance (Browser.resume (Browser.answering o) k) t)))
    = false.

(** A waiting function that switches the submitting flag off when it gets
    its answer. *)
Definition clears_submitting (k : Browser.Suspended Browser.Net VehicleList.State)
  : Prop :=
  forall o t,
    VehicleList.isSubmitting
      (Browser.view (snd (Browser.advance (Browser.resume (Browser.answering o) k) t)))
    = false.

(** What every waiting function of the list does with its answer, at
    most: it ends without throwing; it leaves the mode and the vehicle
    being edited alone; it keeps the selection for deletion or drops it;
    it leaves the submitting flag or clears it; and either it sends
    nothing, leaves nothing waiting and does not set the loading flag, or
    it starts a reload. *)
Definition tame (partnerId : string)
    (k : Browser.Suspended Browser.Net VehicleList.State) : Prop :=
  forall o t,
    exists t1,
      Browser.advance (Browser.resume (Browser.answering o) k) t = (None, t1)
      /\ (VehicleList.isSubmitting (Browser.view t1) = false
          \/ VehicleList.isSubmitting (Browser.view t1)
             = VehicleList.isSubmitting (Browser.view t))
      /\ VehicleList.currentVehicleId (Browser.view t1)
         = VehicleList.currentVehicleId (Browser.view t)
      /\ VehicleList.isEditingVehicle (Browser.view t1)
         = VehicleList.isEditingVehicle (Browser.view t)
      /\ (VehicleList.vehicleToDelete (Browser.view t1)
          = VehicleList.vehicleToDelete (Browser.view t)
          \/ VehicleList.vehicleToDelete (Browser.view t1) = JNull)
      /\ ((Browser.trace t1 = Browser.trace t
           /\ Browser.in_flight t1 = Browser.in_flight t
           /\ (VehicleList.isLoading (Browser.view t1) = false
               \/ VehicleList.isLoading (Browser.view t1)
                  = VehicleList.isLoading (Browser.view t)))
          \/ reloading partnerId t t1).

(** A request the list may send after the events [evs]: a load of the
    collection; the data of a vehicle on which Edit was clicked; a form
    that passed the check, as a POST to the collection, or as a PUT for a
    vehicle on which Edit was clicked (to the collection if that vehicle
    has the empty id); the deletion of a vehicle on which Delete was
    clicked. *)
Definition accounted (partnerId : string) (evs : list VehicleList.Event)
    (r : Browser.HttpRequest) : Prop :=
  r = load_request partnerId
  \/ (exists id, In (VehicleList.ClickEdit id) evs /\ r = edit_request partnerId id)
  \/ (exists data,
        In (VehicleList.SubmitForm data) evs /\ complete data
        /\ (r = {| Browser.url := VehicleList.collection partnerId;
                   Browser.method := "POST"; Browser.sent := Some data |}
            \/ exists id,
                 In (VehicleList.ClickEdit id) evs
                 /\ r = {| Browser.url := if String.eqb id ""
                                          then VehicleList.collection partnerId
                                          else VehicleList.item partnerId id;
                           Browser.method := "PUT"; Browser.sent := Some data |}))
  \/ (exists vehicle id,
        In (VehicleList.ClickDelete vehicle) evs
        /\ Browser.template (get vehicle "id") = Browser.Done id
        /\ r = delete_request partnerId id).

Definition list_invariant (partnerId : string) (evs : list VehicleList.Event)
    (t : Browser.Tab Browser.Net VehicleList.State) : Prop :=
  Forall (tame partnerId) (Browser.in_flight t)
  /\ (VehicleList.isLoading (Browser.view t) = true ->
      Exists clears_loading (Browser.in_flight t))
  /\ (VehicleList.isSubmitting (Browser.view t) = true ->
      Exists clears_submitting (Browser.in_flight t))
  /\ Forall (accounted partnerId evs) (Browser.requests t)
  /\ match VehicleList.currentVehicleId (Browser.view t) with
     | Some id =>
         VehicleList.isEditingVehicle (Browser.view t) = true
         /\ In (VehicleList.ClickEdit id) evs
     | None => VehicleList.isEditingVehicle (Browser.view t) = false
     end
  /\ (VehicleList.vehicleToDelete (Browser.view t) = JNull
      \/ In (VehicleList.ClickDelete (VehicleList.vehicleToDelete (Browser.view t))) evs).

(** *** Sample data for the list *)

Definition brand_only : JSValue := object [("brand", JStr "Renault")].

Definition duplicate_answer : Browser.Outcome Browser.HttpResponse :=
  Browser.Done
    {| Browser.status := 400; Browser.statusText := "Bad Request";
       Browser.payload :=
         Browser.Json
           (object [("error", JStr "A vehicle with this license plate already exists")]) |}.

Definition clio_fields : gmap string JSValue :=
  list_to_map [("id", JStr "v1"); ("make", JStr "Renault"); ("model", JStr "Clio");
               ("year", JNum 2019); ("capacity", JNum 4);
               ("licensePlate", JStr "AB-123-CD"); ("lastMaintenance", JNull)].

Definition clio_details : Browser.HttpResponse :=
  {| Browser.status := 200; Browser.statusText := "OK";
     Browser.payload := Browser.Json (JObj clio_fields) |}.

Definition empty_list_answer : Browser.Outcome Browser.HttpResponse :=
  Browser.Done {| Browser.status := 200; Browser.statusText := "OK";
                  Browser.payload := Browser.Json (JArr []) |}.

(* ===================================================================== *)
(** ** The handlers as decision tables                                   *)
(* ===================================================================== *)

Lemma bind_ret {A B} (a : A) (k : A -> Eff B) : bind (ret a) k = k a.
Proof. reflexivity. Qed.

Lemma bind_throw {A B} (e : Exception) (k : A -> Eff B) : bind (throw e) k = throw e.
Proof. reflexivity. Qed.

Lemma prop_ret data k : nullish data = false -> prop data k = ret (get data k).
Proof. destruct data; simpl; intros H; try discriminate; reflexivity. Qed.

Ltac eff_simpl := repeat (rewrite bind_ret || cbv beta).

Lemma POST_table_correct req w : POST req w = POST_table req w.
Proof.
  unfold POST, POST_table, try_catch, error_response.
  destruct (no_user (userId req)); [reflexivity|].
  unfold req_json.
  destruct (body req) as [data|]; [|reflexivity].
  rewrite bind_ret. unfold bind at 1. unfold db_partner_findUnique, find_partner.
  destruct (decide (params_partnerId req ∈ partners (db w))) as [Hin|Hout]; [|reflexivity].
  destruct (nullish data) eqn:Hn.
  - destruct data; try discriminate; reflexivity.
  - unfold orE, push_if, lacks. rewrite !prop_ret by assumption. eff_simpl.
    unfold missing, required_fields. cbn [List.filter].
    destruct (truthy (get data "brand")) eqn:Hb, (truthy (get data "model")) eqn:Hm,
      (truthy (get data "year")) eqn:Hy, (truthy (get data "licensePlate")) eqn:Hl;
      cbn [negb]; eff_simpl; cbn [negb app]; try reflexivity.
    unfold bind at 1. unfold db_vehicle_findUnique.
    destruct (get data "licensePlate") as [| | | |p| |] eqn:Hp; try reflexivity.
    cbn [db record_call].
    destruct (find_by_plate p (db w)); [reflexivity|].
    eff_simpl.
    unfold create_data. rewrite Hp.
    destruct (truthy (get data "lastMaintenance")) eqn:Hlm; eff_simpl;
      unfold bind at 1; unfold db_vehicle_create; cbn [db now calls record_call];
    match goal with |- context [create ?a ?b ?c] => destruct (create a b c) as [[v st']|] end;
      reflexivity.
Qed.


Lemma GET_table_correct req w : GET req w = GET_table req w.
Proof.
  unfold GET, GET_table, try_catch, error_response.
  destruct (no_user (userId req)); [reflexivity|].
  unfold bind at 1. unfold db_partner_findUnique, find_partner.
  destruct (decide (params_partnerId req ∈ partners (db w))); reflexivity.
Qed.

(* ===================================================================== *)
(** ** parseInt on decimal numerals                                      *)
(* ===================================================================== *)

Lemma small_N_cases (d : N) :
  (d < 10)%N ->
  d = 0%N \/ d = 1%N \/ d = 2%N \/ d = 3%N \/ d = 4%N \/ d = 5%N \/ d = 6%N
  \/ d = 7%N \/ d = 8%N \/ d = 9%N.
Proof. lia. Qed.

Lemma digit_char_value (d : N) :
  (d < 10)%N ->
  digit_value (digit_char d) = Some (Z.of_N d) /\ is_digit_char (digit_char d) = true.
Proof.
  intros H. destruct (small_N_cases d H) as [->|[->|[->|[->|[->|[->|[->|[->|[->| ->]]]]]]]]];
    split; reflexivity.
Qed.

Lemma decimal_go_digits fuel : forall n acc,
  (n < 10 ^ N.of_nat fuel)%N -> (0 < fuel)%nat ->
  exists ds,
    ds <> [] /\
    radix_digits 10 (decimal_go fuel n acc) = (ds ++ radix_digits 10 acc)%list /\
    (forall a0, fold_left (fun acc d => acc * 10 + d) ds a0
                = a0 * 10 ^ Z.of_nat (length ds) + Z.of_N n) /\
    (all_digits acc = true -> all_digits (decimal_go fuel n acc) = true) /\
    decimal_go fuel n acc <> EmptyString.
Proof.
  induction fuel as [|fuel IH]; intros n acc Hn Hf; [lia|].
  cbn [decimal_go].
  assert (Hd : (n mod 10 < 10)%N) by (apply N.mod_lt; lia).
  destruct (digit_char_value _ Hd) as [Hv Hc].
  destruct (n / 10 =? 0)%N eqn:Hq.
  - apply N.eqb_eq in Hq.
    assert (n mod 10 = n)%N as Hn' by (pose proof (N.div_mod n 10); lia).
    exists [Z.of_N n]. split; [discriminate|]. split; [|split; [|split]].
    + cbn [radix_digits]. rewrite Hv, Hn'.
      destruct (Z.ltb_spec (Z.of_N n) 10); [reflexivity|lia].
    + intros a0. cbn. lia.
    + intros Ha. cbn [all_digits]. rewrite Hc, Ha. reflexivity.
    + discriminate.
  - apply N.eqb_neq in Hq.
    assert (Hfuel : (0 < fuel)%nat).
    { destruct fuel; [|lia]. cbn in Hn. exfalso. apply Hq. apply N.div_small. lia. }
    assert (Hlt : (n / 10 < 10 ^ N.of_nat fuel)%N).
    { apply N.Div0.div_lt_upper_bound.
      replace (N.of_nat (S fuel)) with (N.succ (N.of_nat fuel)) in Hn by lia.
      rewrite N.pow_succ_r' in Hn. lia. }
    destruct (IH (n / 10)%N (String (digit_char (n mod 10)) acc) Hlt Hfuel)
      as (ds & Hne & Hr & Hfold & Hall & Hnz).
    exists (ds ++ [Z.of_N (n mod 10)])%list. split; [|split; [|split; [|split]]].
    + destruct ds; discriminate.
    + rewrite Hr. cbn [radix_digits]. rewrite Hv.
      destruct (Z.ltb_spec (Z.of_N (n mod 10)) 10); [|lia].
      rewrite <- app_assoc. reflexivity.
    + intros a0. rewrite fold_left_app, Hfold. cbn [fold_left].
      rewrite length_app. cbn [length].
      replace (Z.of_nat (length ds + 1)) with (Z.succ (Z.of_nat (length ds))) by lia.
      rewrite Z.pow_succ_r by lia.
      pose proof (N.div_mod n 10). lia.
    + intros Ha. apply Hall. cbn [all_digits]. rewrite Hc, Ha. reflexivity.
    + exact Hnz.
Qed.

Lemma digit_not_space c : is_digit_char c = true -> isStrWhiteSpaceChar c = false.
Proof.
  destruct c as [[] [] [] [] [] [] [] []]; intros H; try reflexivity; discriminate H.
Qed.

Lemma digit_no_sign c rest :
  is_digit_char c = true -> strip_sign (String c rest) = (1, String c rest).
Proof.
  destruct c as [[] [] [] [] [] [] [] []]; intros H; try reflexivity; discriminate H.
Qed.

Lemma digits_no_hex_prefix s :
  all_digits s = true -> strip_hex_prefix s = (10, s).
Proof.
  destruct s as [|c [|c2 rest]]; [reflexivity| |].
  - intros _. destruct c as [[] [] [] [] [] [] [] []]; reflexivity.
  - cbn [all_digits]. intros H.
    apply andb_prop in H as [_ H]. apply andb_prop in H as [H2 _].
    destruct c as [[] [] [] [] [] [] [] []]; try reflexivity.
    destruct c2 as [[] [] [] [] [] [] [] []]; try reflexivity; discriminate H2.
Qed.

Lemma decimal_N_parse (n : N) :
  all_digits (decimal_N n) = true /\ decimal_N n <> EmptyString /\
  exists ds, ds <> [] /\ radix_digits 10 (decimal_N n) = ds /\
             mathInt 10 ds = Z.of_N n.
Proof.
  unfold decimal_N.
  assert (Hlt : (n < 10 ^ N.of_nat (S (N.to_nat (N.log2 n))))%N).
  { replace (N.of_nat (S (N.to_nat (N.log2 n)))) with (N.succ (N.log2 n)) by lia.
    destruct (N.eq_dec n 0%N) as [->|Hn]; [reflexivity|].
    apply N.lt_le_trans with (2 ^ N.succ (N.log2 n))%N.
    - apply N.log2_spec. lia.
    - apply N.pow_le_mono_l. lia. }
  destruct (decimal_go_digits _ n EmptyString Hlt ltac:(lia))
    as (ds & Hne & Hr & Hfold & Hall & Hnz).
  split; [apply Hall; reflexivity|]. split; [exact Hnz|].
  exists ds. split; [exact Hne|]. split.
  - rewrite Hr. cbn [radix_digits]. apply app_nil_r.
  - unfold mathInt. rewrite Hfold. lia.
Qed.

Lemma parseInt_digits (sign : Z) (n : N) :
  match radix_digits 10 (decimal_N n) with
  | [] => NaN
  | ds => Int (sign * mathInt 10 ds)
  end = Int (sign * Z.of_N n).
Proof.
  destruct (decimal_N_parse n) as (_ & _ & ds & Hne & -> & Hm).
  destruct ds; [contradiction|]. rewrite Hm. reflexivity.
Qed.

Lemma parseInt_decimal_Z (z : Z) : parseInt_string (decimal_Z z) = Int z.
Proof.
  unfold parseInt_string, decimal_Z.
  destruct (Z.ltb_spec z 0) as [Hneg|Hpos].
  - cbn [trimStart]. replace (isStrWhiteSpaceChar "-") with false by reflexivity.
    cbn [strip_sign].
    destruct (decimal_N_parse (Z.to_N (- z))) as (Hall & _ & _).
    rewrite (digits_no_hex_prefix _ Hall), parseInt_digits. f_equal. lia.
  - destruct (decimal_N_parse (Z.to_N z)) as (Hall & Hnz & _).
    destruct (decimal_N (Z.to_N z)) as [|c rest] eqn:Hs; [contradiction|].
    cbn [all_digits] in Hall. pose proof Hall as Hall'.
    apply andb_prop in Hall as [Hc _].
    cbn [trimStart]. rewrite (digit_not_space _ Hc), (digit_no_sign _ _ Hc).
    rewrite (digits_no_hex_prefix (String c rest)) by exact Hall'.
    rewrite <- Hs, parseInt_digits. f_equal. lia.
Qed.

Lemma NumberToString_plain (z : Z) :
  Z.abs z < 10 ^ 21 -> NumberToString z = decimal_Z z.
Proof.
  intros Hz. unfold NumberToString, decimal_Z.
  destruct (N.ltb_spec (Z.to_N (Z.abs z)) (10 ^ 21)) as [_|Hge].
  - destruct (Z.ltb_spec z 0); repeat f_equal; lia.
  - exfalso. apply N2Z.inj_le in Hge. rewrite Z2N.id in Hge by lia.
    change (Z.of_N (10 ^ 21)) with (10 ^ 21) in Hge. lia.
Qed.

Lemma parseInt_submitted (z : Z) (v : JSValue) : submitted_as z v -> parseInt v = Int z.
Proof.
  intros [Hsafe [-> | ->]]; unfold parseInt; cbn [ToString].
  - rewrite NumberToString_plain; [apply parseInt_decimal_Z|].
    unfold safe_integer in Hsafe. lia.
  - apply parseInt_decimal_Z.
Qed.


(* ===================================================================== *)
(** ** Facts about the store and the call log                            *)
(* ===================================================================== *)

Lemma issued_refl w : issued w w = [].
Proof. unfold issued. apply drop_all. Qed.

Lemma issued_1 w c : issued w (record_call c w) = [c].
Proof. unfold issued, record_call. cbn [calls]. apply drop_app_length. Qed.

Lemma issued_2 w c1 c2 : issued w (record_call c2 (record_call c1 w)) = [c1; c2].
Proof.
  unfold issued, record_call. cbn [calls].
  rewrite <- app_assoc. apply drop_app_length.
Qed.

Lemma issued_3 w c1 c2 c3 st t :
  issued w {| db := st; now := t;
              calls := calls (record_call c3 (record_call c2 (record_call c1 w))) |}
  = [c1; c2; c3].
Proof.
  unfold issued, record_call. cbn [calls].
  rewrite <- !app_assoc. apply drop_app_length.
Qed.

Lemma issued_3' w c1 c2 c3 :
  issued w (record_call c3 (record_call c2 (record_call c1 w))) = [c1; c2; c3].
Proof. apply (issued_3 w c1 c2 c3 (db w) (now w)). Qed.

Lemma partner_exists_decide req w :
  partner_exists req w = true <-> params_partnerId req ∈ partners (db w).
Proof. unfold partner_exists. apply bool_decide_eq_true. Qed.

Lemma plate_taken_find p st :
  plate_taken p st = true -> exists v, find_by_plate p st = Some v.
Proof.
  unfold plate_taken, find_by_plate. intros H.
  destruct (List.find (has_plate p) (vehicles st)) as [v|] eqn:Hf; [eauto|].
  apply existsb_exists in H as (v & Hin & Hv).
  rewrite (find_none _ _ Hf v Hin) in Hv. discriminate.
Qed.

Lemma plate_free_find p st :
  plate_taken p st = false -> find_by_plate p st = None.
Proof.
  unfold plate_taken, find_by_plate. intros H.
  destruct (List.find (has_plate p) (vehicles st)) as [v|] eqn:Hf; [|reflexivity].
  apply find_some in Hf as [Hin Hv].
  assert (List.existsb (has_plate p) (vehicles st) = true)
    by (apply existsb_exists; eauto).
  congruence.
Qed.

(** Case analysis along the branches of [POST_table]. *)
Ltac post_branch :=
  match goal with
  | |- context [if no_user ?u then _ else _] => destruct (no_user u) eqn:?
  | |- context [match body ?r with Some _ => _ | None => _ end] =>
      destruct (body r) as [?|] eqn:?
  | |- context [decide (?x ∈ ?s)] => destruct (decide (x ∈ s))
  | |- context [if nullish ?d then _ else _] => destruct (nullish d) eqn:?
  | |- context [match missing ?d with [] => _ | _ :: _ => _ end] =>
      destruct (missing d) as [|? ?] eqn:?
  | |- context [match get ?d "licensePlate" with JStr _ => _ | _ => _ end] =>
      destruct (get d "licensePlate") as [| | | |?| |] eqn:?
  | |- context [match find_by_plate ?p ?st with Some _ => _ | None => _ end] =>
      destruct (find_by_plate p st) as [?|] eqn:?
  | |- context [match create ?t ?d ?st with Some _ => _ | None => _ end] =>
      destruct (create t d st) as [[? ?]|] eqn:?
  end.

Ltac post_cases :=
  rewrite ?POST_table_correct; unfold POST_table, error_response;
  repeat post_branch.

Ltac calls_simpl :=
  cbn [fst snd db now]; unfold reaches_create;
  rewrite ?issued_refl, ?issued_1, ?issued_2, ?issued_3, ?issued_3';
  cbn [List.existsb is_create orb].

(* ===================================================================== *)
(** ** Properties of POST                                                *)
(* ===================================================================== *)

(** C1 as stated fails: a POST whose plate is already stored gets another
    answer when the caller is not authenticated (401), when the partner is
    unknown (404), and when another required field is missing (400 with the
    missing-fields message). *)
Lemma C1_counterexample :
  plate_taken "AB-123-CD" (db stocked_world) = true
  /\ get mercedes_body "licensePlate" = JStr "AB-123-CD"
  /\ fst (POST (request None "p1" (Some mercedes_body)) stocked_world)
     = error_response "Unauthorized" 401
  /\ fst (POST (request (Some "user_1") "p9" (Some mercedes_body)) stocked_world)
     = error_response "Partner not found" 404
  /\ fst (POST (request (Some "user_1") "p1"
                  (Some (object [("model", JStr "S-Class"); ("year", JStr "2022");
                                 ("licensePlate", JStr "AB-123-CD")])))
               stocked_world)
     = error_response "Missing required fields: brand" 400
  /\ ~ C1_as_stated.
Proof.
  repeat (split; [vm_compute; reflexivity|]).
  intros Hclaim.
  destruct (Hclaim (request None "p1" (Some mercedes_body)) stocked_world
              mercedes_body "AB-123-CD") as [Hresp _];
    [reflexivity | reflexivity | reflexivity |].
  vm_compute in Hresp. discriminate Hresp.
Qed.

(** C1, amended: a POST whose body carries the plate of a stored vehicle (of
    any partner) never changes the store and never reaches the create call;
    when the caller is authenticated, the partner exists and brand, model,
    year and licensePlate are all truthy, the answer is 400 with the message
    "A vehicle with this license plate already exists". *)
Theorem C1_duplicate_plate_rejected req w data p :
  body req = Some data ->
  get data "licensePlate" = JStr p ->
  plate_taken p (db w) = true ->
  db (snd (POST req w)) = db w
  /\ reaches_create w (snd (POST req w)) = false
  /\ (authenticated req -> partner_exists req w = true -> missing data = [] ->
      fst (POST req w)
      = error_response "A vehicle with this license plate already exists" 400).
Proof.
  intros Hbody Hplate Htaken.
  destruct (plate_taken_find _ _ Htaken) as [v0 Hfound].
  unfold authenticated. rewrite partner_exists_decide.
  rewrite !POST_table_correct. unfold POST_table, error_response.
  assert (Hn : nullish data = false)
    by (destruct data; try reflexivity; discriminate Hplate).
  rewrite Hbody, Hn, Hplate, Hfound.
  repeat post_branch; calls_simpl;
    repeat split; first [reflexivity | congruence | intros; congruence | intros; contradiction].
Qed.

(** The specification's example: the same POST repeated once the Mercedes is
    stored. *)
Lemma C1_witness :
  db (snd (POST (request (Some "user_1") "p1" (Some mercedes_body)) stocked_world))
  = db stocked_world
  /\ reaches_create stocked_world
       (snd (POST (request (Some "user_1") "p1" (Some mercedes_body)) stocked_world))
     = false
  /\ fst (POST (request (Some "user_1") "p1" (Some mercedes_body)) stocked_world)
     = error_response "A vehicle with this license plate already exists" 400.
Proof.
  destruct (C1_duplicate_plate_rejected
              (request (Some "user_1") "p1" (Some mercedes_body)) stocked_world
              mercedes_body "AB-123-CD") as (Hdb & Hcreate & Hresp);
    [reflexivity | reflexivity | vm_compute; reflexivity |].
  split; [exact Hdb | split; [exact Hcreate |]].
  apply Hresp; vm_compute; reflexivity.
Defined.

(** C2 as stated fails: an authenticated POST for an unknown partner whose
    body is not JSON is answered 500, not 404, because [req.json()] is
    awaited (and throws) before the partner is looked up. *)
Lemma C2_counterexample :
  authenticated (request (Some "user_1") "p9" None)
  /\ partner_exists (request (Some "user_1") "p9" None) stocked_world = false
  /\ fst (POST (request (Some "user_1") "p9" None) stocked_world)
     = error_response "Failed to add vehicle" 500
  /\ ~ C2_as_stated.
Proof.
  repeat (split; [vm_compute; reflexivity|]).
  intros Hclaim.
  destruct (Hclaim (request (Some "user_1") "p9" None) stocked_world) as [Hst _];
    [reflexivity | reflexivity |].
  vm_compute in Hst. discriminate Hst.
Qed.

(** C2, amended: an authenticated POST whose partnerId names no existing
    partner performs no write (the store is the same afterwards and the
    create call is not reached), and it is answered 404 whenever its body
    parses as JSON. *)
Theorem C2_unknown_partner_no_write req w :
  authenticated req ->
  partner_exists req w = false ->
  db (snd (POST req w)) = db w
  /\ vehicles (db (snd (POST req w))) = vehicles (db w)
  /\ reaches_create w (snd (POST req w)) = false
  /\ (forall data, body req = Some data ->
      fst (POST req w) = error_response "Partner not found" 404).
Proof.
  unfold authenticated, partner_exists. intros Hauth Hnone.
  apply bool_decide_eq_false in Hnone.
  rewrite !POST_table_correct. unfold POST_table, error_response.
  rewrite Hauth.
  destruct (body req) as [data|]; [|calls_simpl; repeat split; intros; discriminate].
  destruct (decide (params_partnerId req ∈ partners (db w))); [contradiction|].
  calls_simpl. repeat split.
Qed.

(** The example body sent for a partner that does not exist. *)
Lemma C2_witness :
  db (snd (POST (request (Some "user_1") "p9" (Some mercedes_body)) fresh_world))
  = db fresh_world
  /\ vehicles (db (snd (POST (request (Some "user_1") "p9" (Some mercedes_body))
                            fresh_world)))
     = vehicles (db fresh_world)
  /\ reaches_create fresh_world
       (snd (POST (request (Some "user_1") "p9" (Some mercedes_body)) fresh_world))
     = false
  /\ fst (POST (request (Some "user_1") "p9" (Some mercedes_body)) fresh_world)
     = error_response "Partner not found" 404.
Proof.
  destruct (C2_unknown_partner_no_write
              (request (Some "user_1") "p9" (Some mercedes_body)) fresh_world)
    as (Hdb & Hvs & Hcreate & Hresp); [reflexivity | vm_compute; reflexivity |].
  split; [exact Hdb | split; [exact Hvs | split; [exact Hcreate |]]].
  apply (Hresp mercedes_body). reflexivity.
Defined.

(** C8 as stated fails: for an authenticated POST naming an unknown partner
    the body is read before the partner check, so a body that is not JSON
    is answered 500 and the partner is never looked up. *)
Lemma C8_counterexample :
  authenticated (request (Some "user_2") "unknown" None)
  /\ partner_exists (request (Some "user_2") "unknown" None) fresh_world = false
  /\ res_status (fst (POST (request (Some "user_2") "unknown" None) fresh_world)) = 500
  /\ issued fresh_world (snd (POST (request (Some "user_2") "unknown" None) fresh_world))
     = []
  /\ ~ C8_as_stated.
Proof.
  repeat (split; [vm_compute; reflexivity|]).
  intros Hclaim.
  pose proof (Hclaim (request (Some "user_2") "unknown" None) fresh_world
                eq_refl eq_refl) as Hst.
  vm_compute in Hst. discriminate Hst.
Qed.

(** C8, amended: in POST the partner check comes before the field
    validation and the duplicate-plate check.  An authenticated POST naming
    an unknown partner, with a body that parses as JSON, is answered 404
    whatever the body holds (missing fields, a duplicate plate), and the
    partner lookup is the only [db] call made; a 400 answer is only ever
    given when the partner exists. *)
Theorem C8_partner_check_first req w data :
  authenticated req ->
  body req = Some data ->
  (partner_exists req w = false ->
   fst (POST req w) = error_response "Partner not found" 404
   /\ issued w (snd (POST req w)) = [PartnerFindUnique (params_partnerId req)])
  /\ (res_status (fst (POST req w)) = 400 -> partner_exists req w = true).
Proof.
  unfold authenticated. intros Hauth Hbody. split.
  - intros Hnone.
    unfold partner_exists in Hnone. apply bool_decide_eq_false in Hnone.
    rewrite !POST_table_correct. unfold POST_table, error_response.
    rewrite Hauth, Hbody.
    destruct (decide (params_partnerId req ∈ partners (db w))); [contradiction|].
    calls_simpl. split; reflexivity.
  - rewrite partner_exists_decide.
    post_cases; cbn [fst res_status NextResponse_json]; intros H;
      first [assumption | discriminate H].
Qed.

(** A body that lacks three required fields and carries a stored plate,
    sent for a partner that does not exist. *)
Lemma C8_witness :
  fst (POST (request (Some "user_1") "p9"
               (Some (object [("licensePlate", JStr "AB-123-CD")])))
            stocked_world)
  = error_response "Partner not found" 404
  /\ issued stocked_world
       (snd (POST (request (Some "user_1") "p9"
                     (Some (object [("licensePlate", JStr "AB-123-CD")])))
                  stocked_world))
     = [PartnerFindUnique "p9"].
Proof.
  destruct (C8_partner_check_first
              (request (Some "user_1") "p9"
                 (Some (object [("licensePlate", JStr "AB-123-CD")])))
              stocked_world
              (object [("licensePlate", JStr "AB-123-CD")]))
    as [Hfirst _]; [reflexivity | reflexivity |].
  apply Hfirst. vm_compute. reflexivity.
Defined.

Lemma missing_In data k :
  In k (missing data) <-> In k required_fields /\ truthy (get data k) = false.
Proof.
  unfold missing. rewrite filter_In, negb_true_iff. reflexivity.
Qed.

Lemma absent_falsy data k : absent data k -> truthy (get data k) = false.
Proof. unfold absent. intros ->. reflexivity. Qed.

(** C3 as stated fails on "no field that was supplied is listed": with
    brand omitted and model supplied as the empty string, the message lists
    model as well.  And a body that is JSON [null] omits every field but is
    answered 500. *)
Lemma C3_counterexample :
  absent (object [("model", JStr ""); ("year", JNum 2022);
                  ("licensePlate", JStr "AB-123-CD")]) "brand"
  /\ get (object [("model", JStr ""); ("year", JNum 2022);
                  ("licensePlate", JStr "AB-123-CD")]) "model" = JStr ""
  /\ fst (POST (request (Some "user_1") "p1"
                  (Some (object [("model", JStr ""); ("year", JNum 2022);
                                 ("licensePlate", JStr "AB-123-CD")])))
               fresh_world)
     = error_response "Missing required fields: brand, model" 400
  /\ fst (POST (request (Some "user_1") "p1" (Some JNull)) fresh_world)
     = error_response "Failed to add vehicle" 500
  /\ ~ C3_as_stated.
Proof.
  repeat (split; [vm_compute; reflexivity|]).
  intros Hclaim.
  destruct (Hclaim
              (request (Some "user_1") "p1"
                 (Some (object [("model", JStr ""); ("year", JNum 2022);
                                ("licensePlate", JStr "AB-123-CD")])))
              fresh_world
              (object [("model", JStr ""); ("year", JNum 2022);
                       ("licensePlate", JStr "AB-123-CD")]))
    as (listed & Hresp & Hlisted & _);
    [reflexivity | reflexivity | reflexivity
    | exists "brand"; split; [left; reflexivity | reflexivity] |].
  assert (Hmsg : "brand, model" = join ", " listed).
  { vm_compute in Hresp. injection Hresp as Hresp. exact Hresp. }
  assert (Hbrand : forall a, In a listed -> a = "brand").
  { intros a Ha. apply Hlisted in Ha as [Hreq Habs].
    unfold absent in Habs.
    destruct Hreq as [<-|[<-|[<-|[<-|[]]]]]; vm_compute in Habs;
      first [reflexivity | discriminate Habs]. }
  destruct listed as [|a [|b rest]].
  - discriminate Hmsg.
  - rewrite (Hbrand a) in Hmsg by (left; reflexivity). discriminate Hmsg.
  - rewrite (Hbrand a) in Hmsg by (left; reflexivity).
    rewrite (Hbrand b) in Hmsg by (right; left; reflexivity).
    destruct rest; discriminate Hmsg.
Qed.

(** C3, amended: for an authenticated POST for an existing partner whose
    body is a JSON value other than [null] in which some field among brand,
    model, year, licensePlate is absent or falsy, the answer is 400 with the
    message "Missing required fields: " followed by the names of exactly
    the required fields that are absent or falsy (so every omitted field is
    listed), in the order brand, model, year, licensePlate, separated by
    ", "; the store is unchanged and the create call is not reached. *)
Theorem C3_missing_fields_listed req w data :
  authenticated req ->
  partner_exists req w = true ->
  body req = Some data ->
  nullish data = false ->
  (exists k, In k required_fields /\ truthy (get data k) = false) ->
  fst (POST req w)
  = error_response ("Missing required fields: " +:+ join ", " (missing data)) 400
  /\ db (snd (POST req w)) = db w
  /\ reaches_create w (snd (POST req w)) = false
  /\ (forall k, In k (missing data)
                <-> In k required_fields /\ truthy (get data k) = false)
  /\ (forall k, In k required_fields -> absent data k -> In k (missing data)).
Proof.
  unfold authenticated. rewrite partner_exists_decide.
  intros Hauth Hpartner Hbody Hn (k & Hk & Hfalsy).
  assert (Hmiss : In k (missing data)) by (apply missing_In; auto).
  rewrite !POST_table_correct. unfold POST_table, error_response.
  rewrite Hauth, Hbody, Hn.
  destruct (decide (params_partnerId req ∈ partners (db w))); [|contradiction].
  destruct (missing data) as [|k0 rest] eqn:Hm; [contradiction|].
  rewrite <- Hm. calls_simpl.
  split; [reflexivity|]. split; [reflexivity|]. split; [reflexivity|].
  split; [intros k'; apply missing_In|].
  intros k' Hk' Habs. apply missing_In. split; [exact Hk'|].
  apply absent_falsy, Habs.
Qed.

(** A body with model and year only. *)
Lemma C3_witness :
  fst (POST (request (Some "user_1") "p1"
               (Some (object [("model", JStr "S-Class"); ("year", JStr "2022")])))
            fresh_world)
  = error_response "Missing required fields: brand, licensePlate" 400.
Proof.
  destruct (C3_missing_fields_listed
              (request (Some "user_1") "p1"
                 (Some (object [("model", JStr "S-Class"); ("year", JStr "2022")])))
              fresh_world
              (object [("model", JStr "S-Class"); ("year", JStr "2022")]))
    as (Hresp & _);
    [reflexivity | vm_compute; reflexivity | reflexivity | reflexivity
    | exists "brand"; split; [left; reflexivity | vm_compute; reflexivity] |].
  exact Hresp.
Defined.

Lemma truthy_delete_falsy (m : gmap string JSValue) k v f :
  m !! k = Some v -> truthy v = false ->
  truthy (get (JObj (delete k m)) f) = truthy (get (JObj m) f).
Proof.
  intros Hk Hv. cbn [get].
  destruct (decide (k = f)) as [->|Hne].
  - rewrite lookup_delete_eq, Hk. cbn. symmetry. exact Hv.
  - rewrite lookup_delete_ne by exact Hne. reflexivity.
Qed.

Lemma missing_delete_falsy (m : gmap string JSValue) k v :
  m !! k = Some v -> truthy v = false ->
  missing (JObj (delete k m)) = missing (JObj m).
Proof.
  intros Hk Hv. unfold missing, required_fields. cbn [List.filter].
  rewrite !(truthy_delete_falsy m k v _ Hk Hv). reflexivity.
Qed.

(** C9: POST's required-field validation tests falsiness, not presence.
    Take a body that holds brand, model, year or licensePlate with a falsy
    value (the empty string, the number 0, false and null are such values).
    The validation, which an authenticated request for an existing partner
    reaches, answers 400 and lists that field as missing; and this is
    exactly as if the field had been omitted: the fields found missing are
    those of the same body without the field, and the whole run of the
    handler, its answer and its calls, is that for the body without the
    field, for every caller and every partner. *)
Theorem C9_falsy_field_is_missing req w (m : gmap string JSValue) k v :
  body req = Some (JObj m) ->
  In k required_fields ->
  m !! k = Some v ->
  truthy v = false ->
  (authenticated req -> partner_exists req w = true ->
   fst (POST req w)
   = error_response ("Missing required fields: " +:+ join ", " (missing (JObj m))) 400)
  /\ In k (missing (JObj m))
  /\ missing (JObj m) = missing (JObj (delete k m))
  /\ POST req w = POST (with_body req (JObj (delete k m))) w
  /\ truthy (JStr "") = false /\ truthy (JNum 0) = false
  /\ truthy (JBool false) = false /\ truthy JNull = false.
Proof.
  intros Hbody Hk Hlook Hv.
  assert (Hmiss : In k (missing (JObj m))).
  { apply missing_In. split; [exact Hk|]. cbn [get]. rewrite Hlook. exact Hv. }
  pose proof (missing_delete_falsy m k v Hlook Hv) as Hsame.
  split; [|split; [exact Hmiss|split; [symmetry; exact Hsame|split]]].
  - unfold authenticated. rewrite partner_exists_decide. intros Hauth Hpartner.
    rewrite POST_table_correct. unfold POST_table, error_response.
    rewrite Hauth, Hbody. cbn [nullish].
    destruct (decide (params_partnerId req ∈ partners (db w))); [|contradiction].
    destruct (missing (JObj m)) as [|k0 rest] eqn:Hm; [contradiction|].
    reflexivity.
  - rewrite !POST_table_correct. unfold POST_table, error_response, with_body.
    cbn [userId params_partnerId body]. rewrite Hbody. cbn [nullish].
    rewrite Hsame.
    destruct (missing (JObj m)) as [|k0 rest] eqn:Hm; [contradiction|].
    reflexivity.
  - repeat split; reflexivity.
Qed.

(** A body whose year is the number 0. *)
Lemma C9_witness :
  fst (POST (request (Some "user_1") "p1"
               (Some (JObj (<["year" := JNum 0]> (<["brand" := JStr "Audi"]> ∅)))))
            fresh_world)
  = error_response "Missing required fields: model, year, licensePlate" 400
  /\ In "year" (missing (JObj (<["year" := JNum 0]> (<["brand" := JStr "Audi"]> ∅))))
  /\ POST (request (Some "user_1") "p1"
             (Some (JObj (<["year" := JNum 0]> (<["brand" := JStr "Audi"]> ∅)))))
          fresh_world
     = POST (request (Some "user_1") "p1" (Some (JObj (<["brand" := JStr "Audi"]> ∅))))
         fresh_world.
Proof.
  destruct (C9_falsy_field_is_missing
              (request (Some "user_1") "p1"
                 (Some (JObj (<["year" := JNum 0]> (<["brand" := JStr "Audi"]> ∅)))))
              fresh_world
              (<["year" := JNum 0]> (<["brand" := JStr "Audi"]> ∅)) "year" (JNum 0))
    as (Hresp & Hin & _ & Hsame & _);
    [reflexivity | vm_compute; tauto | vm_compute; reflexivity | reflexivity |].
  split; [apply Hresp; [reflexivity | vm_compute; reflexivity]|].
  split; [exact Hin|].
  rewrite Hsame. vm_compute. reflexivity.
Defined.

Lemma row_of_input_Some i t d v :
  row_of_input i t d = Some v ->
  data_year d = Int (year v)
  /\ data_capacity d = Int (capacity v)
  /\ as_VehicleType (data_vehicleType d) = Some (vehicleType v)
  /\ as_VehicleStatus (data_status d) = Some (status v)
  /\ as_bool (data_isForeignPlate d) = Some (isForeignPlate v)
  /\ lastMaintenance v = data_lastMaintenance d.
Proof.
  unfold row_of_input. intros H.
  destruct (as_string (data_make d)); [|discriminate H].
  destruct (as_string (data_model d)); [|discriminate H].
  destruct (data_year d) as [|y] eqn:Hy; [discriminate H|].
  destruct (as_string (data_licensePlate d)); [|discriminate H].
  destruct (as_bool (data_isForeignPlate d)); [|discriminate H].
  destruct (as_optional_string (data_color d)); [|discriminate H].
  destruct (data_capacity d) as [|c] eqn:Hc; [discriminate H|].
  destruct (as_VehicleType (data_vehicleType d)); [|discriminate H].
  destruct (as_VehicleStatus (data_status d)); [|discriminate H].
  destruct (as_optional_string (data_fuelType d)); [|discriminate H].
  destruct (as_optional_string (data_registrationDate d)); [|discriminate H].
  cbn in H. injection H as <-. cbn. repeat split.
Qed.

Lemma create_Some t d st v st' :
  create t d st = Some (v, st') ->
  row_of_input (fresh_id (vehicles st)) t d = Some v
  /\ st' = {| partners := partners st; vehicles := (vehicles st ++ [v])%list |}.
Proof.
  unfold create. intros H.
  destruct (row_of_input (fresh_id (vehicles st)) t d) as [v0|]; [|discriminate H].
  destruct (List.existsb (has_plate (licensePlate v0)) (vehicles st)); [discriminate H|].
  injection H as <- <-. split; reflexivity.
Qed.

(** A 200 answer carrying a record comes from the create call on the
    literal built from the body. *)
Lemma POST_success req w v :
  succeeds_with req w v ->
  exists data st',
    body req = Some data
    /\ create (now w) (create_data (params_partnerId req) data) (db w) = Some (v, st').
Proof.
  unfold succeeds_with.
  post_cases; cbn [fst]; unfold NextResponse_json; intros H; try discriminate H.
  injection H as ->. eauto.
Qed.

(** C4 as stated fails for a Number of magnitude [10^21] or more: it is
    printed in exponent notation before [parseInt] reads it, so that a year
    submitted as the Number 1e21 comes back as 1. *)
Lemma C4_counterexample :
  ToString (JNum (10 ^ 21)) = "1e+21"
  /\ (exists v,
       succeeds_with
         (request (Some "user_1") "p1"
            (Some (object [("brand", JStr "Audi"); ("model", JStr "A6");
                           ("year", JNum (10 ^ 21));
                           ("licensePlate", JStr "EF-456-GH");
                           ("capacity", JNum 4)])))
         fresh_world v
       /\ year v = 1)
  /\ ~ C4_as_stated.
Proof.
  assert (Hrun : exists v,
             succeeds_with
               (request (Some "user_1") "p1"
                  (Some (object [("brand", JStr "Audi"); ("model", JStr "A6");
                                 ("year", JNum (10 ^ 21));
                                 ("licensePlate", JStr "EF-456-GH");
                                 ("capacity", JNum 4)])))
               fresh_world v
             /\ year v = 1).
  { eexists. split; [vm_compute; reflexivity | reflexivity]. }
  split; [vm_compute; reflexivity|]. split; [exact Hrun|].
  intros Hclaim. destruct Hrun as (v & Hok & Hyear).
  destruct (Hclaim _ _ v _ Hok eq_refl) as [Hy _].
  specialize (Hy (10 ^ 21) (or_introl eq_refl)).
  rewrite Hyear in Hy. discriminate Hy.
Qed.

(** C4, amended: when POST succeeds, the year and the capacity of the
    returned record are the integers [parseInt] reads from the submitted
    year and capacity; a safe integer comes back as itself whether it was
    submitted as a Number or as the string of its decimal digits. *)
Theorem C4_year_and_capacity_as_integers req w v :
  succeeds_with req w v ->
  exists data,
    body req = Some data
    /\ parseInt (get data "year") = Int (year v)
    /\ parseInt (get data "capacity") = Int (capacity v)
    /\ (forall z, submitted_as z (get data "year") -> year v = z)
    /\ (forall z, submitted_as z (get data "capacity") -> capacity v = z).
Proof.
  intros Hok. destruct (POST_success _ _ _ Hok) as (data & st' & Hbody & Hcreate).
  apply create_Some in Hcreate as [Hrow _].
  apply row_of_input_Some in Hrow as (Hy & Hc & _).
  cbn [create_data data_year data_capacity] in Hy, Hc.
  exists data. split; [exact Hbody|]. split; [exact Hy|]. split; [exact Hc|].
  split; intros z Hz; apply parseInt_submitted in Hz; congruence.
Qed.

(** The specification's example: year "2022" and capacity "4" arrive as
    strings and come back as 2022 and 4. *)
Lemma C4_witness :
  exists data,
    body (request (Some "user_1") "p1" (Some mercedes_body)) = Some data
    /\ parseInt (get data "year") = Int 2022
    /\ parseInt (get data "capacity") = Int 4.
Proof.
  destruct (C4_year_and_capacity_as_integers
              (request (Some "user_1") "p1" (Some mercedes_body)) fresh_world mercedes)
    as (data & Hbody & Hy & Hc & _); [vm_compute; reflexivity|].
  exists data. split; [exact Hbody | split; [exact Hy | exact Hc]].
Defined.

(** C5 as stated fails on lastMaintenance: a string that is supplied but
    empty gives null, not a timestamp made from it, and a value that is not
    a string (here a Number of milliseconds) gives a timestamp, not null. *)
Lemma C5_counterexample :
  (exists v,
     succeeds_with
       (request (Some "user_1") "p1"
          (Some (object [("brand", JStr "Audi"); ("model", JStr "A6");
                         ("year", JNum 2021); ("licensePlate", JStr "EF-456-GH");
                         ("capacity", JNum 4); ("lastMaintenance", JStr "")])))
       fresh_world v
     /\ lastMaintenance v = None
     /\ lastMaintenance v <> Some (NewDate (JStr "")))
  /\ (exists v,
        succeeds_with
          (request (Some "user_1") "p1"
             (Some (object [("brand", JStr "Audi"); ("model", JStr "A6");
                            ("year", JNum 2021); ("licensePlate", JStr "EF-456-GH");
                            ("capacity", JNum 4);
                            ("lastMaintenance", JNum 1700000000000)])))
          fresh_world v
        /\ lastMaintenance v = Some (NewDate (JNum 1700000000000))
        /\ lastMaintenance v <> None)
  /\ ~ C5_as_stated.
Proof.
  assert (Hnum : exists v,
             succeeds_with
               (request (Some "user_1") "p1"
                  (Some (object [("brand", JStr "Audi"); ("model", JStr "A6");
                                 ("year", JNum 2021);
                                 ("licensePlate", JStr "EF-456-GH");
                                 ("capacity", JNum 4);
                                 ("lastMaintenance", JNum 1700000000000)])))
               fresh_world v
             /\ lastMaintenance v = Some (NewDate (JNum 1700000000000))
             /\ lastMaintenance v <> None).
  { eexists. split; [vm_compute; reflexivity|]. split; [reflexivity | discriminate]. }
  split; [|split; [exact Hnum|]].
  - eexists. split; [vm_compute; reflexivity|]. split; [reflexivity | discriminate].
  - intros Hclaim. destruct Hnum as (v & Hok & _ & Hsome).
    destruct (Hclaim _ _ v _ Hok eq_refl) as (_ & _ & _ & _ & Hnull).
    apply Hsome, Hnull. intros s. vm_compute. discriminate.
Qed.

(** C5, amended: when POST succeeds, the created record has vehicleType
    SEDAN if the body supplies no vehicleType, status AVAILABLE if it
    supplies no status, foreign-plate flag false if it supplies no
    isForeignPlate, and lastMaintenance equal to [new Date] of the body's
    lastMaintenance when that value is truthy (in particular a non-empty
    string) and null when it is absent or falsy. *)
Theorem C5_defaults_of_created_record req w v :
  succeeds_with req w v ->
  exists data,
    body req = Some data
    /\ (absent data "vehicleType" -> vehicleType v = SEDAN)
    /\ (absent data "status" -> status v = AVAILABLE)
    /\ (absent data "isForeignPlate" -> isForeignPlate v = false)
    /\ lastMaintenance v
       = (if truthy (get data "lastMaintenance")
          then Some (NewDate (get data "lastMaintenance")) else None)
    /\ (forall s, get data "lastMaintenance" = JStr s -> s <> "" ->
        lastMaintenance v = Some (NewDate (JStr s)))
    /\ (absent data "lastMaintenance" -> lastMaintenance v = None).
Proof.
  intros Hok. destruct (POST_success _ _ _ Hok) as (data & st' & Hbody & Hcreate).
  apply create_Some in Hcreate as [Hrow _].
  apply row_of_input_Some in Hrow as (_ & _ & Hvt & Hvs & Hfp & Hlm).
  cbn [create_data data_vehicleType data_status data_isForeignPlate
       data_lastMaintenance] in Hvt, Hvs, Hfp, Hlm.
  exists data. unfold absent.
  split; [exact Hbody|].
  split; [intros Ha; rewrite Ha in Hvt; cbn in Hvt; congruence|].
  split; [intros Ha; rewrite Ha in Hvs; cbn in Hvs; congruence|].
  split; [intros Ha; rewrite Ha in Hfp; cbn in Hfp; congruence|].
  split; [exact Hlm|].
  split.
  - intros s Hs Hne. rewrite Hlm, Hs. cbn [truthy].
    destruct (String.eqb s "") eqn:He; [apply String.eqb_eq in He; contradiction|].
    reflexivity.
  - intros Ha. rewrite Hlm, Ha. reflexivity.
Qed.

(** The specification's example: no vehicleType, status, isForeignPlate or
    lastMaintenance in the body. *)
Lemma C5_witness :
  exists data,
    body (request (Some "user_1") "p1" (Some mercedes_body)) = Some data
    /\ vehicleType mercedes = SEDAN
    /\ status mercedes = AVAILABLE
    /\ isForeignPlate mercedes = false
    /\ lastMaintenance mercedes = None.
Proof.
  destruct (C5_defaults_of_created_record
              (request (Some "user_1") "p1" (Some mercedes_body)) fresh_world mercedes)
    as (data & Hbody & Hvt & Hvs & Hfp & _ & _ & Hlm); [vm_compute; reflexivity|].
  injection Hbody as <-.
  exists mercedes_body. split; [reflexivity|].
  split; [apply Hvt; reflexivity|].
  split; [apply Hvs; reflexivity|].
  split; [apply Hfp; reflexivity|].
  apply Hlm; reflexivity.
Defined.






(* ===================================================================== *)
(** ** Properties of GET                                                 *)
(* ===================================================================== *)

Lemma created_after_total : Total created_after.
Proof. intros v1 v2. unfold created_after. lia. Qed.

Lemma created_after_trans : Transitive created_after.
Proof. intros v1 v2 v3. unfold created_after. lia. Qed.

Lemma In_vehicles_of pid st v :
  In v (vehicles_of pid st) <-> In v (vehicles st) /\ partnerId v = pid.
Proof.
  unfold vehicles_of. rewrite filter_In, String.eqb_eq. reflexivity.
Qed.

(** C6: an authenticated GET for an existing partner is answered 200 with
    exactly the stored vehicles whose partnerId is that partner's id (the
    same vehicles, each as often as it is stored), ordered by creation time
    descending; with no such vehicle the answer is the empty array.  The
    store is left as it was. *)
Theorem C6_GET_lists_partner_vehicles req w :
  authenticated req ->
  partner_exists req w = true ->
  exists vs,
    fst (GET req w) = NextResponse_json (VehiclesBody vs) 200
    /\ vs ≡ₚ vehicles_of (params_partnerId req) (db w)
    /\ (forall v, In v vs
                  <-> In v (vehicles (db w)) /\ partnerId v = params_partnerId req)
    /\ StronglySorted created_after vs
    /\ (vehicles_of (params_partnerId req) (db w) = [] -> vs = [])
    /\ db (snd (GET req w)) = db w.
Proof.
  unfold authenticated. rewrite partner_exists_decide. intros Hauth Hpartner.
  rewrite !GET_table_correct. unfold GET_table. rewrite Hauth.
  destruct (decide (params_partnerId req ∈ partners (db w))); [|contradiction].
  exists (find_many (params_partnerId req) (db w)). cbn [fst snd].
  assert (Hperm : find_many (params_partnerId req) (db w)
                  ≡ₚ vehicles_of (params_partnerId req) (db w))
    by apply merge_sort_Permutation.
  split; [reflexivity|]. split; [exact Hperm|]. split; [|split; [|split]].
  - intros v. rewrite <- In_vehicles_of. split; intros Hin.
    + apply (Permutation_in _ Hperm Hin).
    + apply (Permutation_in _ (Permutation_sym Hperm) Hin).
  - apply Sorted_StronglySorted; [apply created_after_trans|].
    apply Sorted_merge_sort, created_after_total.
  - intros Hnil. rewrite Hnil in Hperm. apply Permutation_nil_r, Hperm.
  - reflexivity.
Qed.

(** A partner without vehicles. *)
Lemma C6_witness :
  fst (GET (request (Some "user_1") "p1" None) fresh_world)
  = NextResponse_json (VehiclesBody []) 200.
Proof.
  destruct (C6_GET_lists_partner_vehicles
              (request (Some "user_1") "p1" None) fresh_world)
    as (vs & Hresp & _ & _ & _ & Hnil & _);
    [reflexivity | vm_compute; reflexivity |].
  rewrite Hresp, (Hnil eq_refl). reflexivity.
Defined.

(* ===================================================================== *)
(** ** The plate format and the debounced lookup                         *)
(* ===================================================================== *)

Lemma isFrenchPlateFormat_shape s :
  CarForm.isFrenchPlateFormat s = true <-> CarForm.plate_shape s.
Proof.
  unfold CarForm.isFrenchPlateFormat, CarForm.test_anchored, CarForm.regex,
    CarForm.plate_shape, CarForm.uppercase_letter, CarForm.decimal_digit.
  replace (CarForm.code "A") with 65%N by reflexivity.
  replace (CarForm.code "Z") with 90%N by reflexivity.
  split.
  - intros H.
    destruct s as [|a [|b [|h1 [|d1 [|d2 [|d3 [|h2 [|c [|d [|x rest]]]]]]]]]];
      cbn [CarForm.consume] in H;
      replace (CarForm.code "A") with 65%N in H by reflexivity;
      replace (CarForm.code "Z") with 90%N in H by reflexivity;
      repeat match type of H with
             | context [if ?b then _ else _] => destruct b eqn:?; try discriminate H
             end;
      try discriminate H.
    repeat match goal with
           | Hc : (_ && _)%bool = true |- _ =>
               apply andb_prop in Hc as [?%N.leb_le ?%N.leb_le]
           | Hc : Ascii.eqb _ _ = true |- _ => apply Ascii.eqb_eq in Hc; subst
           end.
    exists a, b, d1, d2, d3, c, d. repeat split; assumption.
  - intros (a & b & d1 & d2 & d3 & c & d & -> & Ha & Hb & H1 & H2 & H3 & Hc & Hd).
    cbn [CarForm.consume].
    replace (CarForm.code "A") with 65%N by reflexivity.
    replace (CarForm.code "Z") with 90%N by reflexivity.
    repeat match goal with
           | Hx : (_ <= CarForm.code ?x <= _)%N |- _ =>
               let H1 := fresh in let H2 := fresh in
               destruct Hx as [H1 H2];
               apply N.leb_le in H1; apply N.leb_le in H2
           end.
    repeat match goal with
           | Hx : (_ <=? _)%N = true |- _ =>
               rewrite Hx; cbn -[CarForm.code N.leb]
           end.
    reflexivity.
Qed.

Lemma effect_sound french plate time t :
  CarForm.effect french plate time = Some t ->
  CarForm.plate_arg t = plate /\ french = true
  /\ CarForm.isFrenchPlateFormat plate = true
  /\ CarForm.due t = (time + CarForm.quiet_period)%N.
Proof.
  unfold CarForm.effect. intros H.
  destruct french; [|discriminate H].
  destruct (negb (String.eqb plate "")); [|discriminate H].
  destruct (CarForm.isFrenchPlateFormat plate) eqn:Hf; [|discriminate H].
  injection H as <-. repeat split.
Qed.

Lemma mount_sound french plate time : timer_sound (CarForm.mount french plate time).
Proof.
  unfold timer_sound, CarForm.mount. cbn. split; [lia|].
  intros t Ht. apply effect_sound in Ht as (Hp & Hf & Hfmt & Hd).
  rewrite Hp, Hd. repeat split; try assumption. lia.
Qed.

Lemma step_sound st ev : timer_sound st -> timer_sound (fst (CarForm.step st ev)).
Proof.
  intros Hst. pose proof Hst as [Hle Ht].
  destruct ev as [ms|value|checked|]; cbn [CarForm.step].
  - split; cbn; [lia | exact Ht].
  - destruct (String.eqb value (CarForm.licensePlate st)); [exact Hst|].
    split; cbn; [lia|]. intros t Heff.
    apply effect_sound in Heff as (Hp & Hf & Hfmt & Hd).
    rewrite Hp, Hd. repeat split; try assumption. lia.
  - destruct (Bool.eqb checked (CarForm.isFrenchPlate st)); [exact Hst|].
    split; cbn; [lia|]. intros t Heff.
    apply effect_sound in Heff as (Hp & Hf & Hfmt & Hd).
    rewrite Hp, Hd. repeat split; try assumption. lia.
  - destruct (CarForm.timer st) as [t|]; [|exact Hst].
    destruct (CarForm.due t <=? CarForm.clock st)%N; [|exact Hst].
    split; cbn; [lia | discriminate].
Qed.

Lemma run_sound evs : forall st, timer_sound st -> timer_sound (CarForm.run st evs).
Proof.
  induction evs as [|ev evs IH]; intros st Hst; cbn [CarForm.run]; [exact Hst|].
  apply IH, step_sound, Hst.
Qed.

(** C7: the plate predicate accepts exactly the strings made of two
    uppercase letters, a hyphen, three digits, a hyphen and two uppercase
    letters; and whatever the default values and the events since the form
    was mounted, when the lookup is triggered its plate is the one in the
    field, the predicate holds of it, the French-plate switch is on, and at
    least the quiet period has passed since the plate was last edited. *)
Theorem C7_plate_lookup_trigger :
  (forall s, CarForm.isFrenchPlateFormat s = true <-> CarForm.plate_shape s)
  /\ (forall french plate0 t0 evs ev plate,
        let st := CarForm.run (CarForm.mount french plate0 t0) evs in
        snd (CarForm.step st ev) = Some plate ->
        CarForm.isFrenchPlateFormat plate = true
        /\ CarForm.isFrenchPlate st = true
        /\ plate = CarForm.licensePlate st
        /\ (CarForm.last_edit st + CarForm.quiet_period <= CarForm.clock st)%N).
Proof.
  split; [exact isFrenchPlateFormat_shape|].
  intros french plate0 t0 evs ev plate st Hfire.
  pose proof (run_sound evs _ (mount_sound french plate0 t0)) as [Hle Ht].
  fold st in Hle, Ht.
  destruct ev as [ms|value|checked|]; cbn [CarForm.step] in Hfire.
  - discriminate Hfire.
  - destruct (String.eqb value (CarForm.licensePlate st)); discriminate Hfire.
  - destruct (Bool.eqb checked (CarForm.isFrenchPlate st)); discriminate Hfire.
  - destruct (CarForm.timer st) as [t|] eqn:Htimer; [|discriminate Hfire].
    destruct (N.leb_spec (CarForm.due t) (CarForm.clock st)) as [Hdue|Hdue];
      [|discriminate Hfire].
    cbn in Hfire. injection Hfire as <-.
    destruct (Ht t eq_refl) as (Hp & Hf & Hfmt & Hq).
    split; [exact Hfmt|]. split; [exact Hf|]. split; [exact Hp|]. lia.
Qed.

(** The plate is typed in two strokes; the lookup fires one second after
    the second. *)
Lemma C7_witness :
  CarForm.plate_shape "AB-123-CD"
  /\ CarForm.isFrenchPlateFormat "AB-123-CD" = true
  /\ (400 + CarForm.quiet_period <= 1400)%N.
Proof.
  destruct C7_plate_lookup_trigger as [Hshape Hfire].
  destruct (Hfire true "" 0%N
              [CarForm.TypePlate "AB-123-C"; CarForm.Elapse 400;
               CarForm.TypePlate "AB-123-CD"; CarForm.Elapse 1000]
              CarForm.TimerExpires "AB-123-CD")
    as (Hfmt & _ & _ & Hquiet); [vm_compute; reflexivity|].
  split; [apply Hshape, Hfmt|]. split; [exact Hfmt | exact Hquiet].
Defined.

(* ===================================================================== *)
(** ** Further properties of the handlers                                *)
(* ===================================================================== *)

Lemma row_of_input_fields i t d v :
  row_of_input i t d = Some v ->
  id v = i /\ createdAt v = t /\ updatedAt v = t
  /\ partnerId v = data_partnerId d
  /\ data_licensePlate d = JStr (licensePlate v)
  /\ data_make d = JStr (make v)
  /\ data_model d = JStr (model v).
Proof.
  unfold row_of_input. intros H.
  destruct (data_make d) as [| | | |mk| |]; try discriminate H.
  destruct (data_model d) as [| | | |md| |]; try discriminate H.
  destruct (data_year d) as [|y]; [discriminate H|].
  destruct (data_licensePlate d) as [| | | |lp| |]; try discriminate H.
  cbn [as_string mbind option_bind as_integer] in H.
  destruct (as_bool (data_isForeignPlate d)); [|discriminate H].
  destruct (as_optional_string (data_color d)); [|discriminate H].
  destruct (data_capacity d) as [|c]; [discriminate H|].
  destruct (as_VehicleType (data_vehicleType d)); [|discriminate H].
  destruct (as_VehicleStatus (data_status d)); [|discriminate H].
  destruct (as_optional_string (data_fuelType d)); [|discriminate H].
  destruct (as_optional_string (data_registrationDate d)); [|discriminate H].
  cbn in H. injection H as <-. cbn. repeat split.
Qed.

Lemma fits_columns_row d i t :
  fits_columns d = true -> exists v, row_of_input i t d = Some v.
Proof.
  unfold fits_columns, row_of_input.
  destruct (as_string (data_make d)); [|discriminate].
  destruct (as_string (data_model d)); [|discriminate].
  destruct (as_integer (data_year d)); [|discriminate].
  destruct (as_string (data_licensePlate d)); [|discriminate].
  destruct (as_bool (data_isForeignPlate d)); [|discriminate].
  destruct (as_optional_string (data_color d)); [|discriminate].
  destruct (as_integer (data_capacity d)); [|discriminate].
  destruct (as_VehicleType (data_vehicleType d)); [|discriminate].
  destruct (as_VehicleStatus (data_status d)); [|discriminate].
  destruct (as_optional_string (data_fuelType d)); [|discriminate].
  destruct (as_optional_string (data_registrationDate d)); [|discriminate].
  intros _. eexists. reflexivity.
Qed.

Lemma fresh_id_above vs v : In v vs -> (id v < fresh_id vs)%N.
Proof.
  unfold fresh_id. induction vs as [|x vs IH]; [contradiction|].
  cbn [List.map fold_right]. intros [->|Hin]; [lia|].
  specialize (IH Hin). lia.
Qed.

Lemma find_by_plate_None p st :
  find_by_plate p st = None -> ~ In p (List.map licensePlate (vehicles st)).
Proof.
  unfold find_by_plate. intros Hf Hin.
  apply in_map_iff in Hin as (v & Hp & Hin).
  pose proof (find_none _ _ Hf v Hin) as Hn.
  unfold has_plate in Hn. rewrite Hp, String.eqb_refl in Hn. discriminate.
Qed.

Lemma find_by_plate_existsb p st :
  find_by_plate p st = None -> List.existsb (has_plate p) (vehicles st) = false.
Proof.
  intros Hf. destruct (List.existsb (has_plate p) (vehicles st)) eqn:He; [|reflexivity].
  apply existsb_exists in He as (v & Hin & Hv).
  unfold find_by_plate in Hf. rewrite (find_none _ _ Hf v Hin) in Hv. discriminate.
Qed.

(** X1: a POST that passes every check of the handler, whose year,
    capacity and last maintenance can be converted to a string, and whose
    attributes fit the columns, is answered 200 with the created record;
    the store gains exactly that record, at the end, with the partner of the
    route, the submitted plate, the time of the request and an id no stored
    vehicle has; exactly three db calls are made. *)
Theorem X1_POST_creates_vehicle req w data p :
  authenticated req ->
  partner_exists req w = true ->
  body req = Some data ->
  missing data = [] ->
  get data "licensePlate" = JStr p ->
  plate_taken p (db w) = false ->
  converts data ->
  fits_columns (create_data (params_partnerId req) data) = true ->
  exists v,
    fst (POST req w) = NextResponse_json (VehicleBody v) 200
    /\ vehicles (db (snd (POST req w))) = (vehicles (db w) ++ [v])%list
    /\ partners (db (snd (POST req w))) = partners (db w)
    /\ partnerId v = params_partnerId req
    /\ licensePlate v = p
    /\ get data "brand" = JStr (make v)
    /\ createdAt v = now w
    /\ ~ In (id v) (List.map id (vehicles (db w)))
    /\ issued w (snd (POST req w))
       = [PartnerFindUnique (params_partnerId req); VehicleFindUnique (JStr p);
          VehicleCreate (create_data (params_partnerId req) data)].
Proof.
  unfold authenticated. rewrite partner_exists_decide.
  intros Hauth Hpartner Hbody Hmissing Hplate Hfree _ Hfits.
  assert (Hn : nullish data = false)
    by (destruct data; try reflexivity; discriminate Hplate).
  pose proof (plate_free_find _ _ Hfree) as Hnone.
  destruct (fits_columns_row _ (fresh_id (vehicles (db w))) (now w) Hfits) as [v Hrow].
  destruct (row_of_input_fields _ _ _ _ Hrow) as (Hid & Hcr & _ & Hpid & Hlp & Hmk & _).
  cbn [create_data data_partnerId data_licensePlate data_make] in Hpid, Hlp, Hmk.
  rewrite Hplate in Hlp. injection Hlp as Hlp.
  assert (Hcreate : create (now w) (create_data (params_partnerId req) data) (db w)
                    = Some (v, {| partners := partners (db w);
                                  vehicles := (vehicles (db w) ++ [v])%list |})).
  { unfold create. rewrite Hrow, <- Hlp, (find_by_plate_existsb _ _ Hnone). reflexivity. }
  exists v.
  rewrite !POST_table_correct. unfold POST_table, error_response.
  rewrite Hauth, Hbody, Hn, Hmissing, Hplate, Hnone, Hcreate.
  destruct (decide (params_partnerId req ∈ partners (db w))); [|contradiction].
  cbn [fst snd db vehicles partners]. rewrite issued_3.
  repeat split; try assumption; try (symmetry; assumption).
  rewrite Hid. intros Hin. apply in_map_iff in Hin as (v' & Hv' & Hin).
  pose proof (fresh_id_above _ _ Hin). lia.
Qed.

(** The specification's example against a store without vehicles. *)
Lemma X1_witness :
  exists v,
    fst (POST (request (Some "user_1") "p1" (Some mercedes_body)) fresh_world)
    = NextResponse_json (VehicleBody v) 200
    /\ vehicles (db (snd (POST (request (Some "user_1") "p1" (Some mercedes_body))
                              fresh_world)))
       = [v]
    /\ licensePlate v = "AB-123-CD".
Proof.
  destruct (X1_POST_creates_vehicle
              (request (Some "user_1") "p1" (Some mercedes_body)) fresh_world
              mercedes_body "AB-123-CD")
    as (v & Hresp & Hvs & _ & _ & Hplate & _);
    [reflexivity | vm_compute; reflexivity | reflexivity | vm_compute; reflexivity
    | vm_compute; reflexivity | vm_compute; reflexivity
    | intros k [<-|[<-|[<-|[]]]]; vm_compute; reflexivity
    | vm_compute; reflexivity |].
  exists v. split; [exact Hresp|]. split; [exact Hvs | exact Hplate].
Defined.

Lemma create_keeps_plates_unique t d st v st' p :
  create t d st = Some (v, st') ->
  data_licensePlate d = JStr p ->
  find_by_plate p st = None ->
  plates_unique st -> plates_unique st'.
Proof.
  intros Hcreate Hp Hnone Huniq.
  apply create_Some in Hcreate as [Hrow ->].
  apply row_of_input_fields in Hrow as (_ & _ & _ & _ & Hlp & _).
  rewrite Hp in Hlp. injection Hlp as ->.
  unfold plates_unique in *. cbn [vehicles]. rewrite map_app. cbn [List.map].
  apply NoDup_app. split; [exact Huniq|]. split.
  - intros x Hx Hin. apply list_elem_of_In in Hx, Hin.
    destruct Hin as [<-|[]]. exact (find_by_plate_None _ _ Hnone Hx).
  - apply NoDup_singleton.
Qed.

(** X2: POST keeps the license plates of the stored vehicles pairwise
    distinct, whatever the request: the handler only creates after it has
    looked the plate up and found none. *)
Theorem X2_POST_keeps_plates_unique req w :
  plates_unique (db w) -> plates_unique (db (snd (POST req w))).
Proof.
  intros Huniq.
  rewrite POST_table_correct. unfold POST_table, error_response.
  repeat post_branch; cbn [snd db]; try exact Huniq.
  match goal with
  | Hc : create _ _ _ = Some _, Hp : get _ "licensePlate" = JStr _,
    Hf : find_by_plate _ _ = None |- _ =>
      exact (create_keeps_plates_unique _ _ _ _ _ _ Hc Hp Hf Huniq)
  end.
Qed.

Lemma X2_witness :
  plates_unique
    (db (snd (POST (request (Some "user_1") "p1" (Some mercedes_body)) stocked_world))).
Proof.
  apply (X2_POST_keeps_plates_unique
           (request (Some "user_1") "p1" (Some mercedes_body)) stocked_world).
  unfold plates_unique. vm_compute.
  apply NoDup_cons_2; [intros H; inversion H | apply NoDup_nil_2].
Defined.

Lemma plate_taken_app p vs v :
  licensePlate v = p ->
  List.existsb (has_plate p) (vs ++ [v]) = true.
Proof.
  intros <-. rewrite existsb_app. cbn. unfold has_plate at 2.
  rewrite String.eqb_refl. cbn. apply orb_true_r.
Qed.

(** What a 200 answer tells about the request and the store. *)
Lemma POST_success_inv req w v :
  succeeds_with req w v ->
  exists data p,
    no_user (userId req) = false
    /\ body req = Some data
    /\ params_partnerId req ∈ partners (db w)
    /\ nullish data = false
    /\ missing data = []
    /\ get data "licensePlate" = JStr p
    /\ find_by_plate p (db w) = None
    /\ row_of_input (fresh_id (vehicles (db w))) (now w)
         (create_data (params_partnerId req) data) = Some v
    /\ db (snd (POST req w))
       = {| partners := partners (db w); vehicles := (vehicles (db w) ++ [v])%list |}
    /\ now (snd (POST req w)) = now w.
Proof.
  unfold succeeds_with.
  rewrite !POST_table_correct. unfold POST_table, error_response.
  repeat post_branch; cbn [fst snd db now]; unfold NextResponse_json;
    intros Hok; try discriminate Hok.
  injection Hok as ->.
  match goal with
  | Hc : create _ _ _ = Some _ |- _ => apply create_Some in Hc as [Hrow ->]
  end.
  do 2 eexists. repeat split; eauto.
Qed.

(** X3: repeating a POST that succeeded is answered 400 with the
    duplicate-plate message, and the second request leaves the store as the
    first one left it. *)
Theorem X3_repeated_POST_rejected req w v :
  succeeds_with req w v ->
  fst (POST req (snd (POST req w)))
  = error_response "A vehicle with this license plate already exists" 400
  /\ db (snd (POST req (snd (POST req w)))) = db (snd (POST req w))
  /\ vehicles (db (snd (POST req (snd (POST req w))))) = (vehicles (db w) ++ [v])%list.
Proof.
  intros Hok.
  destruct (POST_success_inv _ _ _ Hok)
    as (data & p & Hauth & Hbody & Hpartner & Hn & Hmissing & Hplate & Hnone
        & Hrow & Hdb & Hnow).
  apply row_of_input_fields in Hrow as (_ & _ & _ & _ & Hlp & _).
  cbn [create_data data_licensePlate] in Hlp. rewrite Hplate in Hlp.
  injection Hlp as Hlp.
  set (w1 := snd (POST req w)) in *.
  rewrite (POST_table_correct req w1). unfold POST_table, error_response.
  rewrite Hauth, Hbody, Hn, Hmissing, Hplate, Hdb. cbn [partners vehicles].
  destruct (decide (params_partnerId req ∈ partners (db w))); [|contradiction].
  unfold find_by_plate. cbn [vehicles].
  destruct (List.find (has_plate p) (vehicles (db w) ++ [v])) eqn:Hfind.
  - cbn [fst snd db vehicles record_call]. rewrite Hdb. repeat split.
  - exfalso.
    assert (Hex : List.existsb (has_plate p) (vehicles (db w) ++ [v]) = true)
      by (apply plate_taken_app; congruence).
    apply existsb_exists in Hex as (x & Hin & Hx).
    rewrite (find_none _ _ Hfind x Hin) in Hx. discriminate Hx.
Qed.

(** The specification's example, twice. *)
Lemma X3_witness :
  fst (POST (request (Some "user_1") "p1" (Some mercedes_body))
         (snd (POST (request (Some "user_1") "p1" (Some mercedes_body)) fresh_world)))
  = error_response "A vehicle with this license plate already exists" 400.
Proof.
  apply (X3_repeated_POST_rejected
           (request (Some "user_1") "p1" (Some mercedes_body)) fresh_world mercedes).
  vm_compute. reflexivity.
Defined.

Lemma filter_partner_app pid vs v :
  List.filter (fun x => String.eqb (partnerId x) pid) (vs ++ [v])
  = (List.filter (fun x => String.eqb (partnerId x) pid) vs
     ++ if String.eqb (partnerId v) pid then [v] else [])%list.
Proof. rewrite List.filter_app. cbn. destruct (String.eqb (partnerId v) pid); reflexivity. Qed.

(** X4: after a successful POST, a GET for the same partner lists the
    created vehicle, and a GET for any other partner answers exactly what it
    answered before. *)
Theorem X4_created_vehicle_is_listed req w v greq :
  succeeds_with req w v ->
  authenticated greq ->
  (params_partnerId greq = params_partnerId req ->
   exists vs,
     fst (GET greq (snd (POST req w))) = NextResponse_json (VehiclesBody vs) 200
     /\ In v vs
     /\ length vs = S (length (vehicles_of (params_partnerId req) (db w))))
  /\ (params_partnerId greq <> params_partnerId req ->
      fst (GET greq (snd (POST req w))) = fst (GET greq w)).
Proof.
  intros Hok Hgauth. unfold authenticated in Hgauth.
  destruct (POST_success_inv _ _ _ Hok)
    as (data & p & Hauth & Hbody & Hpartner & Hn & Hmissing & Hplate & Hnone
        & Hrow & Hdb & Hnow).
  apply row_of_input_fields in Hrow as (_ & _ & _ & Hpid & _).
  cbn [create_data data_partnerId] in Hpid.
  rewrite !GET_table_correct. unfold GET_table. rewrite Hgauth, Hdb.
  cbn [partners fst]. unfold find_many. cbn [vehicles].
  rewrite filter_partner_app. split.
  - intros Heq. rewrite Heq.
    destruct (decide (params_partnerId req ∈ partners (db w))); [|contradiction].
    rewrite Hpid, String.eqb_refl.
    eexists. split; [reflexivity|]. split.
    + apply list_elem_of_In. rewrite merge_sort_Permutation.
      apply list_elem_of_In, in_or_app. right. left. reflexivity.
    + rewrite merge_sort_Permutation, length_app. unfold vehicles_of. cbn. lia.
  - intros Hne.
    assert (String.eqb (partnerId v) (params_partnerId greq) = false) as ->
      by (apply String.eqb_neq; congruence).
    rewrite app_nil_r.
    destruct (decide (params_partnerId greq ∈ partners (db w))); reflexivity.
Qed.

Lemma X4_witness :
  exists vs,
    fst (GET (request (Some "user_2") "p1" None)
           (snd (POST (request (Some "user_1") "p1" (Some mercedes_body)) fresh_world)))
    = NextResponse_json (VehiclesBody vs) 200
    /\ In mercedes vs.
Proof.
  destruct (X4_created_vehicle_is_listed
              (request (Some "user_1") "p1" (Some mercedes_body)) fresh_world mercedes
              (request (Some "user_2") "p1" None))
    as [Hsame _]; [vm_compute; reflexivity | reflexivity |].
  destruct (Hsame eq_refl) as (vs & Hresp & Hin & _).
  exists vs. split; [exact Hresp | exact Hin].
Defined.

(** X5: both handlers answer 401 exactly when [auth()] resolves to no
    user (null or the empty string); a 401 comes before anything else: no db
    call is made, the body is not read, the store is as it was. *)
Theorem X5_unauthorized_exactly_without_user req w :
  (res_status (fst (POST req w)) = 401 <-> no_user (userId req) = true)
  /\ (res_status (fst (GET req w)) = 401 <-> no_user (userId req) = true)
  /\ (no_user (userId req) = true ->
      POST req w = (error_response "Unauthorized" 401, w)
      /\ GET req w = (error_response "Unauthorized" 401, w)).
Proof.
  rewrite !POST_table_correct, !GET_table_correct.
  unfold GET_table, POST_table, error_response.
  destruct (no_user (userId req)) eqn:Hu.
  - cbn. repeat split; reflexivity.
  - split; [|split].
    + repeat post_branch; cbn; split; intros H; discriminate H.
    + destruct (decide (params_partnerId req ∈ partners (db w)));
        cbn; split; intros H; discriminate H.
    + intros H; discriminate H.
Qed.

(** X6: POST answers with one of the statuses 200, 400, 401, 404, 500; it
    never removes or alters a stored vehicle or a partner; the store changes
    exactly when the answer is 200, and then by the one record that is
    returned, added at the end; at most one create call is made. *)
Theorem X6_POST_writes_only_on_success req w :
  In (res_status (fst (POST req w))) POST_statuses
  /\ partners (db (snd (POST req w))) = partners (db w)
  /\ (res_status (fst (POST req w)) = 200 ->
      exists v, res_body (fst (POST req w)) = VehicleBody v
                /\ vehicles (db (snd (POST req w))) = (vehicles (db w) ++ [v])%list)
  /\ (res_status (fst (POST req w)) <> 200 -> db (snd (POST req w)) = db w)
  /\ (length (List.filter is_create (issued w (snd (POST req w)))) <= 1)%nat.
Proof.
  rewrite !POST_table_correct. unfold POST_table, error_response, POST_statuses.
  repeat post_branch; cbn [fst snd db partners vehicles res_status res_body NextResponse_json];
    rewrite ?issued_refl, ?issued_1, ?issued_2, ?issued_3, ?issued_3';
    cbn [List.filter is_create length];
    (split; [cbn; tauto|]); (split; [try reflexivity|]);
    try (split; [intros H; discriminate H|]);
    try (split; [intros _; reflexivity | lia]).
  all: match goal with
       | Hc : create _ _ _ = Some _ |- _ => apply create_Some in Hc as [_ ->]
       end.
  - reflexivity.
  - split; [intros _; eexists; split; reflexivity|].
    split; [intros H; contradiction | lia].
Qed.

(** X7: GET never writes: the store is the same after every GET.  For an
    authenticated caller and an unknown partner the answer is 404 and the
    vehicles are not queried at all. *)
Theorem X7_GET_reads_only req w :
  db (snd (GET req w)) = db w
  /\ (authenticated req -> partner_exists req w = false ->
      fst (GET req w) = error_response "Partner not found" 404
      /\ issued w (snd (GET req w)) = [PartnerFindUnique (params_partnerId req)]).
Proof.
  rewrite !GET_table_correct. unfold GET_table, error_response, authenticated, partner_exists.
  split.
  - destruct (no_user (userId req)); [reflexivity|].
    destruct (decide (params_partnerId req ∈ partners (db w))); reflexivity.
  - intros -> Hnone. apply bool_decide_eq_false in Hnone.
    destruct (decide (params_partnerId req ∈ partners (db w))); [contradiction|].
    cbn [fst snd]. rewrite issued_1. split; reflexivity.
Qed.

Lemma X7_witness :
  fst (GET (request (Some "user_1") "p9" None) stocked_world)
  = error_response "Partner not found" 404.
Proof.
  destruct (X7_GET_reads_only (request (Some "user_1") "p9" None) stocked_world)
    as [_ Hguard].
  destruct Hguard as [Hresp _]; [reflexivity | vm_compute; reflexivity |].
  exact Hresp.
Defined.

(** X8: a body that is valid JSON but not an object (a string, a number,
    a boolean, an array) has none of the required fields: behind the two
    guards it is answered 400 with all four names, in order. *)
Theorem X8_non_object_body_lacks_everything req w data :
  authenticated req ->
  partner_exists req w = true ->
  body req = Some data ->
  nullish data = false ->
  (forall m, data <> JObj m) ->
  fst (POST req w)
  = error_response "Missing required fields: brand, model, year, licensePlate" 400
  /\ db (snd (POST req w)) = db w.
Proof.
  unfold authenticated. rewrite partner_exists_decide.
  intros Hauth Hpartner Hbody Hn Hobj.
  rewrite !POST_table_correct. unfold POST_table, error_response.
  rewrite Hauth, Hbody, Hn.
  destruct (decide (params_partnerId req ∈ partners (db w))); [|contradiction].
  destruct data; try discriminate Hn; try (split; reflexivity).
  exfalso. eapply Hobj. reflexivity.
Qed.

Lemma X8_witness :
  fst (POST (request (Some "user_1") "p1" (Some (JArr [mercedes_body]))) fresh_world)
  = error_response "Missing required fields: brand, model, year, licensePlate" 400.
Proof.
  apply (X8_non_object_body_lacks_everything
           (request (Some "user_1") "p1" (Some (JArr [mercedes_body]))) fresh_world
           (JArr [mercedes_body]));
    [reflexivity | vm_compute; reflexivity | reflexivity | reflexivity
    | intros m H; discriminate H].
Defined.

(** X9: the defaults of the create call apply to every falsy value, not
    only to a missing one: when POST succeeds and the body's vehicleType,
    status or isForeignPlate is falsy (the empty string, 0, false, null),
    the created record has SEDAN, AVAILABLE and false respectively. *)
Theorem X9_falsy_values_get_defaults req w v :
  succeeds_with req w v ->
  exists data,
    body req = Some data
    /\ (truthy (get data "vehicleType") = false -> vehicleType v = SEDAN)
    /\ (truthy (get data "status") = false -> status v = AVAILABLE)
    /\ (truthy (get data "isForeignPlate") = false -> isForeignPlate v = false).
Proof.
  intros Hok. destruct (POST_success _ _ _ Hok) as (data & st' & Hbody & Hcreate).
  apply create_Some in Hcreate as [Hrow _].
  apply row_of_input_Some in Hrow as (_ & _ & Hvt & Hvs & Hfp & _).
  cbn [create_data data_vehicleType data_status data_isForeignPlate] in Hvt, Hvs, Hfp.
  unfold or_else in Hvt, Hvs, Hfp.
  exists data. split; [exact Hbody|].
  split; [intros Hf; rewrite Hf in Hvt; cbn in Hvt; congruence|].
  split; [intros Hf; rewrite Hf in Hvs; cbn in Hvs; congruence|].
  intros Hf; rewrite Hf in Hfp; cbn in Hfp; congruence.
Qed.

Lemma X9_witness :
  exists v,
    succeeds_with
      (request (Some "user_1") "p1"
         (Some (object [("brand", JStr "Audi"); ("model", JStr "A6");
                        ("year", JNum 2021); ("licensePlate", JStr "EF-456-GH");
                        ("capacity", JNum 4); ("vehicleType", JStr "");
                        ("status", JNull); ("isForeignPlate", JNum 0)])))
      fresh_world v
    /\ vehicleType v = SEDAN /\ status v = AVAILABLE /\ isForeignPlate v = false.
Proof.
  eexists. split; [vm_compute; reflexivity|].
  destruct (X9_falsy_values_get_defaults
              (request (Some "user_1") "p1"
                 (Some (object [("brand", JStr "Audi"); ("model", JStr "A6");
                                ("year", JNum 2021); ("licensePlate", JStr "EF-456-GH");
                                ("capacity", JNum 4); ("vehicleType", JStr "");
                                ("status", JNull); ("isForeignPlate", JNum 0)])))
              fresh_world
              {| id := 1; make := "Audi"; model := "A6"; year := 2021;
                 licensePlate := "EF-456-GH"; isForeignPlate := false; color := None;
                 capacity := 4; vehicleType := SEDAN; status := AVAILABLE;
                 lastMaintenance := None; fuelType := None; registrationDate := None;
                 createdAt := 1000; updatedAt := 1000; partnerId := "p1" |})
    as (data & Hbody & Hvt & Hvs & Hfp); [vm_compute; reflexivity|].
  injection Hbody as <-.
  split; [apply Hvt; reflexivity|]. split; [apply Hvs; reflexivity|].
  apply Hfp; reflexivity.
Defined.

Lemma get_insert_unread (m : gmap string JSValue) k x f :
  f <> k -> get (JObj (<[k := x]> m)) f = get (JObj m) f.
Proof. intros Hne. cbn [get]. rewrite lookup_insert_ne by congruence. reflexivity. Qed.

(** X10: POST reads twelve properties of the body and nothing else.  Any
    other property (an id, a partnerId, timestamps) changes neither the
    answer nor the store; in particular the partner of a created vehicle is
    always the one of the route. *)
Theorem X10_unread_properties_ignored req w (m : gmap string JSValue) k x :
  body req = Some (JObj m) ->
  ~ In k read_keys ->
  POST (with_body req (JObj (<[k := x]> m))) w = POST req w
  /\ (forall v, succeeds_with (with_body req (JObj (<[k := x]> m))) w v ->
        partnerId v = params_partnerId req).
Proof.
  intros Hbody Hk.
  assert (Hget : forall f, In f read_keys ->
                   get (JObj (<[k := x]> m)) f = get (JObj m) f).
  { intros f Hf. apply get_insert_unread. intros ->. contradiction. }
  assert (Hsame : POST (with_body req (JObj (<[k := x]> m))) w = POST req w).
  { rewrite !POST_table_correct. unfold POST_table, with_body, missing, required_fields,
      create_data.
    cbn [userId params_partnerId body List.filter nullish]. rewrite Hbody.
    cbn [nullish].
    rewrite !Hget by (unfold read_keys; cbn; tauto). reflexivity. }
  split; [exact Hsame|].
  intros v Hok. unfold succeeds_with in Hok. rewrite Hsame in Hok.
  destruct (POST_success_inv _ _ _ Hok) as (data & p & _ & _ & _ & _ & _ & _ & _ & Hrow & _).
  apply row_of_input_fields in Hrow as (_ & _ & _ & Hpid & _). exact Hpid.
Qed.

Lemma X10_witness :
  POST (with_body (request (Some "user_1") "p1" (Some mercedes_body))
          (JObj (<["partnerId" := JStr "p2"]>
                   (list_to_map [("brand", JStr "Mercedes"); ("model", JStr "S-Class");
                                 ("year", JStr "2022");
                                 ("licensePlate", JStr "AB-123-CD");
                                 ("capacity", JStr "4")]))))
       fresh_world
  = POST (request (Some "user_1") "p1" (Some mercedes_body)) fresh_world.
Proof.
  apply (X10_unread_properties_ignored
           (request (Some "user_1") "p1" (Some mercedes_body)) fresh_world
           (list_to_map [("brand", JStr "Mercedes"); ("model", JStr "S-Class");
                         ("year", JStr "2022"); ("licensePlate", JStr "AB-123-CD");
                         ("capacity", JStr "4")])
           "partnerId" (JStr "p2")).
  - reflexivity.
  - unfold read_keys. cbn. intros H.
    repeat (destruct H as [H|H]; [discriminate H|]). exact H.
Defined.

(* ===================================================================== *)
(** ** parseInt on a numeral followed by other text                      *)
(* ===================================================================== *)

Lemma append_cons (x : ascii) (a b : string) : String x a +:+ b = String x (a +:+ b).
Proof. reflexivity. Qed.

Lemma append_nil (b : string) : EmptyString +:+ b = b.
Proof. reflexivity. Qed.

Lemma string_append_assoc (a b c : string) : (a +:+ b) +:+ c = a +:+ (b +:+ c).
Proof.
  induction a as [|x a IH]; [reflexivity|].
  rewrite !append_cons, IH. reflexivity.
Qed.

Lemma decimal_go_app fuel : forall n acc,
  decimal_go fuel n acc = decimal_go fuel n EmptyString +:+ acc.
Proof.
  induction fuel as [|fuel IH]; intros n acc; cbn [decimal_go]; [reflexivity|].
  destruct (n / 10 =? 0)%N; [reflexivity|].
  rewrite (IH _ (String _ acc)), (IH _ (String _ EmptyString)).
  rewrite string_append_assoc, append_cons, append_nil. reflexivity.
Qed.

Lemma decimal_go_head fuel : forall n acc,
  (0 < fuel)%nat -> n <> 0%N -> (n < 10 ^ N.of_nat fuel)%N ->
  exists ch rest, decimal_go fuel n acc = String ch rest /\ ch <> "0"%char.
Proof.
  induction fuel as [|fuel IH]; intros n acc Hf Hn Hlt; [lia|].
  cbn [decimal_go].
  destruct (n / 10 =? 0)%N eqn:Hq.
  - apply N.eqb_eq in Hq.
    assert (Hsmall : (n < 10)%N).
    { destruct (N.lt_ge_cases n 10) as [H|H]; [exact H|].
      exfalso. pose proof (N.Div0.div_le_mono 10 n 10 H) as Hd.
      change (10 / 10)%N with 1%N in Hd. lia. }
    assert ((n mod 10 = n)%N) as -> by (apply N.mod_small; exact Hsmall).
    do 2 eexists. split; [reflexivity|].
    destruct (small_N_cases n Hsmall) as [->|[->|[->|[->|[->|[->|[->|[->|[->| ->]]]]]]]]];
      first [contradiction | discriminate].
  - apply N.eqb_neq in Hq.
    assert (Hfuel : (0 < fuel)%nat).
    { destruct fuel; [|lia]. cbn in Hlt. exfalso. apply Hq. apply N.div_small. lia. }
    apply IH; [exact Hfuel | exact Hq |].
    apply N.Div0.div_lt_upper_bound.
    replace (N.of_nat (S fuel)) with (N.succ (N.of_nat fuel)) in Hlt by lia.
    rewrite N.pow_succ_r' in Hlt. lia.
Qed.

Lemma decimal_fuel_enough n : (n < 10 ^ N.of_nat (S (N.to_nat (N.log2 n))))%N.
Proof.
  replace (N.of_nat (S (N.to_nat (N.log2 n)))) with (N.succ (N.log2 n)) by lia.
  destruct (N.eq_dec n 0%N) as [->|Hn]; [reflexivity|].
  apply N.lt_le_trans with (2 ^ N.succ (N.log2 n))%N.
  - apply N.log2_spec. lia.
  - apply N.pow_le_mono_l. lia.
Qed.

Lemma non_digit_stops c rest : is_digit_char c = false -> radix_digits 10 (String c rest) = [].
Proof.
  intros H. destruct c as [[] [] [] [] [] [] [] []]; try discriminate H; reflexivity.
Qed.

Lemma no_hex_prefix_after_nonzero ch rest :
  ch <> "0"%char -> strip_hex_prefix (String ch rest) = (10, String ch rest).
Proof.
  intros H. destruct ch as [[] [] [] [] [] [] [] []]; try reflexivity. contradiction.
Qed.

Lemma no_hex_prefix_before_other ch c rest :
  c <> "x"%char -> c <> "X"%char ->
  strip_hex_prefix (String ch (String c rest)) = (10, String ch (String c rest)).
Proof.
  intros Hx HX. destruct ch as [[] [] [] [] [] [] [] []]; try reflexivity.
  destruct c as [[] [] [] [] [] [] [] []]; try reflexivity; contradiction.
Qed.

(** [parseInt] reads the numeral at the start of a string and ignores
    what follows it. *)
Lemma parseInt_numeral_then_text n c rest :
  is_digit_char c = false ->
  n <> 0%N \/ (c <> "x"%char /\ c <> "X"%char) ->
  parseInt_string (decimal_N n +:+ String c rest) = Int (Z.of_N n).
Proof.
  intros Hc Hhex.
  pose proof (decimal_fuel_enough n) as Hfuel.
  destruct (decimal_go_digits _ n (String c rest) Hfuel ltac:(lia))
    as (ds & Hne & Hr & Hfold & _ & _).
  destruct (decimal_N_parse n) as (Hall & Hnz & _).
  assert (Happ : decimal_N n +:+ String c rest
                 = decimal_go (S (N.to_nat (N.log2 n))) n (String c rest))
    by (unfold decimal_N; symmetry; apply decimal_go_app).
  unfold parseInt_string.
  destruct (decimal_N n) as [|d more] eqn:Hd; [contradiction|].
  cbn [all_digits] in Hall. apply andb_prop in Hall as [Hdig Hmore].
  rewrite append_cons. cbn [trimStart].
  rewrite (digit_not_space _ Hdig), (digit_no_sign _ _ Hdig).
  assert (Hstrip : strip_hex_prefix (String d (more +:+ String c rest))
                   = (10, String d (more +:+ String c rest))).
  { destruct Hhex as [Hn|[Hx HX]].
    - unfold decimal_N in Hd.
      destruct (decimal_go_head (S (N.to_nat (N.log2 n))) n EmptyString
                  ltac:(lia) Hn Hfuel) as (ch & r & Hh & Hch).
      rewrite Hd in Hh. injection Hh as <- <-.
      apply no_hex_prefix_after_nonzero, Hch.
    - destruct more as [|d2 more'].
      + rewrite append_nil. apply no_hex_prefix_before_other; assumption.
      + rewrite append_cons. cbn [all_digits] in Hmore.
        apply andb_prop in Hmore as [Hd2 _].
        apply no_hex_prefix_before_other; intros ->; discriminate Hd2. }
  rewrite Hstrip.
  rewrite <- append_cons, Happ, Hr, (non_digit_stops _ _ Hc), app_nil_r.
  destruct ds; [contradiction|]. unfold mathInt. rewrite Hfold. f_equal. lia.
Qed.

(** X11: the year and the capacity are read with [parseInt], which takes
    the numeral a string starts with and ignores the rest: when POST
    succeeds on a year such as "2022-05-01" or a capacity such as
    "4 seats", the record holds 2022 and 4.  The numeral is the decimal
    digits of a safe integer (below 2^53, which a Number holds exactly) and
    the text after it starts with a character that is not a digit; a text
    "0x..." or "0X..." is left aside, which [parseInt] reads as
    hexadecimal. *)
Theorem X11_text_after_the_number_is_dropped req w v n c rest :
  succeeds_with req w v ->
  (n < 2 ^ 53)%N ->
  is_digit_char c = false ->
  n <> 0%N \/ (c <> "x"%char /\ c <> "X"%char) ->
  exists data,
    body req = Some data
    /\ (get data "year" = JStr (decimal_N n +:+ String c rest) -> year v = Z.of_N n)
    /\ (get data "capacity" = JStr (decimal_N n +:+ String c rest) ->
        capacity v = Z.of_N n).
Proof.
  intros Hok _ Hc Hhex.
  destruct (POST_success _ _ _ Hok) as (data & st' & Hbody & Hcreate).
  apply create_Some in Hcreate as [Hrow _].
  apply row_of_input_Some in Hrow as (Hy & Hcap & _).
  cbn [create_data data_year data_capacity] in Hy, Hcap.
  exists data. split; [exact Hbody|].
  split; intros Hs; rewrite Hs in *;
    unfold parseInt in *; cbn [ToString] in *;
    rewrite (parseInt_numeral_then_text n c rest Hc Hhex) in *; congruence.
Qed.

(** A year given as a date. *)
Lemma X11_witness :
  exists v,
    succeeds_with
      (request (Some "user_1") "p1"
         (Some (object [("brand", JStr "Audi"); ("model", JStr "A6");
                        ("year", JStr "2022-05-01");
                        ("licensePlate", JStr "EF-456-GH");
                        ("capacity", JStr "4 seats")])))
      fresh_world v
    /\ year v = 2022.
Proof.
  eexists. split; [vm_compute; reflexivity|].
  destruct (X11_text_after_the_number_is_dropped
              (request (Some "user_1") "p1"
                 (Some (object [("brand", JStr "Audi"); ("model", JStr "A6");
                                ("year", JStr "2022-05-01");
                                ("licensePlate", JStr "EF-456-GH");
                                ("capacity", JStr "4 seats")])))
              fresh_world
              {| id := 1; make := "Audi"; model := "A6"; year := 2022;
                 licensePlate := "EF-456-GH"; isForeignPlate := false; color := None;
                 capacity := 4; vehicleType := SEDAN; status := AVAILABLE;
                 lastMaintenance := None; fuelType := None; registrationDate := None;
                 createdAt := 1000; updatedAt := 1000; partnerId := "p1" |}
              2022%N "-"%char "05-01")
    as (data & Hbody & Hyear & _);
    [vm_compute; reflexivity | reflexivity | reflexivity | left; discriminate |].
  injection Hbody as <-. apply Hyear. vm_compute. reflexivity.
Defined.

(* ===================================================================== *)
(** ** Further properties of the debounced lookup                        *)
(* ===================================================================== *)

Lemma effect_arms french plate time :
  french = true -> CarForm.isFrenchPlateFormat plate = true ->
  CarForm.effect french plate time
  = Some {| CarForm.due := (time + CarForm.quiet_period)%N; CarForm.plate_arg := plate |}.
Proof.
  intros -> Hfmt. unfold CarForm.effect. rewrite Hfmt.
  destruct (String.eqb plate "") eqn:He; [|reflexivity].
  apply String.eqb_eq in He. subst plate. discriminate Hfmt.
Qed.

(** X12: the lookup does fire.  With the French-plate switch on, once the
    plate field is edited to a plate in format and the quiet period has
    passed with no further change, the timeout callback calls the lookup
    with that plate; the same holds after mounting the form on such a plate,
    with no keystroke at all. *)
Theorem X12_lookup_fires_after_quiet_period plate ms :
  CarForm.isFrenchPlateFormat plate = true ->
  (CarForm.quiet_period <= ms)%N ->
  (forall st,
     CarForm.isFrenchPlate st = true ->
     plate <> CarForm.licensePlate st ->
     snd (CarForm.step
            (CarForm.run st [CarForm.TypePlate plate; CarForm.Elapse ms])
            CarForm.TimerExpires)
     = Some plate)
  /\ (forall t0,
        snd (CarForm.step
               (CarForm.run (CarForm.mount true plate t0) [CarForm.Elapse ms])
               CarForm.TimerExpires)
        = Some plate).
Proof.
  intros Hfmt Hms. split.
  - intros st Hon Hne.
    cbn [CarForm.run CarForm.step].
    destruct (String.eqb plate (CarForm.licensePlate st)) eqn:He;
      [apply String.eqb_eq in He; contradiction|].
    cbn [fst CarForm.step CarForm.timer CarForm.clock CarForm.isFrenchPlate
         CarForm.licensePlate].
    rewrite (effect_arms _ _ _ Hon Hfmt). cbn [CarForm.due CarForm.plate_arg].
    destruct (N.leb_spec (CarForm.clock st + CarForm.quiet_period)
                (CarForm.clock st + ms)); [reflexivity | lia].
  - intros t0. cbn [CarForm.run CarForm.step CarForm.mount fst CarForm.timer
                    CarForm.clock CarForm.isFrenchPlate CarForm.licensePlate].
    rewrite (effect_arms _ _ _ eq_refl Hfmt). cbn [CarForm.due CarForm.plate_arg].
    destruct (N.leb_spec (t0 + CarForm.quiet_period) (t0 + ms)); [reflexivity | lia].
Qed.

Lemma X12_witness :
  snd (CarForm.step
         (CarForm.run (CarForm.mount true "AB-123-CD" 50%N) [CarForm.Elapse 1000])
         CarForm.TimerExpires)
  = Some "AB-123-CD".
Proof.
  destruct (X12_lookup_fires_after_quiet_period "AB-123-CD" 1000%N) as [_ Hmount];
    [reflexivity | vm_compute; discriminate |].
  exact (Hmount 50%N).
Defined.

Lemma lookups_app st evs1 evs2 :
  lookups st (evs1 ++ evs2) = (lookups st evs1 ++ lookups (CarForm.run st evs1) evs2)%list.
Proof.
  revert st. induction evs1 as [|ev evs1 IH]; intros st; cbn [lookups CarForm.run app];
    [reflexivity|].
  destruct (snd (CarForm.step st ev)); rewrite IH; reflexivity.
Qed.

Lemma passive_keeps_no_timer st ev :
  passive ev = true -> CarForm.timer st = None ->
  snd (CarForm.step st ev) = None /\ CarForm.timer (fst (CarForm.step st ev)) = None.
Proof.
  intros Hp Ht. destruct ev; try discriminate Hp; cbn [CarForm.step].
  - cbn. split; [reflexivity | exact Ht].
  - rewrite Ht. cbn. split; [reflexivity | exact Ht].
Qed.

Lemma no_timer_no_lookup evs : forall st,
  forallb passive evs = true -> CarForm.timer st = None -> lookups st evs = [].
Proof.
  induction evs as [|ev evs IH]; intros st Hall Ht; [reflexivity|].
  cbn [forallb] in Hall. apply andb_prop in Hall as [Hp Hrest].
  destruct (passive_keeps_no_timer st ev Hp Ht) as [Hnone Ht'].
  cbn [lookups]. rewrite Hnone. apply IH; assumption.
Qed.

(** X13: a pending lookup fires once.  After the timeout callback has
    called the lookup, no further lookup is made, however much time passes
    and however often a timeout callback runs, until the plate or the switch
    changes. *)
Theorem X13_lookup_fires_once st plate evs :
  snd (CarForm.step st CarForm.TimerExpires) = Some plate ->
  forallb passive evs = true ->
  lookups (fst (CarForm.step st CarForm.TimerExpires)) evs = [].
Proof.
  intros Hfire Hpassive. apply no_timer_no_lookup; [exact Hpassive|].
  cbn [CarForm.step] in *.
  destruct (CarForm.timer st) as [t|]; [|discriminate Hfire].
  destruct (CarForm.due t <=? CarForm.clock st)%N; [reflexivity | discriminate Hfire].
Qed.

Lemma X13_witness :
  lookups
    (fst (CarForm.step
            (CarForm.run (CarForm.mount true "AB-123-CD" 0%N) [CarForm.Elapse 1000])
            CarForm.TimerExpires))
    [CarForm.Elapse 5000; CarForm.TimerExpires; CarForm.Elapse 1; CarForm.TimerExpires]
  = [].
Proof.
  apply (X13_lookup_fires_once
           (CarForm.run (CarForm.mount true "AB-123-CD" 0%N) [CarForm.Elapse 1000])
           "AB-123-CD"); reflexivity.
Defined.

Lemma off_stays_quiet ev st :
  keeps_switch_off ev = true ->
  CarForm.isFrenchPlate st = false -> CarForm.timer st = None ->
  snd (CarForm.step st ev) = None
  /\ CarForm.isFrenchPlate (fst (CarForm.step st ev)) = false
  /\ CarForm.timer (fst (CarForm.step st ev)) = None.
Proof.
  intros Hk Hoff Ht. destruct ev as [ms|value|checked|]; cbn [CarForm.step].
  - cbn. repeat split; assumption.
  - destruct (String.eqb value (CarForm.licensePlate st)); cbn; [repeat split; assumption|].
    rewrite Hoff. repeat split; reflexivity.
  - destruct checked; [discriminate Hk|]. rewrite Hoff. cbn. repeat split; assumption.
  - rewrite Ht. cbn. repeat split; assumption.
Qed.

Lemma off_no_lookup evs : forall st,
  forallb keeps_switch_off evs = true ->
  CarForm.isFrenchPlate st = false -> CarForm.timer st = None ->
  lookups st evs = [].
Proof.
  induction evs as [|ev evs IH]; intros st Hall Hoff Ht; [reflexivity|].
  cbn [forallb] in Hall. apply andb_prop in Hall as [Hk Hrest].
  destruct (off_stays_quiet ev st Hk Hoff Ht) as (Hnone & Hoff' & Ht').
  cbn [lookups]. rewrite Hnone. apply IH; assumption.
Qed.

(** X14: turning the French-plate switch off cancels the pending lookup and
    prevents any other: from the moment the switch is turned off, whatever
    is typed in the plate field and however long one waits, no lookup is
    made until the switch is turned on again. *)
Theorem X14_switch_off_stops_lookups st after :
  CarForm.isFrenchPlate st = true ->
  forallb keeps_switch_off after = true ->
  lookups st (CarForm.SetFrenchPlate false :: after) = [].
Proof.
  intros Hon Hafter. cbn [lookups CarForm.step].
  rewrite Hon. cbn [Bool.eqb snd fst].
  apply off_no_lookup; [exact Hafter | reflexivity |].
  cbn [CarForm.timer]. unfold CarForm.effect. reflexivity.
Qed.

Lemma X14_witness :
  lookups
    (CarForm.run (CarForm.mount true "" 0%N) [CarForm.TypePlate "AB-123-CD"])
    [CarForm.SetFrenchPlate false; CarForm.Elapse 2000; CarForm.TimerExpires;
     CarForm.TypePlate "EF-456-GH"; CarForm.Elapse 2000; CarForm.TimerExpires]
  = [].
Proof.
  apply (X14_switch_off_stops_lookups
           (CarForm.run (CarForm.mount true "" 0%N) [CarForm.TypePlate "AB-123-CD"]));
    reflexivity.
Defined.

Lemma lookups_bounded evs : forall st,
  (length (lookups st evs)
   <= match CarForm.timer st with Some _ => 1 | None => 0 end + length (List.filter is_change evs))%nat.
Proof.
  induction evs as [|ev evs IH]; intros st; cbn [lookups List.filter length];
    [lia|].
  specialize (IH (fst (CarForm.step st ev))).
  destruct ev as [ms|value|checked|]; cbn [CarForm.step is_change passive negb] in *.
  - cbn [snd fst CarForm.timer] in *. lia.
  - destruct (String.eqb value (CarForm.licensePlate st));
      cbn [snd fst length CarForm.timer] in *; [lia|].
    destruct (CarForm.timer st);
      destruct (CarForm.effect (CarForm.isFrenchPlate st) value (CarForm.clock st)); lia.
  - destruct (Bool.eqb checked (CarForm.isFrenchPlate st));
      cbn [snd fst length CarForm.timer] in *; [lia|].
    destruct (CarForm.timer st);
      destruct (CarForm.effect checked (CarForm.licensePlate st) (CarForm.clock st)); lia.
  - destruct (CarForm.timer st) as [t|] eqn:Ht; cbn [snd fst length] in *.
    + destruct (CarForm.due t <=? CarForm.clock st)%N; cbn [snd fst length CarForm.timer] in *;
        rewrite ?Ht in IH; lia.
    + rewrite Ht in IH. lia.
Qed.

(** X15: the debounce never multiplies calls.  Along any run of the form,
    the number of lookups is at most one for the mount plus one for each
    edit of the plate or flip of the switch. *)
Theorem X15_at_most_one_lookup_per_change french plate0 t0 evs :
  (length (lookups (CarForm.mount french plate0 t0) evs)
   <= 1 + length (List.filter is_change evs))%nat.
Proof.
  pose proof (lookups_bounded evs (CarForm.mount french plate0 t0)) as H.
  destruct (CarForm.timer (CarForm.mount french plate0 t0)); lia.
Qed.
(* ===================================================================== *)
(** ** The inputs and the plate lookup of the form                       *)
(* ===================================================================== *)

Lemma parseInt_decimal_N (n : N) : parseInt_string (decimal_N n) = Int (Z.of_N n).
Proof.
  pose proof (parseInt_decimal_Z (Z.of_N n)) as H. unfold decimal_Z in H.
  destruct (Z.ltb_spec (Z.of_N n) 0) as [Hneg|_]; [lia|].
  rewrite N2Z.id in H. exact H.
Qed.

Lemma number_or_nonzero n fallback : fallback <> 0 -> CarFields.number_or n fallback <> 0.
Proof.
  intros Hf. destruct n as [|z]; cbn; [exact Hf|].
  destruct (Z.eqb_spec z 0); [exact Hf|assumption].
Qed.

Lemma issues_at_app path a b :
  issues_at path (a ++ b) = (issues_at path a ++ issues_at path b)%list.
Proof. unfold issues_at. apply List.filter_app. Qed.

Lemma issues_at_min_length_other path p message s :
  String.eqb p path = false ->
  issues_at path (CarFields.min_length_1 p message s) = [].
Proof.
  intros Hp. unfold CarFields.min_length_1, issues_at.
  destruct (String.eqb s ""); [|reflexivity].
  cbn [List.filter CarFields.issue_path]. rewrite Hp. reflexivity.
Qed.

Lemma issues_at_number_other path p lower upper n :
  String.eqb p path = false ->
  issues_at path (CarFields.number_between p lower upper n) = [].
Proof.
  intros Hp. unfold CarFields.number_between, issues_at.
  destruct n as [|z]; cbn [List.filter CarFields.issue_path].
  - rewrite Hp. reflexivity.
  - rewrite List.filter_app.
    destruct (z <? fst lower); destruct upper as [[bound message]|];
      try destruct (bound <? z);
      cbn [List.filter CarFields.issue_path app]; rewrite ?Hp; reflexivity.
Qed.

Lemma issues_at_number_same p lower upper n :
  issues_at p (CarFields.number_between p lower upper n)
  = CarFields.number_between p lower upper n.
Proof.
  unfold CarFields.number_between, issues_at.
  destruct n as [|z]; cbn [List.filter CarFields.issue_path].
  - rewrite String.eqb_refl. reflexivity.
  - rewrite List.filter_app.
    destruct (z <? fst lower); destruct upper as [[bound message]|];
      try destruct (bound <? z);
      cbn [List.filter CarFields.issue_path app]; rewrite ?String.eqb_refl; reflexivity.
Qed.

Lemma capacity_issues schemaYear values :
  issues_at "capacity" (CarFields.carSchema schemaYear values)
  = CarFields.number_between "capacity" (1, "Capacity must be at least 1") None
      (CarFields.capacity values).
Proof.
  unfold CarFields.carSchema. rewrite !issues_at_app.
  rewrite !issues_at_min_length_other by reflexivity.
  rewrite issues_at_number_other by reflexivity.
  rewrite issues_at_number_same. reflexivity.
Qed.

Lemma year_issues schemaYear values :
  issues_at "year" (CarFields.carSchema schemaYear values)
  = CarFields.number_between "year" (1900, "Year must be at least 1900")
      (Some (schemaYear + 1,
             "Year must be at most " +:+ NumberToString (schemaYear + 1)))
      (CarFields.year values).
Proof.
  unfold CarFields.carSchema. rewrite !issues_at_app.
  rewrite !issues_at_min_length_other by reflexivity.
  rewrite issues_at_number_same.
  rewrite issues_at_number_other by reflexivity.
  rewrite app_nil_r. reflexivity.
Qed.

(** X16: whatever is typed into the capacity box, the form never stores
    NaN or 0: the digits of a positive safe integer (below 2^53, which a
    Number holds exactly) are stored as that number, text [parseInt] reads
    as NaN or 0 is replaced by 4, and the schema's
    capacity rule rejects the stored value exactly when a negative number
    was typed.  In the year box the replacement is the current year, which
    passes the schema's year rule when it is 1900 or later and at most one
    more than the year in which the schema was built. *)
Theorem X16_number_inputs_fall_back (currentYear schemaYear : Z) (value : string)
    (values : CarFields.CarFormValues) :
  let stored := CarFields.capacity_onChange value in
  let checked := issues_at "capacity"
                   (CarFields.carSchema schemaYear (with_capacity values (Int stored))) in
  stored <> 0
  /\ (forall n, (0 < n < 2 ^ 53)%N ->
        CarFields.capacity_onChange (decimal_N n) = Z.of_N n
        /\ CarFields.year_onChange currentYear (decimal_N n) = Z.of_N n)
  /\ (parseInt_string value = NaN \/ parseInt_string value = Int 0 ->
        stored = 4 /\ CarFields.year_onChange currentYear value = currentYear)
  /\ (checked = [] \/ checked = [CarFields.Custom "capacity" "Capacity must be at least 1"])
  /\ (checked <> [] <-> exists z, parseInt_string value = Int z /\ z < 0)
  /\ (1900 <= currentYear <= schemaYear + 1 ->
      parseInt_string value = NaN \/ parseInt_string value = Int 0 ->
      issues_at "year"
        (CarFields.carSchema schemaYear
           (with_year values (Int (CarFields.year_onChange currentYear value)))) = []).
Proof.
  cbv zeta. rewrite capacity_issues, year_issues. cbn [with_capacity with_year CarFields.capacity CarFields.year].
  unfold CarFields.capacity_onChange, CarFields.year_onChange.
  split; [apply number_or_nonzero; discriminate|].
  split.
  { intros n Hn. rewrite parseInt_decimal_N. cbn [CarFields.number_or].
    destruct (Z.eqb_spec (Z.of_N n) 0); [lia|]. split; reflexivity. }
  split.
  { intros [-> | ->]; split; reflexivity. }
  unfold CarFields.number_between. cbn [fst snd].
  destruct (parseInt_string value) as [|z]; cbn [CarFields.number_or].
  - replace (4 <? 1) with false by reflexivity. cbn [app].
    split; [left; reflexivity|]. split.
    + split; [intros H; contradiction H; reflexivity|intros (z & H & _); discriminate H].
    + intros Hy _. destruct (Z.ltb_spec currentYear 1900); [lia|].
      destruct (Z.ltb_spec (schemaYear + 1) currentYear); [lia|]. reflexivity.
  - destruct (Z.eqb_spec z 0) as [->|Hz].
    + replace (4 <? 1) with false by reflexivity. cbn [app].
      split; [left; reflexivity|]. split.
      * split; [intros H; contradiction H; reflexivity|intros (z & H & Hlt); injection H as <-; lia].
      * intros Hy _. destruct (Z.ltb_spec currentYear 1900); [lia|].
        destruct (Z.ltb_spec (schemaYear + 1) currentYear); [lia|]. reflexivity.
    + destruct (Z.ltb_spec z 1) as [Hlt|Hge]; cbn [app].
      * split; [right; reflexivity|]. split.
        -- split; [intros _; exists z; split; [reflexivity|lia]|intros _; discriminate].
        -- intros _ [H|H]; [discriminate H|injection H as ->; contradiction Hz; reflexivity].
      * split; [left; reflexivity|]. split.
        -- split; [intros H; contradiction H; reflexivity|intros (z' & H & Hlt); injection H as <-; lia].
        -- intros _ [H|H]; [discriminate H|injection H as ->; contradiction Hz; reflexivity].
Qed.
Ltac async_simpl :=
  cbn [Browser.attempt Browser.finally Browser.seq Browser.run Browser.advance
       Browser.eval Browser.throw_if Browser.update Browser.read Browser.await
       Browser.await_or_throw Browser.start Browser.attempt_finally
       Browser.view Browser.trace Browser.in_flight Browser.write Browser.perform
       Browser.suspend fst snd negb].

(** What a lookup that found the vehicle writes into the form. *)
Lemma fetchVehicleData_found currentYear plate r submitted data
    (t : Browser.Tab CarFields.Outside CarFields.State) :
  lookup_of r = Found data ->
  let after := Browser.view (snd (Browser.run (CarFields.outside r submitted)
                                    (CarFields.fetchVehicleData currentYear plate) t)) in
  match CarFields.third_part (get data "date_mise_circulation") with
  | Browser.Done third =>
      CarFields.field_year after
      = parseInt (or_else third (JStr (NumberToString currentYear)))
  | Browser.Raised _ =>
      CarFields.field_year after = CarFields.field_year (Browser.view t)
  end.
Proof.
  unfold lookup_of. intros Hfound. cbv zeta. unfold CarFields.fetchVehicleData.
  unfold CarFields.setIsCheckingPlate, CarFields.setValue_make,
    CarFields.setValue_model, CarFields.setValue_year, CarFields.toast,
    CarFields.outside.
  async_simpl.
  destruct r as [response|e]; [|discriminate Hfound]. async_simpl.
  destruct (Browser.ok response); [|discriminate Hfound]. async_simpl.
  unfold Browser.response_json.
  destruct (Browser.payload response) as [|body]; [discriminate Hfound|]. async_simpl.
  destruct (truthy body && truthy (get body "success")); [|discriminate Hfound].
  injection Hfound as ->. async_simpl.
  destruct (CarFields.third_part (get data "date_mise_circulation")) as [third|e];
    async_simpl; reflexivity.
Qed.

(** X17: however the plate service answers, the lookup neither rejects
    nor leaves the checking flag on; it sends one GET for the plate and
    shows exactly one notification.  The fields of the form are written
    only when the answer is ok, parses and is flagged [success]; make and
    model are then written even if reading the registration date throws
    (a date that is not a string), in which case the year is kept and the
    notification is the failure one. *)
Theorem X17_plate_lookup_settles currentYear plate r submitted
    (t : Browser.Tab CarFields.Outside CarFields.State) :
  let result := Browser.run (CarFields.outside r submitted)
                  (CarFields.fetchVehicleData currentYear plate) t in
  let before := Browser.view t in
  let after := Browser.view (snd result) in
  fst result = None
  /\ CarFields.isCheckingPlate after = false
  /\ CarFields.isLoading after = CarFields.isLoading before
  /\ Browser.trace (snd result)
     = (Browser.trace t
        ++ [Browser.performed
              (CarFields.fetching {| Browser.url := CarFields.lookup_url plate;
                                     Browser.method := "GET";
                                     Browser.sent := None |})])%list
  /\ Browser.in_flight (snd result) = Browser.in_flight t
  /\ match lookup_of r with
     | Found data =>
         CarFields.field_make after = or_else (get data "marque") (JStr "")
         /\ CarFields.field_model after = or_else (get data "modele") (JStr "")
         /\ match CarFields.third_part (get data "date_mise_circulation") with
            | Browser.Done third =>
                CarFields.field_year after
                = parseInt (or_else third (JStr (NumberToString currentYear)))
                /\ CarFields.toasts after
                   = (CarFields.toasts before
                      ++ [Browser.toast_success
                            (Browser.Text "Vehicle information retrieved successfully")])%list
            | Browser.Raised _ =>
                CarFields.field_year after = CarFields.field_year before
                /\ CarFields.toasts after
                   = (CarFields.toasts before
                      ++ [Browser.toast_error
                            (Browser.Text "Failed to fetch vehicle data")])%list
            end
     | NotFound =>
         CarFields.field_make after = CarFields.field_make before
         /\ CarFields.field_model after = CarFields.field_model before
         /\ CarFields.field_year after = CarFields.field_year before
         /\ CarFields.toasts after
            = (CarFields.toasts before
               ++ [Browser.toast_error
                     (Browser.Text "Could not find vehicle information")])%list
     | NoAnswer =>
         CarFields.field_make after = CarFields.field_make before
         /\ CarFields.field_model after = CarFields.field_model before
         /\ CarFields.field_year after = CarFields.field_year before
         /\ CarFields.toasts after
            = (CarFields.toasts before
               ++ [Browser.toast_error
                     (Browser.Text "Failed to fetch vehicle data")])%list
     end.
Proof.
  cbv zeta. unfold CarFields.fetchVehicleData, lookup_of.
  unfold CarFields.setIsCheckingPlate, CarFields.setValue_make,
    CarFields.setValue_model, CarFields.setValue_year, CarFields.toast,
    CarFields.outside.
  async_simpl.
  destruct r as [response|e]; async_simpl; [|repeat split].
  destruct (Browser.ok response); async_simpl; [|repeat split].
  unfold Browser.response_json.
  destruct (Browser.payload response) as [|data]; async_simpl; [repeat split|].
  destruct (truthy data && truthy (get data "success")); async_simpl; [|repeat split].
  destruct (CarFields.third_part (get data "date_mise_circulation")) as [third|e];
    async_simpl; repeat split.
Qed.

Lemma split_on_nonempty sep s : Browser.split_on sep s <> [].
Proof.
  destruct s as [|c rest]; cbn [Browser.split_on]; [discriminate|].
  destruct (Ascii.eqb c sep); [discriminate|].
  destruct (Browser.split_on sep rest); discriminate.
Qed.

Lemma split_on_no_slash s : no_slash s = true -> Browser.split_on "/" s = [s].
Proof.
  induction s as [|c rest IH]; [reflexivity|].
  cbn [no_slash Browser.split_on]. intros H.
  apply andb_prop in H as [Hc Hrest].
  destruct (Ascii.eqb c "/"); [discriminate Hc|].
  rewrite (IH Hrest). reflexivity.
Qed.

Lemma split_on_slash s rest :
  no_slash s = true ->
  Browser.split_on "/" (s +:+ String "/" rest) = s :: Browser.split_on "/" rest.
Proof.
  induction s as [|c s' IH].
  - intros _. rewrite append_nil. reflexivity.
  - cbn [no_slash]. intros H. apply andb_prop in H as [Hc Hrest].
    rewrite append_cons. cbn [Browser.split_on].
    destruct (Ascii.eqb c "/"); [discriminate Hc|].
    rewrite (IH Hrest). reflexivity.
Qed.

Lemma all_digits_no_slash s : all_digits s = true -> no_slash s = true.
Proof.
  induction s as [|c rest IH]; [reflexivity|].
  cbn [all_digits no_slash]. intros H. apply andb_prop in H as [Hc Hrest].
  rewrite (IH Hrest), andb_true_r.
  destruct c as [[] [] [] [] [] [] [] []]; try reflexivity; discriminate Hc.
Qed.

Lemma third_of_three d m y :
  no_slash d = true -> no_slash m = true -> no_slash y = true ->
  CarFields.third_part (JStr (d +:+ "/" +:+ m +:+ "/" +:+ y)) = Browser.Done (JStr y).
Proof.
  intros Hd Hm Hy. unfold CarFields.third_part.
  change ("/" +:+ m +:+ "/" +:+ y) with (String "/" (m +:+ String "/" y)).
  rewrite (split_on_slash d _ Hd), (split_on_slash m _ Hm), (split_on_no_slash y Hy).
  reflexivity.
Qed.

Lemma third_of_short s :
  no_slash s = true ->
  CarFields.third_part (JStr s) = Browser.Done JUndefined.
Proof.
  intros Hs. unfold CarFields.third_part. rewrite (split_on_no_slash s Hs). reflexivity.
Qed.

(** X18: when the plate service finds the vehicle and gives its date of
    first registration as day/month/year, the year field of the form gets
    what [parseInt] reads in the third part: the year itself when that
    part is the decimal numeral of a safe integer (below 2^53, which a
    Number holds exactly).  When the date is absent, or has no slash at
    all, or its third part is empty, the field gets the current year; the
    current year is taken as a safe integer that is not negative. *)
Theorem X18_year_from_registration_date currentYear plate r submitted data
    (t : Browser.Tab CarFields.Outside CarFields.State) :
  lookup_of r = Found data ->
  0 <= currentYear < 2 ^ 53 ->
  let after := Browser.view (snd (Browser.run (CarFields.outside r submitted)
                                    (CarFields.fetchVehicleData currentYear plate) t)) in
  (forall d m y,
      get data "date_mise_circulation" = JStr (d +:+ "/" +:+ m +:+ "/" +:+ y) ->
      no_slash d = true -> no_slash m = true -> no_slash y = true ->
      CarFields.field_year after
      = (if String.eqb y "" then Int currentYear else parseInt_string y)
      /\ (forall n, (n < 2 ^ 53)%N -> y = decimal_N n ->
          CarFields.field_year after = Int (Z.of_N n)))
  /\ (nullish (get data "date_mise_circulation") = true
      \/ (exists s, get data "date_mise_circulation" = JStr s /\ no_slash s = true) ->
      CarFields.field_year after = Int currentYear).
Proof.
  intros Hfound Hyear.
  pose proof (fetchVehicleData_found currentYear plate r submitted data t Hfound) as H.
  cbv zeta in H.
  assert (Hcurrent : parseInt (JStr (NumberToString currentYear)) = Int currentYear).
  { unfold parseInt. cbn [ToString].
    rewrite NumberToString_plain by lia. apply parseInt_decimal_Z. }
  cbv zeta. split.
  - intros d m y Hdate Hd Hm Hy. rewrite Hdate, (third_of_three d m y Hd Hm Hy) in H.
    rewrite H. unfold or_else. cbn [truthy].
    split.
    + destruct (String.eqb y ""); cbn [negb]; [exact Hcurrent|reflexivity].
    + intros n _ ->. destruct (decimal_N_parse n) as (_ & Hne & _).
      destruct (String.eqb_spec (decimal_N n) ""); [contradiction|].
      cbn [negb]. unfold parseInt. cbn [ToString]. apply parseInt_decimal_N.
  - intros [Hnull | (s & Hs & Hslash)].
    + destruct (get data "date_mise_circulation"); try discriminate Hnull;
        cbn [CarFields.third_part] in H; rewrite H; exact Hcurrent.
    + rewrite Hs, (third_of_short s Hslash) in H. rewrite H. exact Hcurrent.
Qed.

Lemma X16_witness :
  CarFields.capacity_onChange "abc" = 4
  /\ CarFields.year_onChange 2026 "" = 2026
  /\ issues_at "year"
       (CarFields.carSchema 2026
          (with_year {| CarFields.make := "Renault"; CarFields.model := "Clio";
                        CarFields.year := NaN; CarFields.licensePlate := "AB-123-CD";
                        CarFields.color := None; CarFields.capacity := Int 4;
                        CarFields.vehicleType := SEDAN; CarFields.status := AVAILABLE;
                        CarFields.isFrenchPlate := true |}
                     (Int (CarFields.year_onChange 2026 "")))) = [].
Proof.
  pose proof (X16_number_inputs_fall_back 2026 2026 "abc"
                {| CarFields.make := "Renault"; CarFields.model := "Clio";
                   CarFields.year := NaN; CarFields.licensePlate := "AB-123-CD";
                   CarFields.color := None; CarFields.capacity := Int 4;
                   CarFields.vehicleType := SEDAN; CarFields.status := AVAILABLE;
                   CarFields.isFrenchPlate := true |}) as Habc.
  pose proof (X16_number_inputs_fall_back 2026 2026 ""
                {| CarFields.make := "Renault"; CarFields.model := "Clio";
                   CarFields.year := NaN; CarFields.licensePlate := "AB-123-CD";
                   CarFields.color := None; CarFields.capacity := Int 4;
                   CarFields.vehicleType := SEDAN; CarFields.status := AVAILABLE;
                   CarFields.isFrenchPlate := true |}) as Hempty.
  cbv zeta in Habc, Hempty.
  destruct Habc as (_ & _ & Habc & _).
  destruct Hempty as (_ & _ & Hfall & _ & _ & Hyear).
  split; [apply Habc; left; vm_compute; reflexivity|].
  split; [apply Hfall; left; vm_compute; reflexivity|].
  apply Hyear; [lia|left; vm_compute; reflexivity].
Defined.

Lemma X18_witness :
  CarFields.field_year
    (Browser.view
       (snd (Browser.run (CarFields.outside clio_answer (Browser.Done tt))
               (CarFields.fetchVehicleData 2026 "AB-123-CD")
               (Browser.opened empty_form))))
  = Int 2019.
Proof.
  refine (proj2 (proj1 (X18_year_from_registration_date 2026 "AB-123-CD" clio_answer
                          (Browser.Done tt)
                          (object [("success", JBool true); ("marque", JStr "RENAULT");
                                   ("modele", JStr "CLIO");
                                   ("date_mise_circulation", JStr "15/03/2019")])
                          (Browser.opened empty_form) _ _)
                        "15" "03" "2019" _ _ _ _) 2019%N _ _).
  - vm_compute; reflexivity.
  - lia.
  - vm_compute; reflexivity.
  - reflexivity.
  - reflexivity.
  - reflexivity.
  - reflexivity.
  - vm_compute; reflexivity.
Defined.
(* ===================================================================== *)
(** ** Submitting the forms                                              *)
(* ===================================================================== *)

(** X19: the submit handlers of the plate dialog and of the form never
    reject and always clear their flag.  The dialog calls [onSubmit] once
    with the data it was given; it asks to be closed only when [onSubmit]
    resolved, and shows the success notification only when that call
    returned as well; in every other case it shows "Failed to save
    vehicle", also when the save itself went through.  The form shows that
    notification exactly when [onSubmit] was rejected, and writes none of
    its fields. *)
Theorem X19_submit_handlers_settle defaultValues closing data submitted r values
    (t : Browser.Tab PlateCarDialog.Props PlateCarDialog.State)
    (f : Browser.Tab CarFields.Outside CarFields.State) :
  let dialog := Browser.run (PlateCarDialog.props submitted)
                  (PlateCarDialog.handleSubmit defaultValues closing data) t in
  let form := Browser.run (CarFields.outside r submitted)
                (CarFields.handleSubmit values) f in
  (fst dialog = None
   /\ PlateCarDialog.isSubmitting (Browser.view (snd dialog)) = false
   /\ Browser.trace (snd dialog)
      = (Browser.trace t ++ [Browser.performed (PlateCarDialog.onSubmit data)])%list
   /\ PlateCarDialog.open_changes (Browser.view (snd dialog))
      = (PlateCarDialog.open_changes (Browser.view t)
         ++ match submitted with Browser.Done _ => [false] | Browser.Raised _ => [] end)%list
   /\ PlateCarDialog.toasts (Browser.view (snd dialog))
      = (PlateCarDialog.toasts (Browser.view t)
         ++ [match submitted, closing with
             | Browser.Done _, Browser.Done _ =>
                 Browser.toast_success
                   (Browser.Text (if truthy defaultValues
                                  then "Vehicle updated successfully"
                                  else "Vehicle created successfully"))
             | _, _ => Browser.toast_error (Browser.Text "Failed to save vehicle")
             end])%list)
  /\ (fst form = None
      /\ CarFields.isLoading (Browser.view (snd form)) = false
      /\ Browser.trace (snd form)
         = (Browser.trace f ++ [Browser.performed (CarFields.onSubmit values)])%list
      /\ CarFields.toasts (Browser.view (snd form))
         = (CarFields.toasts (Browser.view f)
            ++ match submitted with
               | Browser.Done _ => []
               | Browser.Raised _ =>
                   [Browser.toast_error (Browser.Text "Failed to save vehicle")]
               end)%list
      /\ CarFields.field_make (Browser.view (snd form)) = CarFields.field_make (Browser.view f)
      /\ CarFields.field_model (Browser.view (snd form)) = CarFields.field_model (Browser.view f)
      /\ CarFields.field_year (Browser.view (snd form)) = CarFields.field_year (Browser.view f)
      /\ CarFields.isCheckingPlate (Browser.view (snd form))
         = CarFields.isCheckingPlate (Browser.view f)).
Proof.
  cbv zeta. split.
  - unfold PlateCarDialog.handleSubmit, PlateCarDialog.setIsSubmitting,
      PlateCarDialog.onOpenChange, PlateCarDialog.toast, PlateCarDialog.props.
    async_simpl.
    destruct submitted as [[]|e]; async_simpl.
    + destruct closing as [[]|e]; async_simpl; repeat split.
    + rewrite app_nil_r. repeat split.
  - unfold CarFields.handleSubmit, CarFields.setIsLoading, CarFields.toast,
      CarFields.outside.
    async_simpl.
    destruct submitted as [[]|e]; async_simpl; rewrite ?app_nil_r; repeat split.
Qed.
(* ===================================================================== *)
(** ** Loading the list                                                  *)
(* ===================================================================== *)

Ltac list_unfold :=
  unfold VehicleList.fetchPartnerVehicles, VehicleList.handleAddVehicle,
    VehicleList.handleEditVehicle, VehicleList.handleDeleteVehicle,
    VehicleList.confirmDeleteVehicle, VehicleList.handleSubmitVehicle,
    VehicleList.useEffect,
    VehicleList.setVehicles, VehicleList.setIsLoading,
    VehicleList.setShowVehicleDialog, VehicleList.setIsSubmitting,
    VehicleList.setCurrentVehicleId, VehicleList.setIsEditingVehicle,
    VehicleList.setShowDeleteVehicleDialog, VehicleList.setVehicleToDelete,
    VehicleList.setDefaultValues, VehicleList.toast.

(** A call of [fetchPartnerVehicles] sets the loading flag, sends its
    request and waits; resumed with the answer it ends at once. *)
Lemma fetchPartnerVehicles_advance partnerId (t : Browser.Tab Browser.Net VehicleList.State) :
  exists k,
    rest_of_load k
    /\ Browser.advance (VehicleList.fetchPartnerVehicles partnerId) t
       = (None,
          {| Browser.view := VehicleList.set_isLoading true (Browser.view t);
             Browser.trace := (Browser.trace t
                               ++ [Browser.performed (Browser.fetch (load_request partnerId))])%list;
             Browser.in_flight := (Browser.in_flight t ++ [k])%list |}).
Proof.
  list_unfold. async_simpl. eexists. split; [|reflexivity].
  intros o t0. unfold loaded, load_outcome. cbn [Browser.resume Browser.answering].
  destruct o as [response|e]; async_simpl; [|reflexivity].
  destruct (Browser.ok response); async_simpl; [|reflexivity].
  unfold Browser.response_json.
  destruct (Browser.payload response); async_simpl; reflexivity.
Qed.

Lemma fetchPartnerVehicles_run partnerId o (t : Browser.Tab Browser.Net VehicleList.State) :
  Browser.run (Browser.answering o) (VehicleList.fetchPartnerVehicles partnerId) t
  = (None,
     {| Browser.view := loaded o (Browser.view t);
        Browser.trace := (Browser.trace t
                          ++ [Browser.performed (Browser.fetch (load_request partnerId))])%list;
        Browser.in_flight := Browser.in_flight t |}).
Proof.
  list_unfold. async_simpl. unfold loaded, load_outcome, Browser.answering.
  destruct o as [response|e]; async_simpl; [|reflexivity].
  destruct (Browser.ok response); async_simpl; [|reflexivity].
  unfold Browser.response_json.
  destruct (Browser.payload response); async_simpl; reflexivity.
Qed.

(** X20: however a load of the list is answered, it does not reject and
    the loading flag is off afterwards; one GET for the partner's
    collection has been sent and nothing is left waiting.  The answer is
    shown only when it is ok and parses: in every other case the list is
    emptied and one error is notified (a network error, the status of the
    answer, or the parser's message).  The other cells are not touched. *)
Theorem X20_list_load_settles partnerId o
    (t : Browser.Tab Browser.Net VehicleList.State) :
  let result := Browser.run (Browser.answering o)
                  (VehicleList.fetchPartnerVehicles partnerId) t in
  let before := Browser.view t in
  let after := Browser.view (snd result) in
  fst result = None
  /\ Browser.requests (snd result) = (Browser.requests t ++ [load_request partnerId])%list
  /\ Browser.in_flight (snd result) = Browser.in_flight t
  /\ VehicleList.isLoading after = false
  /\ match load_outcome o with
     | inl data =>
         VehicleList.vehicles after = data
         /\ VehicleList.toasts after = VehicleList.toasts before
     | inr message =>
         VehicleList.vehicles after = JArr []
         /\ VehicleList.toasts after
            = (VehicleList.toasts before ++ [Browser.toast_error message])%list
     end
  /\ (forall data, load_outcome o = inl data <->
        exists response, o = Browser.Done response /\ Browser.ok response = true
                         /\ Browser.payload response = Browser.Json data)
  /\ VehicleList.showVehicleDialog after = VehicleList.showVehicleDialog before
  /\ VehicleList.isSubmitting after = VehicleList.isSubmitting before
  /\ VehicleList.currentVehicleId after = VehicleList.currentVehicleId before
  /\ VehicleList.isEditingVehicle after = VehicleList.isEditingVehicle before
  /\ VehicleList.showDeleteVehicleDialog after
     = VehicleList.showDeleteVehicleDialog before
  /\ VehicleList.vehicleToDelete after = VehicleList.vehicleToDelete before
  /\ VehicleList.defaultValues after = VehicleList.defaultValues before.
Proof.
  cbv zeta. rewrite fetchPartnerVehicles_run. cbn [fst snd Browser.view Browser.in_flight].
  split; [reflexivity|].
  split.
  { unfold Browser.requests. cbn [Browser.trace]. rewrite List.map_app. reflexivity. }
  split; [reflexivity|].
  unfold loaded.
  split; [destruct (load_outcome o); reflexivity|].
  split; [destruct (load_outcome o); split; reflexivity|].
  split.
  { intros data. unfold load_outcome. split.
    - destruct o as [response|e]; [|discriminate].
      destruct (Browser.ok response) eqn:Hok; [|discriminate].
      destruct (Browser.payload response) as [|v] eqn:Hp; [discriminate|].
      intros H. injection H as <-. exists response. repeat split; assumption.
    - intros (response & -> & -> & ->). reflexivity. }
  destruct (load_outcome o); repeat split.
Qed.

(** X21: loaded from the GET handler of the route, the list always holds
    an array.  For a signed-in caller and a partner that exists it holds
    the partner's stored vehicles as the handler sorts them, and nothing
    is notified; otherwise it is empty and the error names the status of
    the answer (401 without a user, else 404).  The handler writes nothing
    to the store. *)
Theorem X21_list_shows_what_GET_returns (vehicle_json : Vehicle -> JSValue)
    (reason : Z -> string) user partnerId w
    (t : Browser.Tab Browser.Net VehicleList.State) :
  let req := request user partnerId None in
  let answer := GET req w in
  let result := Browser.run
                  (Browser.answering
                     (Browser.Done (http_response vehicle_json reason (fst answer))))
                  (VehicleList.fetchPartnerVehicles partnerId) t in
  let before := Browser.view t in
  let after := Browser.view (snd result) in
  db (snd answer) = db w
  /\ is_array (VehicleList.vehicles after) = true
  /\ VehicleList.isLoading after = false
  /\ (no_user user = false -> partner_exists req w = true ->
      VehicleList.vehicles after
      = JArr (List.map vehicle_json (find_many partnerId (db w)))
      /\ VehicleList.toasts after = VehicleList.toasts before)
  /\ (no_user user = true \/ partner_exists req w = false ->
      let status := if no_user user then 401 else 404 in
      VehicleList.vehicles after = JArr []
      /\ VehicleList.toasts after
         = (VehicleList.toasts before
            ++ [Browser.toast_error
                  (Browser.Text ("Failed to fetch partner vehicles: "
                                 +:+ NumberToString status +:+ " "
                                 +:+ reason status))])%list).
Proof.
  cbv zeta. rewrite fetchPartnerVehicles_run, GET_table_correct.
  unfold GET_table, partner_exists, request, error_response, NextResponse_json.
  cbn [userId params_partnerId fst snd Browser.view].
  destruct (no_user user) eqn:Hu.
  - cbn [fst snd]. split; [reflexivity|]. split; [reflexivity|]. split; [reflexivity|].
    split; [discriminate|]. intros _. split; reflexivity.
  - destruct (decide (partnerId ∈ partners (db w))) as [Hin|Hout]; cbn [fst snd].
    + split; [reflexivity|]. split; [reflexivity|]. split; [reflexivity|].
      split; [intros _ _; split; reflexivity|].
      intros [H|H]; [discriminate H|].
      apply bool_decide_eq_false in H. contradiction.
    + split; [reflexivity|]. split; [reflexivity|]. split; [reflexivity|].
      split.
      * intros _ H. apply bool_decide_eq_true in H. contradiction.
      * intros _. split; reflexivity.
Qed.
(* ===================================================================== *)
(** ** Saving a vehicle from the list                                    *)
(* ===================================================================== *)

Ltac submit_unfold :=
  unfold VehicleList.handleSubmitVehicle, VehicleList.handleDeleteVehicle,
    VehicleList.handleEditVehicle, VehicleList.handleAddVehicle,
    VehicleList.confirmDeleteVehicle, VehicleList.useEffect,
    VehicleList.setVehicles, VehicleList.setIsLoading,
    VehicleList.setShowVehicleDialog, VehicleList.setIsSubmitting,
    VehicleList.setCurrentVehicleId, VehicleList.setIsEditingVehicle,
    VehicleList.setShowDeleteVehicleDialog, VehicleList.setVehicleToDelete,
    VehicleList.setDefaultValues, VehicleList.toast.

Lemma started_load partnerId (t : Browser.Tab Browser.Net VehicleList.State) :
  reloading partnerId t (snd (Browser.advance (VehicleList.fetchPartnerVehicles partnerId) t))
  /\ Browser.view (snd (Browser.advance (VehicleList.fetchPartnerVehicles partnerId) t))
     = VehicleList.set_isLoading true (Browser.view t).
Proof.
  destruct (fetchPartnerVehicles_advance partnerId t) as (k & Hk & ->).
  split; [|reflexivity]. exists k. repeat split. exact Hk.
Qed.

(** A form with a required field missing is answered on the spot. *)
Lemma handleSubmitVehicle_incomplete partnerId data fields
    (t : Browser.Tab Browser.Net VehicleList.State) :
  VehicleList.missingFields_of data = Browser.Done fields -> fields <> [] ->
  Browser.advance (VehicleList.handleSubmitVehicle partnerId data) t
  = (None,
     {| Browser.view :=
          VehicleList.set_isSubmitting false
            (VehicleList.add_toast
               (Browser.toast_error
                  (Browser.Text ("Missing required fields: " +:+ join ", " fields)))
               (Browser.view t));
        Browser.trace := Browser.trace t;
        Browser.in_flight := Browser.in_flight t |}).
Proof.
  intros Hm Hne. submit_unfold. rewrite Hm. async_simpl.
  destruct fields as [|f fields]; [contradiction|]. reflexivity.
Qed.

Lemma handleSubmitVehicle_complete partnerId data
    (t : Browser.Tab Browser.Net VehicleList.State) :
  complete data ->
  exists k,
    rest_of_submit partnerId k
    /\ Browser.advance (VehicleList.handleSubmitVehicle partnerId data) t
       = (None,
          {| Browser.view := VehicleList.set_isSubmitting true (Browser.view t);
             Browser.trace :=
               (Browser.trace t
                ++ [Browser.performed
                      (Browser.fetch (submit_request partnerId (Browser.view t) data))])%list;
             Browser.in_flight := (Browser.in_flight t ++ [k])%list |}).
Proof.
  unfold complete. intros Hm. submit_unfold. rewrite Hm. async_simpl.
  cbn [length Nat.ltb Nat.leb].
  async_simpl.
  eexists. split; [|unfold submit_request; cbn [VehicleList.set_isSubmitting VehicleList.isEditingVehicle VehicleList.currentVehicleId]; reflexivity].
  intros o t0. cbn [Browser.resume Browser.answering].
  assert (Hfail : forall m,
    exists (m0 : Browser.Message) (t1 : Browser.Tab Browser.Net VehicleList.State),
      (None (A := Browser.Thrown),
       {| Browser.view := VehicleList.set_isSubmitting false
                            (VehicleList.add_toast (Browser.toast_error m) (Browser.view t0));
          Browser.trace := Browser.trace t0; Browser.in_flight := Browser.in_flight t0 |})
      = (None, t1)
      /\ ((Browser.view t1
           = VehicleList.set_isSubmitting false
               (VehicleList.add_toast (Browser.toast_error m0) (Browser.view t0))
           /\ Browser.trace t1 = Browser.trace t0
           /\ Browser.in_flight t1 = Browser.in_flight t0)
          \/ (Browser.view t1
              = VehicleList.set_isSubmitting false
                  (VehicleList.set_isLoading true
                     (VehicleList.set_showVehicleDialog false
                        (VehicleList.add_toast (Browser.toast_success m0)
                           (Browser.view t0))))
              /\ reloading partnerId t0 t1))).
  { intros m. exists m. eexists. split; [reflexivity|]. left. repeat split. }
  destruct o as [response|e]; async_simpl; [|apply Hfail].
  destruct (Browser.ok response); async_simpl.
  - unfold Browser.response_json.
    destruct (Browser.payload response) as [|savedVehicle]; async_simpl; [apply Hfail|].
    destruct (Browser.member savedVehicle "make") as [mk|e]; async_simpl; [|apply Hfail].
    destruct (Browser.template mk) as [make|e]; async_simpl; [|apply Hfail].
    destruct (Browser.member savedVehicle "model") as [md|e]; async_simpl; [|apply Hfail].
    destruct (Browser.template md) as [model|e]; async_simpl; [|apply Hfail].
    match goal with
    | |- context [Browser.advance (VehicleList.fetchPartnerVehicles partnerId) ?t'] =>
        destruct (started_load partnerId t') as [Hre Hview];
        destruct (Browser.advance (VehicleList.fetchPartnerVehicles partnerId) t')
          as [thrown t1] eqn:Hadv
    end.
    cbn [snd] in Hre, Hview. async_simpl.
    eexists. eexists. split; [reflexivity|]. right.
    async_simpl. rewrite Hview. split; [reflexivity|].
    destruct Hre as (k & Hk & Htrace & Hfl & Hload).
    exists k. async_simpl. cbn [Browser.trace Browser.in_flight Browser.view] in *.
    repeat split; assumption.
  - destruct (Browser.template (VehicleList.errorMessage_of response "Failed to save vehicle"))
      as [m|e]; async_simpl; apply Hfail.
Qed.

Lemma handleSubmitVehicle_run partnerId data o
    (t : Browser.Tab Browser.Net VehicleList.State) :
  complete data ->
  let sent := (Browser.trace t
               ++ [Browser.performed
                     (Browser.fetch (submit_request partnerId (Browser.view t) data))])%list in
  match save_notice (VehicleList.isEditingVehicle (Browser.view t)) o with
  | Browser.toast_error m =>
      Browser.run (Browser.answering o) (VehicleList.handleSubmitVehicle partnerId data) t
      = (None,
         {| Browser.view :=
              VehicleList.set_isSubmitting false
                (VehicleList.add_toast (Browser.toast_error m) (Browser.view t));
            Browser.trace := sent;
            Browser.in_flight := Browser.in_flight t |})
  | Browser.toast_success m =>
      exists k,
        rest_of_load k
        /\ Browser.run (Browser.answering o)
             (VehicleList.handleSubmitVehicle partnerId data) t
           = (None,
              {| Browser.view :=
                   VehicleList.set_isSubmitting false
                     (VehicleList.set_isLoading true
                        (VehicleList.set_showVehicleDialog false
                           (VehicleList.add_toast (Browser.toast_success m)
                              (Browser.view t))));
                 Browser.trace :=
                   (sent ++ [Browser.performed (Browser.fetch (load_request partnerId))])%list;
                 Browser.in_flight := (Browser.in_flight t ++ [k])%list |})
  end.
Proof.
  unfold complete. intros Hm. cbv zeta. submit_unfold. rewrite Hm. async_simpl.
  cbn [length Nat.ltb Nat.leb]. async_simpl.
  unfold save_notice, save_text, refusal_notice, Browser.answering, submit_request.
  cbn [VehicleList.set_isSubmitting VehicleList.isEditingVehicle
       VehicleList.currentVehicleId].
  destruct o as [response|e]; async_simpl; [|reflexivity].
  destruct (Browser.ok response); async_simpl.
  - destruct (Browser.response_json response) as [savedVehicle|e]; async_simpl;
      [|destruct e; reflexivity].
    destruct (Browser.member savedVehicle "make") as [mk|e]; async_simpl;
      [|destruct e; reflexivity].
    destruct (Browser.template mk) as [make|e]; async_simpl; [|destruct e; reflexivity].
    destruct (Browser.member savedVehicle "model") as [md|e]; async_simpl;
      [|destruct e; reflexivity].
    destruct (Browser.template md) as [model|e]; async_simpl; [|destruct e; reflexivity].
    match goal with
    | |- context [Browser.advance (VehicleList.fetchPartnerVehicles partnerId) ?t'] =>
        destruct (fetchPartnerVehicles_advance partnerId t') as (k & Hk & ->)
    end.
    async_simpl. exists k. split; [exact Hk|].
    destruct (VehicleList.isEditingVehicle (Browser.view t)); reflexivity.
  - destruct (Browser.template (VehicleList.errorMessage_of response "Failed to save vehicle"))
      as [m|e]; async_simpl; [reflexivity|destruct e; reflexivity].
Qed.

Lemma handleSubmitVehicle_incomplete_run partnerId data fields o
    (t : Browser.Tab Browser.Net VehicleList.State) :
  VehicleList.missingFields_of data = Browser.Done fields -> fields <> [] ->
  Browser.run (Browser.answering o) (VehicleList.handleSubmitVehicle partnerId data) t
  = Browser.advance (VehicleList.handleSubmitVehicle partnerId data) t.
Proof.
  intros Hm Hne. submit_unfold. rewrite Hm. async_simpl.
  destruct fields as [|f fields]; [contradiction|]. reflexivity.
Qed.

(** X22: a form in which one of brand, model, year, licensePlate and
    capacity is falsy is not sent: the list sends no request and leaves
    nothing waiting, names the falsy fields in one error notification and
    clears the submitting flag, whatever the mode it is in. *)
Theorem X22_incomplete_form_is_not_sent partnerId data k o
    (t : Browser.Tab Browser.Net VehicleList.State) :
  nullish data = false ->
  In k VehicleList.requiredFields ->
  truthy (get data k) = false ->
  let fields := List.filter (fun f => negb (truthy (get data f)))
                            VehicleList.requiredFields in
  let result := Browser.run (Browser.answering o)
                  (VehicleList.handleSubmitVehicle partnerId data) t in
  In k fields
  /\ result = Browser.advance (VehicleList.handleSubmitVehicle partnerId data) t
  /\ fst result = None
  /\ Browser.trace (snd result) = Browser.trace t
  /\ Browser.in_flight (snd result) = Browser.in_flight t
  /\ Browser.view (snd result)
     = VehicleList.set_isSubmitting false
         (VehicleList.add_toast
            (Browser.toast_error
               (Browser.Text ("Missing required fields: " +:+ join ", " fields)))
            (Browser.view t)).
Proof.
  intros Hn Hk Hfalsy. cbv zeta.
  set (fields := List.filter (fun f => negb (truthy (get data f)))
                             VehicleList.requiredFields).
  assert (Hin : In k fields).
  { apply List.filter_In. split; [exact Hk|]. rewrite Hfalsy. reflexivity. }
  assert (Hne : fields <> []) by (intros E; rewrite E in Hin; contradiction).
  assert (Hm : VehicleList.missingFields_of data = Browser.Done fields).
  { unfold VehicleList.missingFields_of. destruct data; try discriminate Hn; reflexivity. }
  split; [exact Hin|].
  rewrite (handleSubmitVehicle_incomplete_run partnerId data fields o t Hm Hne).
  rewrite (handleSubmitVehicle_incomplete partnerId data fields t Hm Hne).
  repeat split.
Qed.

(** X23: a form with the five fields truthy is sent at once and once: the
    submitting flag is set, one function is left waiting, and the request
    carries the data as its body.  Outside edit mode it is a POST to the
    partner's collection; in edit mode it is a PUT, to the vehicle being
    edited when that has an id. *)
Theorem X23_complete_form_is_sent_once partnerId data
    (t : Browser.Tab Browser.Net VehicleList.State) :
  complete data ->
  let result := Browser.advance (VehicleList.handleSubmitVehicle partnerId data) t in
  let before := Browser.view t in
  let sent := submit_request partnerId before data in
  fst result = None
  /\ Browser.requests (snd result) = (Browser.requests t ++ [sent])%list
  /\ length (Browser.in_flight (snd result)) = S (length (Browser.in_flight t))
  /\ Browser.view (snd result) = VehicleList.set_isSubmitting true before
  /\ Browser.sent sent = Some data
  /\ (VehicleList.isEditingVehicle before = false ->
      Browser.method sent = "POST"
      /\ Browser.url sent = VehicleList.collection partnerId)
  /\ (VehicleList.isEditingVehicle before = true ->
      Browser.method sent = "PUT"
      /\ forall id, VehicleList.currentVehicleId before = Some id -> id <> "" ->
           Browser.url sent = VehicleList.item partnerId id).
Proof.
  intros Hc. cbv zeta.
  destruct (handleSubmitVehicle_complete partnerId data t Hc) as (k & _ & ->).
  cbn [fst snd Browser.view Browser.in_flight].
  split; [reflexivity|].
  split.
  { unfold Browser.requests. cbn [Browser.trace]. rewrite List.map_app. reflexivity. }
  split; [rewrite length_app; cbn [length]; lia|].
  split; [reflexivity|].
  split; [reflexivity|].
  unfold submit_request. cbn [Browser.method Browser.url].
  split.
  - intros ->. split; [reflexivity|].
    destruct (VehicleList.currentVehicleId (Browser.view t)); reflexivity.
  - intros ->. split; [reflexivity|].
    intros id -> Hid. destruct (String.eqb_spec id ""); [contradiction|]. reflexivity.
Qed.

Lemma refusal_with_text response body msg fallback :
  Browser.payload response = Browser.Json body ->
  get body "error" = JStr msg -> msg <> "" ->
  refusal_notice response fallback = Browser.toast_error (Browser.Text msg).
Proof.
  intros Hp Hget Hne. unfold refusal_notice, VehicleList.errorMessage_of. rewrite Hp.
  destruct body; try discriminate Hget.
  cbn [Browser.member]. rewrite Hget. unfold or_else. cbn [truthy].
  destruct (String.eqb_spec msg ""); [contradiction|]. reflexivity.
Qed.

Lemma refusal_without_text response fallback :
  Browser.payload response = Browser.NotJson
  \/ (exists body, Browser.payload response = Browser.Json body
                   /\ (nullish body = true \/ truthy (get body "error") = false)) ->
  refusal_notice response fallback = Browser.toast_error (Browser.Text fallback).
Proof.
  unfold refusal_notice, VehicleList.errorMessage_of.
  intros [-> | (body & -> & [Hn | Hf])]; [reflexivity| |].
  - destruct body; try discriminate Hn; reflexivity.
  - unfold Browser.member.
    destruct body; try reflexivity; unfold or_else; rewrite Hf; reflexivity.
Qed.

Lemma save_text_strings editing response saved mk md :
  Browser.payload response = Browser.Json saved ->
  get saved "make" = JStr mk -> get saved "model" = JStr md ->
  save_text editing response
  = Browser.Done ("Vehicle " +:+ mk +:+ " " +:+ md
                  +:+ (if editing then " updated successfully"
                       else " added successfully")).
Proof.
  intros Hp Hmk Hmd. unfold save_text, Browser.response_json. rewrite Hp.
  destruct saved; try discriminate Hmk.
  cbn [Browser.member]. rewrite Hmk, Hmd. reflexivity.
Qed.

(** X24: a submitted form is reported once.  Whatever the answer, the
    call does not reject, the submitting flag is cleared and exactly one
    notification is shown.  After a success notification the dialog is
    closed, a reload of the list is under way and nothing else has
    changed; after an error notification only the notification and the
    flag differ from before, so the dialog stays as it was and no reload
    is started.  An answer that is not ok is reported with the [error]
    text of its body when there is one and with "Failed to save vehicle"
    otherwise; no answer at all as a network error; an ok answer holding
    make and model as a success that names them. *)
Theorem X24_save_is_reported_once partnerId data o
    (t : Browser.Tab Browser.Net VehicleList.State) :
  complete data ->
  let result := Browser.run (Browser.answering o)
                  (VehicleList.handleSubmitVehicle partnerId data) t in
  let before := Browser.view t in
  let after := Browser.view (snd result) in
  let editing := VehicleList.isEditingVehicle before in
  let notice := save_notice editing o in
  fst result = None
  /\ VehicleList.isSubmitting after = false
  /\ VehicleList.toasts after = (VehicleList.toasts before ++ [notice])%list
  /\ match notice with
     | Browser.toast_success _ =>
         after = VehicleList.set_isSubmitting false
                   (VehicleList.set_isLoading true
                      (VehicleList.set_showVehicleDialog false
                         (VehicleList.add_toast notice before)))
         /\ Browser.requests (snd result)
            = (Browser.requests t
               ++ [submit_request partnerId before data; load_request partnerId])%list
         /\ exists k, rest_of_load k
                      /\ Browser.in_flight (snd result) = (Browser.in_flight t ++ [k])%list
     | Browser.toast_error _ =>
         after = VehicleList.set_isSubmitting false
                   (VehicleList.add_toast notice before)
         /\ Browser.requests (snd result)
            = (Browser.requests t ++ [submit_request partnerId before data])%list
         /\ Browser.in_flight (snd result) = Browser.in_flight t
     end
  /\ (forall e, o = Browser.Raised e ->
        notice = Browser.toast_error (Browser.Text "Network error when saving vehicle"))
  /\ (forall response body msg,
        o = Browser.Done response -> Browser.ok response = false ->
        Browser.payload response = Browser.Json body ->
        get body "error" = JStr msg -> msg <> "" ->
        notice = Browser.toast_error (Browser.Text msg))
  /\ (forall response,
        o = Browser.Done response -> Browser.ok response = false ->
        Browser.payload response = Browser.NotJson ->
        notice = Browser.toast_error (Browser.Text "Failed to save vehicle"))
  /\ (forall response saved mk md,
        o = Browser.Done response -> Browser.ok response = true ->
        Browser.payload response = Browser.Json saved ->
        get saved "make" = JStr mk -> get saved "model" = JStr md ->
        notice = Browser.toast_success
                   (Browser.Text ("Vehicle " +:+ mk +:+ " " +:+ md
                                  +:+ (if editing then " updated successfully"
                                       else " added successfully")))).
Proof.
  intros Hc. cbv zeta.
  pose proof (handleSubmitVehicle_run partnerId data o t Hc) as Hrun. cbv zeta in Hrun.
  split; [|split; [|split; [|split]]].
  - destruct (save_notice _ o); [destruct Hrun as (k & _ & ->)|rewrite Hrun]; reflexivity.
  - destruct (save_notice _ o); [destruct Hrun as (k & _ & ->)|rewrite Hrun]; reflexivity.
  - destruct (save_notice _ o); [destruct Hrun as (k & _ & ->)|rewrite Hrun]; reflexivity.
  - destruct (save_notice _ o).
    + destruct Hrun as (k & Hk & ->). cbn [snd Browser.view Browser.in_flight].
      split; [reflexivity|]. split.
      * unfold Browser.requests. cbn [Browser.trace]. rewrite !List.map_app, <- app_assoc.
        reflexivity.
      * exists k. split; [exact Hk|reflexivity].
    + rewrite Hrun. cbn [snd Browser.view Browser.in_flight].
      split; [reflexivity|]. split; [|reflexivity].
      unfold Browser.requests. cbn [Browser.trace]. rewrite !List.map_app. reflexivity.
  - clear Hrun. split; [|split; [|split]].
    + intros e ->. reflexivity.
    + intros response body msg -> Hok Hp Hget Hne. cbn [save_notice]. rewrite Hok.
      apply (refusal_with_text response body msg _ Hp Hget Hne).
    + intros response -> Hok Hp. cbn [save_notice]. rewrite Hok.
      apply refusal_without_text. left. exact Hp.
    + intros response saved mk md -> Hok Hp Hmk Hmd. cbn [save_notice]. rewrite Hok.
      rewrite (save_text_strings _ response saved mk md Hp Hmk Hmd). reflexivity.
Qed.

(* ===================================================================== *)
(** ** The list against the POST handler                                 *)
(* ===================================================================== *)

Lemma through_json_truthy v : truthy (Browser.through_json v) = truthy v.
Proof. destruct v; reflexivity. Qed.

Lemma get_through_json (m : gmap string JSValue) k v :
  m !! k = Some v ->
  get (Browser.through_json (JObj m)) k = Browser.through_json v.
Proof.
  intros Hk. cbn [Browser.through_json get]. rewrite lookup_omap, Hk.
  destruct v; reflexivity.
Qed.

Lemma truthy_get_lookup (m : gmap string JSValue) k :
  truthy (get (JObj m) k) = true ->
  exists v, m !! k = Some v /\ v <> JUndefined /\ truthy v = true.
Proof.
  cbn [get]. destruct (m !! k) as [v|]; [|discriminate].
  cbn [default]. intros H. exists v. repeat split; [|exact H].
  intros ->. discriminate H.
Qed.

Lemma complete_fields data :
  complete data ->
  exists m, data = JObj m
            /\ forall k, In k VehicleList.requiredFields -> truthy (get data k) = true.
Proof.
  unfold complete, VehicleList.missingFields_of. intros H.
  assert (Hf : List.filter (fun field => negb (truthy (get data field)))
                           VehicleList.requiredFields = []).
  { destruct data; try discriminate H; congruence. }
  assert (Hall : forall k, In k VehicleList.requiredFields -> truthy (get data k) = true).
  { intros k Hk. destruct (truthy (get data k)) eqn:Ht; [reflexivity|].
    assert (Hin : In k []); [|contradiction Hin].
    rewrite <- Hf. apply List.filter_In. split; [exact Hk|]. rewrite Ht. reflexivity. }
  pose proof (Hall "brand" (or_introl eq_refl)) as Hb.
  destruct data as [| | | | | |m]; try discriminate Hb.
  exists m. split; [reflexivity|exact Hall].
Qed.

Lemma complete_received data :
  complete data ->
  exists body,
    Browser.received (Some data) = Some body
    /\ nullish body = false
    /\ missing body = []
    /\ forall k, In k VehicleList.requiredFields -> truthy (get body k) = true.
Proof.
  intros Hc. destruct (complete_fields data Hc) as (m & -> & Hall).
  exists (Browser.through_json (JObj m)).
  assert (Hbody : forall k, In k VehicleList.requiredFields ->
                            truthy (get (Browser.through_json (JObj m)) k) = true).
  { intros k Hk. destruct (truthy_get_lookup m k (Hall k Hk)) as (v & Hv & Hne & Ht).
    rewrite (get_through_json m k v Hv), through_json_truthy. exact Ht. }
  split; [reflexivity|]. split; [reflexivity|]. split; [|exact Hbody].
  unfold missing, required_fields. cbn [List.filter].
  rewrite (Hbody "brand"), (Hbody "model"), (Hbody "year"), (Hbody "licensePlate");
    [reflexivity| | | |]; unfold VehicleList.requiredFields; cbn [In]; tauto.
Qed.

Lemma POST_answer_complete req w data :
  body req = Some data -> nullish data = false -> missing data = [] ->
  (exists v, fst (POST req w) = NextResponse_json (VehicleBody v) 200)
  \/ (exists msg st, fst (POST req w) = error_response msg st
                     /\ In (msg, st) POST_refusals
                     /\ db (snd (POST req w)) = db w).
Proof.
  intros Hb Hn Hm. rewrite POST_table_correct. unfold POST_table, error_response.
  rewrite Hb, Hn, Hm. unfold POST_refusals.
  destruct (no_user (userId req)).
  { right. eexists. eexists. split; [reflexivity|]. split; [cbn [In]; tauto|reflexivity]. }
  destruct (decide (params_partnerId req ∈ partners (db w))).
  2: { right. eexists. eexists. split; [reflexivity|]. split; [cbn [In]; tauto|reflexivity]. }
  destruct (get data "licensePlate") as [| | | |p| |];
    try (right; eexists; eexists; split; [reflexivity|]; split; [cbn [In]; tauto|reflexivity]).
  destruct (find_by_plate p (db w)).
  { right. eexists. eexists. split; [reflexivity|]. split; [cbn [In]; tauto|reflexivity]. }
  destruct (create (now w) (create_data (params_partnerId req) data) (db w)) as [[v st']|].
  - left. exists v. reflexivity.
  - right. eexists. eexists. split; [reflexivity|]. split; [cbn [In]; tauto|reflexivity].
Qed.

(** X25: a new vehicle saved from the list, with the POST handler of the
    route answering, for a form whose year, capacity and last maintenance
    can be converted to a string.  The request is a POST to the partner's
    collection, and a form the list lets through is never turned down for
    missing fields: what the handler reads has brand, model, year and
    licensePlate truthy.  When the handler creates the record, the list
    notifies "Vehicle <make> <model> added successfully" with the make and
    model of the stored row, closes the dialog and starts a reload.
    Otherwise the handler's error text is notified as it is, the dialog is
    left as it was, no reload is started and the store is unchanged. *)
Theorem X25_list_save_against_POST (vehicle_json : Vehicle -> JSValue)
    (reason : Z -> string) user partnerId data w
    (t : Browser.Tab Browser.Net VehicleList.State) :
  (forall v, get (vehicle_json v) "make" = JStr (make v)
             /\ get (vehicle_json v) "model" = JStr (model v)) ->
  complete data ->
  converts (Browser.through_json data) ->
  VehicleList.isEditingVehicle (Browser.view t) = false ->
  let before := Browser.view t in
  let sent := submit_request partnerId before data in
  let req := request user partnerId (Browser.received (Browser.sent sent)) in
  let answer := POST req w in
  let result := Browser.run
                  (Browser.answering
                     (Browser.Done (http_response vehicle_json reason (fst answer))))
                  (VehicleList.handleSubmitVehicle partnerId data) t in
  let after := Browser.view (snd result) in
  Browser.method sent = "POST"
  /\ Browser.url sent = VehicleList.collection partnerId
  /\ (exists received, body req = Some received /\ nullish received = false
                       /\ missing received = [])
  /\ ((exists v,
         succeeds_with req w v
         /\ after = VehicleList.set_isSubmitting false
                      (VehicleList.set_isLoading true
                         (VehicleList.set_showVehicleDialog false
                            (VehicleList.add_toast
                               (Browser.toast_success
                                  (Browser.Text ("Vehicle " +:+ make v +:+ " " +:+ model v
                                                 +:+ " added successfully")))
                               before)))
         /\ Browser.requests (snd result)
            = (Browser.requests t ++ [sent; load_request partnerId])%list)
      \/ (exists msg st,
            fst answer = error_response msg st
            /\ In (msg, st) POST_refusals
            /\ db (snd answer) = db w
            /\ after = VehicleList.set_isSubmitting false
                         (VehicleList.add_toast
                            (Browser.toast_error (Browser.Text msg)) before)
            /\ Browser.requests (snd result) = (Browser.requests t ++ [sent])%list
            /\ Browser.in_flight (snd result) = Browser.in_flight t)).
Proof.
  intros Hjson Hc _ Hmode. cbv zeta.
  assert (Hsent : Browser.sent (submit_request partnerId (Browser.view t) data) = Some data)
    by reflexivity.
  assert (Hmethod : Browser.method (submit_request partnerId (Browser.view t) data) = "POST")
    by (unfold submit_request; rewrite Hmode; reflexivity).
  assert (Hurl : Browser.url (submit_request partnerId (Browser.view t) data)
                 = VehicleList.collection partnerId).
  { unfold submit_request. rewrite Hmode. cbn [Browser.url andb].
    destruct (VehicleList.currentVehicleId (Browser.view t)); reflexivity. }
  split; [exact Hmethod|]. split; [exact Hurl|].
  rewrite Hsent.
  destruct (complete_received data Hc) as (received & Hrec & Hnull & Hmiss & _).
  rewrite Hrec.
  split; [exists received; repeat split; assumption|].
  set (req := request user partnerId (Some received)).
  pose proof (handleSubmitVehicle_run partnerId data
                (Browser.Done (http_response vehicle_json reason (fst (POST req w)))) t Hc)
    as Hrun.
  cbv zeta in Hrun. rewrite Hmode in Hrun.
  destruct (POST_answer_complete req w received eq_refl Hnull Hmiss)
    as [(v & Hv) | (msg & st & Hres & Hin & Hdb)].
  - left. exists v. split; [exact Hv|].
    destruct (Hjson v) as [Hmk Hmd].
    assert (Hnotice : save_notice false
                        (Browser.Done (http_response vehicle_json reason (fst (POST req w))))
                      = Browser.toast_success
                          (Browser.Text ("Vehicle " +:+ make v +:+ " " +:+ model v
                                         +:+ " added successfully"))).
    { rewrite Hv. cbn [save_notice].
      replace (Browser.ok _) with true by reflexivity.
      rewrite (save_text_strings false
                 (http_response vehicle_json reason (NextResponse_json (VehicleBody v) 200))
                 (vehicle_json v) (make v) (model v) eq_refl Hmk Hmd).
      reflexivity. }
    rewrite Hnotice in Hrun. destruct Hrun as (k & _ & ->).
    cbn [snd Browser.view]. split; [reflexivity|].
    unfold Browser.requests. cbn [Browser.trace]. rewrite !List.map_app, <- app_assoc.
    reflexivity.
  - right. exists msg, st. split; [exact Hres|]. split; [exact Hin|]. split; [exact Hdb|].
    assert (Hnotice : save_notice false
                        (Browser.Done (http_response vehicle_json reason (fst (POST req w))))
                      = Browser.toast_error (Browser.Text msg)).
    { rewrite Hres. cbn [save_notice].
      assert (Hok : Browser.ok (http_response vehicle_json reason (error_response msg st))
                    = false).
      { unfold POST_refusals in Hin. cbn [In] in Hin.
        destruct Hin as [H|[H|[H|[H|[]]]]]; injection H as <- <-; reflexivity. }
      rewrite Hok.
      apply (refusal_with_text
               (http_response vehicle_json reason (error_response msg st))
               (object [("error", JStr msg)]) msg);
        [reflexivity|reflexivity|].
      unfold POST_refusals in Hin. cbn [In] in Hin.
      destruct Hin as [H|[H|[H|[H|[]]]]]; injection H as <- <-; discriminate. }
    rewrite Hnotice in Hrun. rewrite Hrun. cbn [snd Browser.view Browser.in_flight].
    split; [reflexivity|]. split; [|reflexivity].
    unfold Browser.requests. cbn [Browser.trace]. rewrite !List.map_app. reflexivity.
Qed.

(* ===================================================================== *)
(** ** Editing and deleting from the list                                *)
(* ===================================================================== *)

Lemma handleEditVehicle_advance partnerId vehicleId
    (t : Browser.Tab Browser.Net VehicleList.State) :
  exists k,
    rest_of_edit k
    /\ Browser.advance (VehicleList.handleEditVehicle partnerId vehicleId) t
       = (None,
          {| Browser.view :=
               VehicleList.set_isSubmitting true
                 (VehicleList.set_isEditingVehicle true
                    (VehicleList.set_currentVehicleId (Some vehicleId) (Browser.view t)));
             Browser.trace :=
               (Browser.trace t
                ++ [Browser.performed (Browser.fetch (edit_request partnerId vehicleId))])%list;
             Browser.in_flight := (Browser.in_flight t ++ [k])%list |}).
Proof.
  submit_unfold. async_simpl. eexists. split; [|reflexivity].
  intros o t0. unfold edited, edit_outcome, form_data_of.
  cbn [Browser.resume Browser.answering].
  destruct o as [response|e]; async_simpl; [|reflexivity].
  destruct (Browser.ok response); async_simpl; [|reflexivity].
  destruct (Browser.response_json response) as [vehicleData|e]; async_simpl;
    [|destruct e; reflexivity].
  destruct (Browser.member vehicleData "year") as [y|e] eqn:Hy; async_simpl;
    [|destruct e; reflexivity].
  destruct (Browser.method_toString y) as [year|e]; async_simpl; [|destruct e; reflexivity].
  destruct (Browser.member vehicleData "capacity") as [c|e]; async_simpl;
    [|destruct e; reflexivity].
  destruct (Browser.method_toString c) as [capacity|e]; async_simpl;
    [|destruct e; reflexivity].
  assert (Hlm : Browser.member vehicleData "lastMaintenance"
                = Browser.Done (get vehicleData "lastMaintenance")).
  { destruct vehicleData; try discriminate Hy; reflexivity. }
  rewrite Hlm. async_simpl. reflexivity.
Qed.

Lemma handleEditVehicle_run partnerId vehicleId o
    (t : Browser.Tab Browser.Net VehicleList.State) :
  Browser.run (Browser.answering o) (VehicleList.handleEditVehicle partnerId vehicleId) t
  = (None,
     {| Browser.view :=
          edited o (VehicleList.set_isEditingVehicle true
                      (VehicleList.set_currentVehicleId (Some vehicleId) (Browser.view t)));
        Browser.trace :=
          (Browser.trace t
           ++ [Browser.performed (Browser.fetch (edit_request partnerId vehicleId))])%list;
        Browser.in_flight := Browser.in_flight t |}).
Proof.
  submit_unfold. async_simpl.
  unfold edited, edit_outcome, form_data_of, Browser.answering.
  destruct o as [response|e]; async_simpl; [|reflexivity].
  destruct (Browser.ok response); async_simpl; [|reflexivity].
  destruct (Browser.response_json response) as [vehicleData|e]; async_simpl;
    [|destruct e; reflexivity].
  destruct (Browser.member vehicleData "year") as [y|e] eqn:Hy; async_simpl;
    [|destruct e; reflexivity].
  destruct (Browser.method_toString y) as [year|e]; async_simpl; [|destruct e; reflexivity].
  destruct (Browser.member vehicleData "capacity") as [c|e]; async_simpl;
    [|destruct e; reflexivity].
  destruct (Browser.method_toString c) as [capacity|e]; async_simpl;
    [|destruct e; reflexivity].
  assert (Hlm : Browser.member vehicleData "lastMaintenance"
                = Browser.Done (get vehicleData "lastMaintenance")).
  { destruct vehicleData; try discriminate Hy; reflexivity. }
  rewrite Hlm. async_simpl. reflexivity.
Qed.

Lemma member_get v k x : Browser.member v k = Browser.Done x -> x = get v k.
Proof. destruct v; try discriminate; intros H; injection H as <-; reflexivity. Qed.

Lemma method_toString_needs v s :
  Browser.method_toString v = Browser.Done s -> nullish v = false.
Proof. destruct v; try discriminate; reflexivity. Qed.

Lemma form_data_needs vehicleData formData :
  form_data_of vehicleData = Browser.Done formData ->
  nullish (get vehicleData "year") = false
  /\ nullish (get vehicleData "capacity") = false.
Proof.
  unfold form_data_of. intros H.
  destruct (Browser.member vehicleData "year") as [y|] eqn:Hy; [|discriminate H].
  destruct (Browser.method_toString y) as [year|] eqn:Hys; [|discriminate H].
  destruct (Browser.member vehicleData "capacity") as [c|] eqn:Hc; [|discriminate H].
  destruct (Browser.method_toString c) as [capacity|] eqn:Hcs; [|discriminate H].
  apply member_get in Hy, Hc. subst y c.
  split; eapply method_toString_needs; eassumption.
Qed.

(** X26: opening a vehicle for editing.  Whatever the answer, the call
    does not reject and the submitting flag is cleared; one GET for the
    vehicle has been sent; the list is in edit mode for that vehicle, also
    when the request failed.  The dialog is opened, with new defaults, only
    for an ok answer whose body parses and holds a year and a capacity;
    in every other case one error is notified and the dialog and its
    defaults stay as they were.  Nothing else changes. *)
Theorem X26_edit_request_settles partnerId vehicleId o
    (t : Browser.Tab Browser.Net VehicleList.State) :
  let result := Browser.run (Browser.answering o)
                  (VehicleList.handleEditVehicle partnerId vehicleId) t in
  let before := Browser.view t in
  let after := Browser.view (snd result) in
  fst result = None
  /\ Browser.requests (snd result)
     = (Browser.requests t ++ [edit_request partnerId vehicleId])%list
  /\ Browser.in_flight (snd result) = Browser.in_flight t
  /\ VehicleList.isSubmitting after = false
  /\ VehicleList.isEditingVehicle after = true
  /\ VehicleList.currentVehicleId after = Some vehicleId
  /\ match edit_outcome o with
     | Browser.Done formData =>
         VehicleList.showVehicleDialog after = true
         /\ VehicleList.defaultValues after = formData
         /\ VehicleList.toasts after = VehicleList.toasts before
         /\ exists response vehicleData,
              o = Browser.Done response /\ Browser.ok response = true
              /\ Browser.payload response = Browser.Json vehicleData
              /\ nullish (get vehicleData "year") = false
              /\ nullish (get vehicleData "capacity") = false
     | Browser.Raised e =>
         VehicleList.showVehicleDialog after = VehicleList.showVehicleDialog before
         /\ VehicleList.defaultValues after = VehicleList.defaultValues before
         /\ VehicleList.toasts after
            = (VehicleList.toasts before
               ++ [Browser.toast_error
                     (Browser.message_or e "Failed to load vehicle details")])%list
     end
  /\ VehicleList.vehicles after = VehicleList.vehicles before
  /\ VehicleList.isLoading after = VehicleList.isLoading before
  /\ VehicleList.showDeleteVehicleDialog after
     = VehicleList.showDeleteVehicleDialog before
  /\ VehicleList.vehicleToDelete after = VehicleList.vehicleToDelete before.
Proof.
  cbv zeta. rewrite handleEditVehicle_run. cbn [fst snd Browser.view Browser.in_flight].
  split; [reflexivity|].
  split.
  { unfold Browser.requests. cbn [Browser.trace]. rewrite List.map_app. reflexivity. }
  split; [reflexivity|].
  unfold edited.
  destruct (edit_outcome o) as [formData|e] eqn:Ho.
  - repeat (split; [reflexivity|]). split; [|repeat split].
    repeat (split; [reflexivity|]).
    unfold edit_outcome in Ho.
    destruct o as [response|e]; [|discriminate Ho].
    destruct (Browser.ok response) eqn:Hok; [|discriminate Ho].
    unfold Browser.response_json in Ho.
    destruct (Browser.payload response) as [|vehicleData] eqn:Hp; [discriminate Ho|].
    exists response, vehicleData.
    destruct (form_data_needs vehicleData formData Ho) as [Hy Hc].
    repeat split; assumption.
  - repeat split.
Qed.

Lemma parseInt_NumberToString z :
  Z.abs z < 10 ^ 21 -> parseInt (JStr (NumberToString z)) = Int z.
Proof.
  intros Hz. unfold parseInt. cbn [ToString].
  rewrite NumberToString_plain by exact Hz. apply parseInt_decimal_Z.
Qed.

Lemma form_data_numbers (m : gmap string JSValue) y c :
  m !! "year" = Some (JNum y) -> m !! "capacity" = Some (JNum c) ->
  form_data_of (JObj m)
  = Browser.Done
      (JObj (<["lastMaintenance" := or_else (get (JObj m) "lastMaintenance") (JStr "")]>
               (<["capacity" := JStr (NumberToString c)]>
                  (<["year" := JStr (NumberToString y)]> m)))).
Proof.
  intros Hy Hc. unfold form_data_of. cbn [Browser.member get]. rewrite Hy, Hc.
  reflexivity.
Qed.

(** X27: the defaults an edit opens the form with.  For an ok answer whose
    body is an object holding year and capacity as Numbers that are safe
    integers (integral and below 2^53 in magnitude, which a Number holds
    and prints exactly), the form gets them as text that [parseInt], which
    the POST handler applies to both, reads back as the same numbers; the last
    maintenance is carried over when truthy and is the empty string
    otherwise; every other property of the answer is carried over as it
    is. *)
Theorem X27_edit_form_defaults partnerId vehicleId response
    (m : gmap string JSValue) y c
    (t : Browser.Tab Browser.Net VehicleList.State) :
  Browser.ok response = true ->
  Browser.payload response = Browser.Json (JObj m) ->
  m !! "year" = Some (JNum y) -> m !! "capacity" = Some (JNum c) ->
  safe_integer y -> safe_integer c ->
  let after := Browser.view
                 (snd (Browser.run (Browser.answering (Browser.Done response))
                         (VehicleList.handleEditVehicle partnerId vehicleId) t)) in
  let defaults := VehicleList.defaultValues after in
  VehicleList.showVehicleDialog after = true
  /\ get defaults "year" = JStr (NumberToString y)
  /\ parseInt (get defaults "year") = Int y
  /\ get defaults "capacity" = JStr (NumberToString c)
  /\ parseInt (get defaults "capacity") = Int c
  /\ get defaults "lastMaintenance" = or_else (get (JObj m) "lastMaintenance") (JStr "")
  /\ forall k, k <> "year" -> k <> "capacity" -> k <> "lastMaintenance" ->
               get defaults k = get (JObj m) k.
Proof.
  intros Hok Hp Hy Hc Hys Hcs.
  assert (Hyb : Z.abs y < 10 ^ 21) by (unfold safe_integer in Hys; lia).
  assert (Hcb : Z.abs c < 10 ^ 21) by (unfold safe_integer in Hcs; lia).
  cbv zeta. rewrite handleEditVehicle_run.
  cbn [snd Browser.view]. unfold edited, edit_outcome, Browser.response_json.
  rewrite Hok, Hp, (form_data_numbers m y c Hy Hc).
  cbn [VehicleList.set_isSubmitting VehicleList.set_showVehicleDialog
       VehicleList.set_defaultValues VehicleList.showVehicleDialog
       VehicleList.defaultValues].
  split; [reflexivity|].
  set (lm := or_else (get (JObj m) "lastMaintenance") (JStr "")).
  assert (Hyear : get (JObj (<["lastMaintenance" := lm]>
                               (<["capacity" := JStr (NumberToString c)]>
                                  (<["year" := JStr (NumberToString y)]> m)))) "year"
                  = JStr (NumberToString y)).
  { cbn [get]. rewrite lookup_insert_ne by discriminate.
    rewrite lookup_insert_ne by discriminate. rewrite lookup_insert. reflexivity. }
  assert (Hcap : get (JObj (<["lastMaintenance" := lm]>
                              (<["capacity" := JStr (NumberToString c)]>
                                 (<["year" := JStr (NumberToString y)]> m)))) "capacity"
                 = JStr (NumberToString c)).
  { cbn [get]. rewrite lookup_insert_ne by discriminate. rewrite lookup_insert. reflexivity. }
  split; [exact Hyear|]. split; [rewrite Hyear; apply parseInt_NumberToString; exact Hyb|].
  split; [exact Hcap|]. split; [rewrite Hcap; apply parseInt_NumberToString; exact Hcb|].
  split.
  - cbn [get]. rewrite lookup_insert. reflexivity.
  - intros k Hk1 Hk2 Hk3. cbn [get].
    rewrite !lookup_insert_ne by congruence. reflexivity.
Qed.

Lemma handleDeleteVehicle_unselected partnerId o
    (t : Browser.Tab Browser.Net VehicleList.State) :
  truthy (VehicleList.vehicleToDelete (Browser.view t)) = false ->
  Browser.advance (VehicleList.handleDeleteVehicle partnerId) t = (None, t)
  /\ Browser.run (Browser.answering o) (VehicleList.handleDeleteVehicle partnerId) t
     = (None, t).
Proof.
  intros Hf. submit_unfold. async_simpl. rewrite Hf. split; reflexivity.
Qed.

Lemma handleDeleteVehicle_no_id partnerId o e
    (t : Browser.Tab Browser.Net VehicleList.State) :
  truthy (VehicleList.vehicleToDelete (Browser.view t)) = true ->
  Browser.template (get (VehicleList.vehicleToDelete (Browser.view t)) "id")
  = Browser.Raised e ->
  let t' := {| Browser.view :=
                 VehicleList.add_toast
                   (Browser.toast_error (Browser.message_or e "Failed to delete vehicle"))
                   (Browser.view t);
               Browser.trace := Browser.trace t;
               Browser.in_flight := Browser.in_flight t |} in
  Browser.advance (VehicleList.handleDeleteVehicle partnerId) t = (None, t')
  /\ Browser.run (Browser.answering o) (VehicleList.handleDeleteVehicle partnerId) t
     = (None, t').
Proof.
  intros Ht He. submit_unfold. async_simpl. rewrite Ht, He. async_simpl.
  split; reflexivity.
Qed.

Lemma handleDeleteVehicle_advance partnerId id
    (t : Browser.Tab Browser.Net VehicleList.State) :
  truthy (VehicleList.vehicleToDelete (Browser.view t)) = true ->
  Browser.template (get (VehicleList.vehicleToDelete (Browser.view t)) "id")
  = Browser.Done id ->
  exists k,
    rest_of_delete partnerId k
    /\ Browser.advance (VehicleList.handleDeleteVehicle partnerId) t
       = (None,
          {| Browser.view := Browser.view t;
             Browser.trace :=
               (Browser.trace t
                ++ [Browser.performed (Browser.fetch (delete_request partnerId id))])%list;
             Browser.in_flight := (Browser.in_flight t ++ [k])%list |}).
Proof.
  intros Ht Hid. submit_unfold. async_simpl. rewrite Ht, Hid. async_simpl.
  eexists. split; [|reflexivity].
  intros o t0. cbn [Browser.resume Browser.answering].
  assert (Hfail : forall m,
    exists (m0 : Browser.Message) (t1 : Browser.Tab Browser.Net VehicleList.State),
      (None (A := Browser.Thrown),
       {| Browser.view := VehicleList.add_toast (Browser.toast_error m) (Browser.view t0);
          Browser.trace := Browser.trace t0; Browser.in_flight := Browser.in_flight t0 |})
      = (None, t1)
      /\ ((Browser.view t1
           = VehicleList.add_toast (Browser.toast_error m0) (Browser.view t0)
           /\ Browser.trace t1 = Browser.trace t0
           /\ Browser.in_flight t1 = Browser.in_flight t0)
          \/ (Browser.view t1
              = VehicleList.set_isLoading true
                  (VehicleList.set_vehicleToDelete JNull
                     (VehicleList.set_showDeleteVehicleDialog false
                        (VehicleList.add_toast (Browser.toast_success m0)
                           (Browser.view t0))))
              /\ reloading partnerId t0 t1))).
  { intros m. exists m. eexists. split; [reflexivity|]. left. repeat split. }
  destruct o as [response|e]; async_simpl; [|apply Hfail].
  destruct (Browser.ok response); async_simpl.
  - destruct (Browser.template (get (VehicleList.vehicleToDelete (Browser.view t)) "make"))
      as [make|e]; async_simpl; [|apply Hfail].
    destruct (Browser.template (get (VehicleList.vehicleToDelete (Browser.view t)) "model"))
      as [model|e]; async_simpl; [|apply Hfail].
    match goal with
    | |- context [Browser.advance (VehicleList.fetchPartnerVehicles partnerId) ?t'] =>
        destruct (started_load partnerId t') as [Hre Hview];
        destruct (Browser.advance (VehicleList.fetchPartnerVehicles partnerId) t')
          as [thrown t1] eqn:Hadv
    end.
    cbn [snd] in Hre, Hview. async_simpl.
    eexists. eexists. split; [reflexivity|]. right.
    rewrite Hview. async_simpl. split; [reflexivity|].
    destruct Hre as (k & Hk & Htrace & Hfl & Hload).
    exists k. cbn [Browser.trace Browser.in_flight Browser.view] in *.
    repeat split; assumption.
  - destruct (Browser.template (VehicleList.errorMessage_of response "Failed to delete vehicle"))
      as [m|e]; async_simpl; apply Hfail.
Qed.

Lemma handleDeleteVehicle_run partnerId id o
    (t : Browser.Tab Browser.Net VehicleList.State) :
  truthy (VehicleList.vehicleToDelete (Browser.view t)) = true ->
  Browser.template (get (VehicleList.vehicleToDelete (Browser.view t)) "id")
  = Browser.Done id ->
  let sent := (Browser.trace t
               ++ [Browser.performed (Browser.fetch (delete_request partnerId id))])%list in
  match delete_notice (VehicleList.vehicleToDelete (Browser.view t)) o with
  | Browser.toast_error m =>
      Browser.run (Browser.answering o) (VehicleList.handleDeleteVehicle partnerId) t
      = (None,
         {| Browser.view := VehicleList.add_toast (Browser.toast_error m) (Browser.view t);
            Browser.trace := sent;
            Browser.in_flight := Browser.in_flight t |})
  | Browser.toast_success m =>
      exists k,
        rest_of_load k
        /\ Browser.run (Browser.answering o) (VehicleList.handleDeleteVehicle partnerId) t
           = (None,
              {| Browser.view :=
                   VehicleList.set_isLoading true
                     (VehicleList.set_vehicleToDelete JNull
                        (VehicleList.set_showDeleteVehicleDialog false
                           (VehicleList.add_toast (Browser.toast_success m)
                              (Browser.view t))));
                 Browser.trace :=
                   (sent ++ [Browser.performed (Browser.fetch (load_request partnerId))])%list;
                 Browser.in_flight := (Browser.in_flight t ++ [k])%list |})
  end.
Proof.
  intros Ht Hid. cbv zeta. submit_unfold. async_simpl. rewrite Ht, Hid. async_simpl.
  unfold delete_notice, refusal_notice, Browser.answering.
  destruct o as [response|e]; async_simpl; [|reflexivity].
  destruct (Browser.ok response); async_simpl.
  - destruct (Browser.template (get (VehicleList.vehicleToDelete (Browser.view t)) "make"))
      as [make|e]; async_simpl; [|destruct e; reflexivity].
    destruct (Browser.template (get (VehicleList.vehicleToDelete (Browser.view t)) "model"))
      as [model|e]; async_simpl; [|destruct e; reflexivity].
    match goal with
    | |- context [Browser.advance (VehicleList.fetchPartnerVehicles partnerId) ?t'] =>
        destruct (fetchPartnerVehicles_advance partnerId t') as (k & Hk & ->)
    end.
    async_simpl. exists k. split; [exact Hk|reflexivity].
  - destruct (Browser.template (VehicleList.errorMessage_of response "Failed to delete vehicle"))
      as [m|e]; async_simpl; [reflexivity|destruct e; reflexivity].
Qed.

(** X28: the confirmed deletion.  With no vehicle selected the handler
    does nothing at all.  With one selected it never rejects and sends one
    DELETE, without body, for the id of that vehicle.  After an ok answer
    it notifies the deletion by make and model, closes the confirmation,
    drops the selection and starts a reload of the list; after any other
    answer it notifies the error (the [error] text of the answer when it
    has one) and keeps both the selection and the confirmation as they
    were, with no reload. *)
Theorem X28_delete_only_what_was_selected partnerId o
    (t : Browser.Tab Browser.Net VehicleList.State) :
  let before := Browser.view t in
  let vehicle := VehicleList.vehicleToDelete before in
  let result := Browser.run (Browser.answering o)
                  (VehicleList.handleDeleteVehicle partnerId) t in
  let after := Browser.view (snd result) in
  let notice := delete_notice vehicle o in
  fst result = None
  /\ (truthy vehicle = false -> snd result = t)
  /\ (forall id,
        truthy vehicle = true ->
        Browser.template (get vehicle "id") = Browser.Done id ->
        match notice with
        | Browser.toast_success _ =>
            after = VehicleList.set_isLoading true
                      (VehicleList.set_vehicleToDelete JNull
                         (VehicleList.set_showDeleteVehicleDialog false
                            (VehicleList.add_toast notice before)))
            /\ Browser.requests (snd result)
               = (Browser.requests t
                  ++ [delete_request partnerId id; load_request partnerId])%list
            /\ exists k, rest_of_load k
                         /\ Browser.in_flight (snd result)
                            = (Browser.in_flight t ++ [k])%list
        | Browser.toast_error _ =>
            after = VehicleList.add_toast notice before
            /\ Browser.requests (snd result)
               = (Browser.requests t ++ [delete_request partnerId id])%list
            /\ Browser.in_flight (snd result) = Browser.in_flight t
        end)
  /\ (forall e,
        truthy vehicle = true ->
        Browser.template (get vehicle "id") = Browser.Raised e ->
        snd result
        = {| Browser.view :=
               VehicleList.add_toast
                 (Browser.toast_error (Browser.message_or e "Failed to delete vehicle"))
                 before;
             Browser.trace := Browser.trace t;
             Browser.in_flight := Browser.in_flight t |})
  /\ (forall response mk md,
        o = Browser.Done response -> Browser.ok response = true ->
        get vehicle "make" = JStr mk -> get vehicle "model" = JStr md ->
        notice = Browser.toast_success
                   (Browser.Text ("Vehicle " +:+ mk +:+ " " +:+ md
                                  +:+ " deleted successfully")))
  /\ (forall response body msg,
        o = Browser.Done response -> Browser.ok response = false ->
        Browser.payload response = Browser.Json body ->
        get body "error" = JStr msg -> msg <> "" ->
        notice = Browser.toast_error (Browser.Text msg))
  /\ (forall e, o = Browser.Raised e ->
        notice = Browser.toast_error (Browser.Text "Network error when deleting vehicle")).
Proof.
  cbv zeta.
  split.
  { destruct (truthy (VehicleList.vehicleToDelete (Browser.view t))) eqn:Ht.
    - destruct (Browser.template (get (VehicleList.vehicleToDelete (Browser.view t)) "id"))
        as [id|e] eqn:Hid.
      + pose proof (handleDeleteVehicle_run partnerId id o t Ht Hid) as Hrun.
        cbv zeta in Hrun.
        destruct (delete_notice _ o); [destruct Hrun as (k & _ & ->)|rewrite Hrun];
          reflexivity.
      + destruct (handleDeleteVehicle_no_id partnerId o e t Ht Hid) as [_ ->]. reflexivity.
    - destruct (handleDeleteVehicle_unselected partnerId o t Ht) as [_ ->]. reflexivity. }
  split.
  { intros Ht. destruct (handleDeleteVehicle_unselected partnerId o t Ht) as [_ ->].
    reflexivity. }
  split.
  { intros id Ht Hid.
    pose proof (handleDeleteVehicle_run partnerId id o t Ht Hid) as Hrun.
    cbv zeta in Hrun.
    destruct (delete_notice _ o).
    - destruct Hrun as (k & Hk & ->). cbn [snd Browser.view Browser.in_flight].
      split; [reflexivity|]. split.
      + unfold Browser.requests. cbn [Browser.trace].
        rewrite !List.map_app, <- app_assoc. reflexivity.
      + exists k. split; [exact Hk|reflexivity].
    - rewrite Hrun. cbn [snd Browser.view Browser.in_flight].
      split; [reflexivity|]. split; [|reflexivity].
      unfold Browser.requests. cbn [Browser.trace]. rewrite !List.map_app. reflexivity. }
  split.
  { intros e Ht Hid. destruct (handleDeleteVehicle_no_id partnerId o e t Ht Hid) as [_ ->].
    reflexivity. }
  split.
  { intros response mk md -> Hok Hmk Hmd. cbn [delete_notice]. rewrite Hok, Hmk, Hmd.
    reflexivity. }
  split.
  { intros response body msg -> Hok Hp Hget Hne. cbn [delete_notice]. rewrite Hok.
    apply (refusal_with_text response body msg _ Hp Hget Hne). }
  intros e ->. reflexivity.
Qed.

(* ===================================================================== *)
(** ** The list along every run                                          *)
(* ===================================================================== *)

Lemma load_is_tame partnerId k : rest_of_load k -> tame partnerId k /\ clears_loading k.
Proof.
  intros Hk. split.
  - intros o t. eexists. split; [apply Hk|]. cbn [Browser.view Browser.trace Browser.in_flight].
    unfold loaded. destruct (load_outcome o); cbn;
      (split; [right; reflexivity|]); repeat (split; [reflexivity|]);
      (split; [left; reflexivity|]); left; repeat split; left; reflexivity.
  - intros o t. rewrite Hk. cbn [snd Browser.view]. unfold loaded.
    destruct (load_outcome o); reflexivity.
Qed.

Lemma edit_is_tame partnerId k : rest_of_edit k -> tame partnerId k /\ clears_submitting k.
Proof.
  intros Hk. split.
  - intros o t. eexists. split; [apply Hk|]. cbn [Browser.view Browser.trace Browser.in_flight].
    unfold edited. destruct (edit_outcome o); cbn;
      (split; [left; reflexivity|]); repeat (split; [reflexivity|]);
      (split; [left; reflexivity|]); left; repeat split; right; reflexivity.
  - intros o t. rewrite Hk. cbn [snd Browser.view]. unfold edited.
    destruct (edit_outcome o); reflexivity.
Qed.

Lemma submit_is_tame partnerId k :
  rest_of_submit partnerId k -> tame partnerId k /\ clears_submitting k.
Proof.
  intros Hk. split.
  - intros o t. destruct (Hk o t) as (m & t1 & Hadv & [(Hv & Htr & Hfl) | (Hv & Hre)]);
      exists t1; (split; [exact Hadv|]); rewrite Hv; cbn;
      (split; [left; reflexivity|]); repeat (split; [reflexivity|]);
      (split; [left; reflexivity|]).
    + left. repeat split; try assumption. right. reflexivity.
    + right. exact Hre.
  - intros o t. destruct (Hk o t) as (m & t1 & -> & [(Hv & _) | (Hv & _)]);
      cbn [snd]; rewrite Hv; reflexivity.
Qed.

Lemma delete_is_tame partnerId k : rest_of_delete partnerId k -> tame partnerId k.
Proof.
  intros Hk o t. destruct (Hk o t) as (m & t1 & Hadv & [(Hv & Htr & Hfl) | (Hv & Hre)]);
    exists t1; (split; [exact Hadv|]); rewrite Hv; cbn;
    (split; [right; reflexivity|]); repeat (split; [reflexivity|]).
  - split; [left; reflexivity|]. left. repeat split; try assumption. right. reflexivity.
  - split; [right; reflexivity|]. right. exact Hre.
Qed.

Lemma accounted_more partnerId evs more r :
  accounted partnerId evs r -> accounted partnerId (evs ++ more) r.
Proof.
  unfold accounted.
  intros [H | [(id & Hin & H) | [(data & Hin & Hc & H) | (v & id & Hin & Hid & H)]]].
  - left. exact H.
  - right. left. exists id. split; [apply in_or_app; left; exact Hin|exact H].
  - right. right. left. exists data. split; [apply in_or_app; left; exact Hin|].
    split; [exact Hc|].
    destruct H as [H | (id & Hid & H)]; [left; exact H|].
    right. exists id. split; [apply in_or_app; left; exact Hid|exact H].
  - right. right. right. exists v, id.
    split; [apply in_or_app; left; exact Hin|]. split; assumption.
Qed.

Lemma Exists_delete_or {A} (P : A -> Prop) (l : list A) i x :
  Exists P l -> l !! i = Some x -> P x \/ Exists P (delete i l).
Proof.
  intros HE. revert i. induction HE as [y l Hy | y l HE IH]; intros i Hi.
  - destruct i as [|i]; cbn in Hi.
    + injection Hi as <-. left. exact Hy.
    + right. cbn. apply Exists_cons_hd. exact Hy.
  - destruct i as [|i]; cbn in Hi.
    + right. cbn. exact HE.
    + destruct (IH i Hi) as [H|H]; [left; exact H|].
      right. cbn. apply Exists_cons_tl. exact H.
Qed.

Lemma requests_of_trace {S} (t t1 : Browser.Tab Browser.Net S) r :
  Browser.trace t1 = (Browser.trace t ++ [Browser.performed (Browser.fetch r)])%list ->
  Browser.requests t1 = (Browser.requests t ++ [r])%list.
Proof. unfold Browser.requests. intros ->. rewrite List.map_app. reflexivity. Qed.

Lemma requests_same_trace {S} (t t1 : Browser.Tab Browser.Net S) :
  Browser.trace t1 = Browser.trace t -> Browser.requests t1 = Browser.requests t.
Proof. unfold Browser.requests. intros ->. reflexivity. Qed.

(** The invariant survives a step that appends to what is waiting and to
    what has been sent. *)
Lemma invariant_extend partnerId evs evs' (t t1 : Browser.Tab Browser.Net VehicleList.State)
    new sent :
  list_invariant partnerId evs t ->
  (forall r, accounted partnerId evs r -> accounted partnerId evs' r) ->
  Browser.in_flight t1 = (Browser.in_flight t ++ new)%list ->
  Forall (tame partnerId) new ->
  Browser.requests t1 = (Browser.requests t ++ sent)%list ->
  Forall (accounted partnerId evs') sent ->
  (VehicleList.isLoading (Browser.view t1) = true ->
   VehicleList.isLoading (Browser.view t) = true \/ Exists clears_loading new) ->
  (VehicleList.isSubmitting (Browser.view t1) = true ->
   VehicleList.isSubmitting (Browser.view t) = true \/ Exists clears_submitting new) ->
  match VehicleList.currentVehicleId (Browser.view t1) with
  | Some id =>
      VehicleList.isEditingVehicle (Browser.view t1) = true
      /\ In (VehicleList.ClickEdit id) evs'
  | None => VehicleList.isEditingVehicle (Browser.view t1) = false
  end ->
  (VehicleList.vehicleToDelete (Browser.view t1) = JNull
   \/ In (VehicleList.ClickDelete (VehicleList.vehicleToDelete (Browser.view t1))) evs') ->
  list_invariant partnerId evs' t1.
Proof.
  intros (Htame & Hload & Hsub & Hreq & _ & _) Hmore Hfl Hnew Hsent Hacc Hl Hs Hmode Hdel.
  unfold list_invariant. rewrite Hfl, Hsent.
  split; [apply Forall_app; split; assumption|].
  split.
  { intros H. apply Exists_app. destruct (Hl H) as [H1|H1]; [left; apply Hload; exact H1|right; exact H1]. }
  split.
  { intros H. apply Exists_app. destruct (Hs H) as [H1|H1]; [left; apply Hsub; exact H1|right; exact H1]. }
  split.
  { apply Forall_app. split; [|exact Hacc].
    eapply Forall_impl; [exact Hreq|]. exact Hmore. }
  split; assumption.
Qed.

Lemma mode_more evs more (s : VehicleList.State) :
  match VehicleList.currentVehicleId s with
  | Some id => VehicleList.isEditingVehicle s = true /\ In (VehicleList.ClickEdit id) evs
  | None => VehicleList.isEditingVehicle s = false
  end ->
  match VehicleList.currentVehicleId s with
  | Some id =>
      VehicleList.isEditingVehicle s = true /\ In (VehicleList.ClickEdit id) (evs ++ more)
  | None => VehicleList.isEditingVehicle s = false
  end.
Proof.
  destruct (VehicleList.currentVehicleId s); [|auto].
  intros [H1 H2]. split; [exact H1|apply in_or_app; left; exact H2].
Qed.

Lemma selection_more evs more (v : JSValue) :
  v = JNull \/ In (VehicleList.ClickDelete v) evs ->
  v = JNull \/ In (VehicleList.ClickDelete v) (evs ++ more).
Proof. intros [H|H]; [left; exact H|right; apply in_or_app; left; exact H]. Qed.

Lemma invariant_settle partnerId evs i o (t : Browser.Tab Browser.Net VehicleList.State) :
  list_invariant partnerId evs t ->
  list_invariant partnerId (evs ++ [VehicleList.Answer i o])
    (snd (Browser.settle i (Browser.answering o) t)).
Proof.
  intros Hinv. pose proof Hinv as (Htame & Hload & Hsub & Hreq & Hmode & Hdel).
  unfold Browser.settle. destruct (Browser.in_flight t !! i) as [k|] eqn:Hk.
  2: { cbn [snd]. apply (invariant_extend partnerId evs _ t t [] []); try assumption.
       - intros r. apply accounted_more.
       - symmetry. apply app_nil_r.
       - constructor.
       - symmetry. apply app_nil_r.
       - constructor.
       - intros H. left. exact H.
       - intros H. left. exact H.
       - apply mode_more. exact Hmode.
       - apply selection_more. exact Hdel. }
  set (t0 := {| Browser.view := Browser.view t; Browser.trace := Browser.trace t;
                Browser.in_flight := delete i (Browser.in_flight t) |}).
  pose proof (proj1 (Forall_lookup _ _) Htame i k Hk) as Hkt.
  destruct (Hkt o t0) as (t1 & Hadv & Hs & Hcur & Hed & Hvd & Hrest).
  assert (Hcl : clears_loading k -> VehicleList.isLoading (Browser.view t1) = false).
  { intros H. specialize (H o t0). rewrite Hadv in H. exact H. }
  assert (Hcs : clears_submitting k -> VehicleList.isSubmitting (Browser.view t1) = false).
  { intros H. specialize (H o t0). rewrite Hadv in H. exact H. }
  rewrite Hadv. cbn [snd]. unfold list_invariant.
  assert (Hfl : exists new,
             Browser.in_flight t1 = (delete i (Browser.in_flight t) ++ new)%list
             /\ Forall (tame partnerId) new
             /\ (VehicleList.isLoading (Browser.view t1) = true ->
                 VehicleList.isLoading (Browser.view t) = true \/ Exists clears_loading new)
             /\ exists sent, Browser.requests t1 = (Browser.requests t ++ sent)%list
                             /\ Forall (accounted partnerId (evs ++ [VehicleList.Answer i o])) sent).
  { destruct Hrest as [(Htr & Hf & Hl) | (k' & Hk' & Htr & Hf & Hl)].
    - exists []. rewrite app_nil_r. split; [exact Hf|]. split; [constructor|].
      split.
      + intros H. left. destruct Hl as [Hl|Hl]; [congruence|]. rewrite Hl in H. exact H.
      + exists []. rewrite app_nil_r. split; [|constructor].
        apply (requests_same_trace t0 t1 Htr).
    - exists [k']. split; [exact Hf|]. split.
      + constructor; [|constructor]. apply (load_is_tame partnerId k' Hk').
      + split.
        * intros _. right. constructor. apply (load_is_tame partnerId k' Hk').
        * exists [load_request partnerId]. split.
          -- apply (requests_of_trace t0 t1 _ Htr).
          -- constructor; [|constructor]. left. reflexivity. }
  destruct Hfl as (new & Hfl & Hnew & Hl & sent & Hsent & Hacc).
  rewrite Hfl, Hsent.
  split.
  { apply Forall_app. split; [|exact Hnew]. apply Forall_delete. exact Htame. }
  split.
  { intros H. apply Exists_app. destruct (Hl H) as [H1|H1]; [|right; exact H1].
    destruct (Exists_delete_or _ _ i k (Hload H1) Hk) as [Hc|Hc]; [|left; exact Hc].
    rewrite (Hcl Hc) in H. discriminate H. }
  split.
  { intros H. apply Exists_app. left.
    destruct Hs as [Hs|Hs]; [congruence|].
    assert (H1 : VehicleList.isSubmitting (Browser.view t) = true)
      by (rewrite Hs in H; exact H).
    destruct (Exists_delete_or _ _ i k (Hsub H1) Hk) as [Hc|Hc]; [|exact Hc].
    rewrite (Hcs Hc) in H. discriminate H. }
  split.
  { apply Forall_app. split; [|exact Hacc].
    eapply Forall_impl; [exact Hreq|]. intros r. apply accounted_more. }
  split.
  { rewrite Hcur, Hed. apply mode_more. exact Hmode. }
  destruct Hvd as [Hvd|Hvd]; [|left; exact Hvd].
  rewrite Hvd. apply selection_more. exact Hdel.
Qed.

Lemma handleSubmitVehicle_throws partnerId data e
    (t : Browser.Tab Browser.Net VehicleList.State) :
  VehicleList.missingFields_of data = Browser.Raised e ->
  Browser.advance (VehicleList.handleSubmitVehicle partnerId data) t = (Some e, t).
Proof. intros H. submit_unfold. rewrite H. reflexivity. Qed.

Lemma submit_request_accounted partnerId evs data (s : VehicleList.State) :
  complete data ->
  match VehicleList.currentVehicleId s with
  | Some id => VehicleList.isEditingVehicle s = true /\ In (VehicleList.ClickEdit id) evs
  | None => VehicleList.isEditingVehicle s = false
  end ->
  accounted partnerId (evs ++ [VehicleList.SubmitForm data])
    (submit_request partnerId s data).
Proof.
  intros Hc Hmode. right. right. left. exists data.
  split; [apply in_or_app; right; left; reflexivity|]. split; [exact Hc|].
  unfold submit_request.
  destruct (VehicleList.currentVehicleId s) as [id|].
  - destruct Hmode as [-> Hin]. right. exists id.
    split; [apply in_or_app; left; exact Hin|].
    cbn [andb]. destruct (String.eqb id ""); reflexivity.
  - rewrite Hmode. left. reflexivity.
Qed.

Lemma invariant_step partnerId evs ev (t : Browser.Tab Browser.Net VehicleList.State) :
  list_invariant partnerId evs t ->
  list_invariant partnerId (evs ++ [ev]) (VehicleList.step partnerId t ev).
Proof.
  intros Hinv. pose proof Hinv as (Htame & Hload & Hsub & Hreq & Hmode & Hdel).
  assert (Hmore : forall r, accounted partnerId evs r -> accounted partnerId (evs ++ [ev]) r)
    by (intros r; apply accounted_more).
  destruct ev as [currentYear | vehicleId | vehicle | | data | open | open | i o];
    cbn [VehicleList.step].
  - (* Add Vehicle *)
    apply (invariant_extend partnerId evs _ t _ [] []); try assumption;
      try (symmetry; apply app_nil_r); try apply Forall_nil_2;
      try (intros H; left; exact H).
    + reflexivity.
    + apply selection_more. exact Hdel.
  - (* Edit *)
    destruct (handleEditVehicle_advance partnerId vehicleId t) as (k & Hk & ->).
    cbn [snd].
    apply (invariant_extend partnerId evs _ t _ [k] [edit_request partnerId vehicleId]);
      try assumption.
    + reflexivity.
    + constructor; [|constructor]. apply (edit_is_tame partnerId k Hk).
    + unfold Browser.requests; cbn [Browser.trace]; rewrite List.map_app; reflexivity.
    + constructor; [|constructor]. right. left. exists vehicleId.
      split; [apply in_or_app; right; left; reflexivity|reflexivity].
    + intros H. left. exact H.
    + intros _. right. constructor. apply (edit_is_tame partnerId k Hk).
    + cbn. split; [reflexivity|]. apply in_or_app. right. left. reflexivity.
    + apply selection_more. exact Hdel.
  - (* Delete *)
    apply (invariant_extend partnerId evs _ t _ [] []); try assumption;
      try (symmetry; apply app_nil_r); try apply Forall_nil_2;
      try (intros H; left; exact H).
    + apply mode_more. exact Hmode.
    + right. apply in_or_app. right. left. reflexivity.
  - (* the confirmation *)
    destruct (truthy (VehicleList.vehicleToDelete (Browser.view t))) eqn:Ht.
    + destruct (Browser.template (get (VehicleList.vehicleToDelete (Browser.view t)) "id"))
        as [id|e] eqn:Hid.
      * destruct (handleDeleteVehicle_advance partnerId id t Ht Hid) as (k & Hk & ->).
        cbn [snd].
        apply (invariant_extend partnerId evs _ t _ [k] [delete_request partnerId id]);
          try assumption.
        -- reflexivity.
        -- constructor; [|constructor]. apply (delete_is_tame partnerId k Hk).
        -- unfold Browser.requests; cbn [Browser.trace]; rewrite List.map_app; reflexivity.
        -- constructor; [|constructor]. right. right. right.
           exists (VehicleList.vehicleToDelete (Browser.view t)), id.
           split; [|split; [exact Hid|reflexivity]].
           destruct Hdel as [Hn|Hin]; [rewrite Hn in Ht; discriminate Ht|].
           apply in_or_app. left. exact Hin.
        -- intros H. left. exact H.
        -- intros H. left. exact H.
        -- apply mode_more. exact Hmode.
        -- apply selection_more. exact Hdel.
      * destruct (handleDeleteVehicle_no_id partnerId (Browser.Raised Browser.OtherValue)
                    e t Ht Hid) as [-> _].
        cbn [snd].
        apply (invariant_extend partnerId evs _ t _ [] []); try assumption;
          try (symmetry; apply app_nil_r); try apply Forall_nil_2;
          try (intros H; left; exact H).
        -- apply mode_more. exact Hmode.
        -- apply selection_more. exact Hdel.
    + destruct (handleDeleteVehicle_unselected partnerId (Browser.Raised Browser.OtherValue)
                  t Ht) as [-> _].
      cbn [snd].
      apply (invariant_extend partnerId evs _ t _ [] []); try assumption;
        try (symmetry; apply app_nil_r); try apply Forall_nil_2;
        try (intros H; left; exact H).
      * apply mode_more. exact Hmode.
      * apply selection_more. exact Hdel.
  - (* the form *)
    destruct (VehicleList.missingFields_of data) as [fields|e] eqn:Hm.
    + destruct fields as [|f fields].
      * destruct (handleSubmitVehicle_complete partnerId data t Hm) as (k & Hk & ->).
        cbn [snd].
        apply (invariant_extend partnerId evs _ t _ [k]
                 [submit_request partnerId (Browser.view t) data]); try assumption.
        -- reflexivity.
        -- constructor; [|constructor]. apply (submit_is_tame partnerId k Hk).
        -- unfold Browser.requests; cbn [Browser.trace]; rewrite List.map_app; reflexivity.
        -- constructor; [|constructor].
           apply submit_request_accounted; assumption.
        -- intros H. left. exact H.
        -- intros _. right. constructor. apply (submit_is_tame partnerId k Hk).
        -- apply mode_more. exact Hmode.
        -- apply selection_more. exact Hdel.
      * rewrite (handleSubmitVehicle_incomplete partnerId data (f :: fields) t Hm)
          by discriminate.
        cbn [snd].
        apply (invariant_extend partnerId evs _ t _ [] []); try assumption;
          try (symmetry; apply app_nil_r); try apply Forall_nil_2;
          try (intros H; left; exact H).
        -- intros H. discriminate H.
        -- apply mode_more. exact Hmode.
        -- apply selection_more. exact Hdel.
    + rewrite (handleSubmitVehicle_throws partnerId data e t Hm). cbn [snd].
      apply (invariant_extend partnerId evs _ t _ [] []); try assumption;
        try (symmetry; apply app_nil_r); try apply Forall_nil_2;
        try (intros H; left; exact H).
      * apply mode_more. exact Hmode.
      * apply selection_more. exact Hdel.
  - (* the dialog *)
    apply (invariant_extend partnerId evs _ t _ [] []); try assumption;
      try (symmetry; apply app_nil_r); try apply Forall_nil_2;
      try (intros H; left; exact H).
    + apply mode_more. exact Hmode.
    + apply selection_more. exact Hdel.
  - (* the confirmation dialog *)
    apply (invariant_extend partnerId evs _ t _ [] []); try assumption;
      try (symmetry; apply app_nil_r); try apply Forall_nil_2;
      try (intros H; left; exact H).
    + apply mode_more. exact Hmode.
    + apply selection_more. exact Hdel.
  - apply invariant_settle. exact Hinv.
Qed.

Lemma invariant_mounted partnerId :
  partnerId <> "" -> list_invariant partnerId [] (VehicleList.mounted partnerId).
Proof.
  intros Hp. unfold VehicleList.mounted, VehicleList.useEffect.
  destruct (String.eqb_spec partnerId ""); [contradiction|].
  cbn [negb]. unfold Browser.start. cbn [Browser.advance].
  destruct (fetchPartnerVehicles_advance partnerId (Browser.opened VehicleList.initial))
    as (k & Hk & ->).
  cbn [snd]. unfold list_invariant. cbn [Browser.view Browser.in_flight app].
  split; [constructor; [apply (load_is_tame partnerId k Hk)|constructor]|].
  split; [intros _; constructor; apply (load_is_tame partnerId k Hk)|].
  split; [intros H; discriminate H|].
  split; [constructor; [left; reflexivity|constructor]|].
  split; [reflexivity|left; reflexivity].
Qed.

Lemma after_snoc partnerId evs ev :
  VehicleList.after partnerId (evs ++ [ev])
  = VehicleList.step partnerId (VehicleList.after partnerId evs) ev.
Proof. unfold VehicleList.after. rewrite fold_left_app. reflexivity. Qed.

Lemma invariant_after partnerId evs :
  partnerId <> "" -> list_invariant partnerId evs (VehicleList.after partnerId evs).
Proof.
  intros Hp. induction evs as [|ev evs IH] using rev_ind.
  - apply invariant_mounted. exact Hp.
  - rewrite after_snoc. apply invariant_step. exact IH.
Qed.

(** X29: a list mounted for a partner is never left busy.  Along every
    sequence of clicks, submissions, dialog changes and answers, taken in
    any order and with any answers: while the loading flag is on, a load
    is waiting for its answer, and while the submitting flag is on, a save
    or an edit request is; so once nothing is waiting, the list shows
    neither the spinner nor the submitting state. *)
Theorem X29_idle_list_is_not_busy partnerId evs :
  partnerId <> "" ->
  let t := VehicleList.after partnerId evs in
  (VehicleList.isLoading (Browser.view t) = true ->
   Exists clears_loading (Browser.in_flight t))
  /\ (VehicleList.isSubmitting (Browser.view t) = true ->
      Exists clears_submitting (Browser.in_flight t))
  /\ (Browser.in_flight t = [] ->
      VehicleList.isLoading (Browser.view t) = false
      /\ VehicleList.isSubmitting (Browser.view t) = false).
Proof.
  intros Hp. cbv zeta.
  destruct (invariant_after partnerId evs Hp) as (_ & Hload & Hsub & _).
  split; [exact Hload|]. split; [exact Hsub|].
  intros Hidle. rewrite Hidle in Hload, Hsub. split.
  - destruct (VehicleList.isLoading _); [|reflexivity].
    specialize (Hload eq_refl). inversion Hload.
  - destruct (VehicleList.isSubmitting _); [|reflexivity].
    specialize (Hsub eq_refl). inversion Hsub.
Qed.

(** X30: a list mounted for a partner sends nothing of its own accord.
    Along every sequence of events, every request it has sent is a load of
    the partner's collection, a GET for a vehicle on which Edit was
    clicked, a form that passed the check of the five fields (as POST to
    the collection or as PUT for a vehicle on which Edit was clicked), or
    a DELETE for a vehicle on which Delete was clicked.  So every DELETE
    names a vehicle the user picked, and every POST or PUT carries a form
    with the five fields truthy.  The list is in edit mode exactly when it
    holds the id of a vehicle to edit, which is then one Edit was clicked
    on. *)
Theorem X30_every_request_is_accounted_for partnerId evs :
  partnerId <> "" ->
  let t := VehicleList.after partnerId evs in
  let s := Browser.view t in
  Forall (accounted partnerId evs) (Browser.requests t)
  /\ (forall r, In r (Browser.requests t) -> Browser.method r = "DELETE" ->
        exists vehicle id,
          In (VehicleList.ClickDelete vehicle) evs
          /\ Browser.template (get vehicle "id") = Browser.Done id
          /\ r = delete_request partnerId id)
  /\ (forall r, In r (Browser.requests t) ->
        Browser.method r = "POST" \/ Browser.method r = "PUT" ->
        exists data, In (VehicleList.SubmitForm data) evs
                     /\ Browser.sent r = Some data /\ complete data)
  /\ (VehicleList.isEditingVehicle s = true <->
      exists id, VehicleList.currentVehicleId s = Some id)
  /\ (forall id, VehicleList.currentVehicleId s = Some id ->
        In (VehicleList.ClickEdit id) evs)
  /\ (VehicleList.vehicleToDelete s = JNull
      \/ In (VehicleList.ClickDelete (VehicleList.vehicleToDelete s)) evs).
Proof.
  intros Hp. cbv zeta.
  destruct (invariant_after partnerId evs Hp) as (_ & _ & _ & Hreq & Hmode & Hdel).
  split; [exact Hreq|].
  split.
  { intros r Hin Hm. pose proof (proj1 (List.Forall_forall _ _) Hreq r Hin) as Hacc.
    destruct Hacc as [-> | [(id & _ & ->) | [(data & _ & _ & [-> | (id & _ & ->)])
                                           | (v & id & Hv & Hid & ->)]]];
      try discriminate Hm.
    exists v, id. repeat split; assumption. }
  split.
  { intros r Hin Hm. pose proof (proj1 (List.Forall_forall _ _) Hreq r Hin) as Hacc.
    destruct Hacc as [-> | [(id & _ & ->) | [(data & Hd & Hc & [-> | (id & _ & ->)])
                                           | (v & id & Hv & Hid & ->)]]];
      try (destruct Hm as [Hm|Hm]; discriminate Hm).
    - exists data. repeat split; assumption.
    - exists data. repeat split; assumption. }
  split.
  { destruct (VehicleList.currentVehicleId _) as [id|].
    - destruct Hmode as [-> _]. split; [intros _; exists id; reflexivity|reflexivity].
    - rewrite Hmode. split; [discriminate|intros (id & H); discriminate H]. }
  split.
  { intros id Hid. rewrite Hid in Hmode. apply Hmode. }
  exact Hdel.
Qed.

(* ===================================================================== *)
(** ** The properties of the list on sample data                         *)
(* ===================================================================== *)

Lemma X22_witness :
  Browser.trace
    (snd (Browser.run (Browser.answering duplicate_answer)
            (VehicleList.handleSubmitVehicle "p1" brand_only) idle_list))
  = Browser.trace idle_list.
Proof.
  refine (proj1 (proj2 (proj2 (proj2
            (X22_incomplete_form_is_not_sent "p1" brand_only "model" duplicate_answer
               idle_list _ _ _))))).
  - reflexivity.
  - right. left. reflexivity.
  - vm_compute. reflexivity.
Defined.

Lemma X23_witness :
  Browser.requests (snd (Browser.advance
                           (VehicleList.handleSubmitVehicle "p1" mercedes_body) idle_list))
  = (Browser.requests idle_list
     ++ [submit_request "p1" (Browser.view idle_list) mercedes_body])%list.
Proof.
  refine (proj1 (proj2 (X23_complete_form_is_sent_once "p1" mercedes_body idle_list _))).
  vm_compute. reflexivity.
Defined.

Lemma X24_witness :
  VehicleList.isSubmitting
    (Browser.view
       (snd (Browser.run (Browser.answering duplicate_answer)
               (VehicleList.handleSubmitVehicle "p1" mercedes_body) idle_list)))
  = false.
Proof.
  refine (proj1 (proj2 (X24_save_is_reported_once "p1" mercedes_body duplicate_answer
                          idle_list _))).
  vm_compute. reflexivity.
Defined.

Lemma X25_witness :
  Browser.method (submit_request "p1" (Browser.view idle_list) mercedes_body) = "POST".
Proof.
  refine (proj1 (X25_list_save_against_POST sample_json sample_reason (Some "u1") "p1"
                   mercedes_body fresh_world idle_list _ _ _ _)).
  - intros v. split; vm_compute; reflexivity.
  - vm_compute. reflexivity.
  - intros k [<-|[<-|[<-|[]]]]; vm_compute; reflexivity.
  - reflexivity.
Defined.

Lemma X27_witness :
  parseInt
    (get (VehicleList.defaultValues
            (Browser.view
               (snd (Browser.run (Browser.answering (Browser.Done clio_details))
                       (VehicleList.handleEditVehicle "p1" "v1") idle_list))))
         "year")
  = Int 2019.
Proof.
  refine (proj1 (proj2 (proj2
            (X27_edit_form_defaults "p1" "v1" clio_details clio_fields 2019 4 idle_list
               _ _ _ _ _ _)))).
  - reflexivity.
  - reflexivity.
  - vm_compute. reflexivity.
  - vm_compute. reflexivity.
  - unfold safe_integer. lia.
  - unfold safe_integer. lia.
Defined.

Lemma X29_witness :
  VehicleList.isLoading
    (Browser.view (VehicleList.after "p1" [VehicleList.Answer 0 empty_list_answer]))
  = false.
Proof.
  refine (proj1 (proj2 (proj2
            (X29_idle_list_is_not_busy "p1" [VehicleList.Answer 0 empty_list_answer] _)) _)).
  - discriminate.
  - vm_compute. reflexivity.
Defined.

Lemma X30_witness :
  Forall (accounted "p1" [VehicleList.ClickDelete (JObj clio_fields);
                          VehicleList.ClickConfirmDelete])
    (Browser.requests
       (VehicleList.after "p1" [VehicleList.ClickDelete (JObj clio_fields);
                                VehicleList.ClickConfirmDelete])).
Proof.
  refine (proj1 (X30_every_request_is_accounted_for "p1"
                   [VehicleList.ClickDelete (JObj clio_fields);
                    VehicleList.ClickConfirmDelete] _)).
  discriminate.
Defined.
